(** * A2UI agent server: a shallow embedding of the message builder, the page
    router and the action dispatcher of [a2ui_frontend/server].

    Python values are modelled by [pyval]; a [dict] is an association list
    in insertion order; a yielded JSON Lines message is modelled by the
    Python object handed to [json.dumps]. *)

#[local] Set Warnings "-register-all".
From Stdlib Require Import String Ascii ZArith List Bool Lia.
Import ListNotations.
Open Scope string_scope.

(** ** Python values *)

Inductive pyval : Type :=
| PNone
| PBool (b : bool)
| PInt (z : Z)
| PFloat (repr : string)          (* a float, carried by its [repr] *)
| PStr (s : string)
| PList (items : list pyval)
| PDict (items : list (pyval * pyval))
| POther (tyname : string) (text : string).
(* [POther] stands for a value of any other type (tuple, set, object ...);
   [text] is what [str] and [repr] print for it. *)

(** Decimal rendering of integers, as [str(int)]. *)
Fixpoint digits_of (fuel : nat) (n : N) (acc : string) : string :=
  match fuel with
  | O => acc
  | S f =>
      let d := N.modulo n 10 in
      let c := ascii_of_N (48 + d) in
      let q := N.div n 10 in
      if (q =? 0)%N then String c acc else digits_of f q (String c acc)
  end.

Definition N_dec (n : N) : string := digits_of (S (N.size_nat n)) n "".

(** [str(z)] for an int of at most 4300 decimal digits; beyond that CPython
    raises [ValueError] (see [str_too_long]). *)
Definition Z_dec (z : Z) : string :=
  match z with
  | Z0 => "0"
  | Zpos p => N_dec (Npos p)
  | Zneg p => "-" ++ N_dec (Npos p)
  end.

Definition nat_dec (n : nat) : string := N_dec (N.of_nat n).

(** String helpers. *)
Fixpoint str_contains_char (c : ascii) (s : string) : bool :=
  match s with
  | EmptyString => false
  | String d r => Ascii.eqb c d || str_contains_char c r
  end.

Fixpoint str_concat (sep : string) (l : list string) : string :=
  match l with
  | [] => ""
  | [x] => x
  | x :: r => x ++ sep ++ str_concat sep r
  end.

Fixpoint starts_with (p s : string) : bool :=
  match p, s with
  | EmptyString, _ => true
  | String a p', String b s' => Ascii.eqb a b && starts_with p' s'
  | String _ _, EmptyString => false
  end.

(** [needle in hay] for strings. *)
Fixpoint str_in (needle hay : string) : bool :=
  starts_with needle hay ||
  match hay with
  | EmptyString => false
  | String _ r => str_in needle r
  end.

Definition hex_digit (n : N) : ascii :=
  if (n <? 10)%N then ascii_of_N (48 + n) else ascii_of_N (87 + n).

(** [repr] of a [str].  Strings are byte strings (UTF-8); bytes from 0x80 on
    are kept as they are, which is what CPython does for printable
    non-ASCII characters. *)
Definition repr_char (q : ascii) (c : ascii) : string :=
  let n := N_of_ascii c in
  if Ascii.eqb c "\" then "\\"
  else if Ascii.eqb c q then String "\" (String q EmptyString)
  else if (n =? 10)%N then "\n"
  else if (n =? 13)%N then "\r"
  else if (n =? 9)%N then "\t"
  else if (n <? 32)%N || (n =? 127)%N then
    "\x" ++ String (hex_digit (N.div n 16)) (String (hex_digit (N.modulo n 16)) EmptyString)
  else String c EmptyString.

Fixpoint repr_body (q : ascii) (s : string) : string :=
  match s with
  | EmptyString => ""
  | String c r => repr_char q c ++ repr_body q r
  end.

(** The double quote character. *)
Definition dquote : ascii := ascii_of_N 34.

Definition repr_str (s : string) : string :=
  let q := if str_contains_char "'" s && negb (str_contains_char dquote s)
           then dquote else "'"%char in
  String q (repr_body q s ++ String q EmptyString).

Fixpoint py_repr (v : pyval) : string :=
  match v with
  | PNone => "None"
  | PBool true => "True"
  | PBool false => "False"
  | PInt z => Z_dec z
  | PFloat r => r
  | PStr s => repr_str s
  | PList l => "[" ++ str_concat ", " (map py_repr l) ++ "]"
  | PDict kv =>
      "{" ++ str_concat ", "
               (map (fun '(k, x) => py_repr k ++ ": " ++ py_repr x) kv) ++ "}"
  | POther _ t => t
  end.

(** [str(v)], also what an f-string substitutes for [{v}]. *)
Definition py_str (v : pyval) : string :=
  match v with
  | PStr s => s
  | _ => py_repr v
  end.

(** Truthiness, [bool(v)]. *)
Definition truthy (v : pyval) : bool :=
  match v with
  | PNone => false
  | PBool b => b
  | PInt z => negb (z =? 0)%Z
  | PFloat r => negb (String.eqb r "0.0" || String.eqb r "-0.0")
  | PStr s => negb (String.eqb s "")
  | PList l => negb (Nat.eqb (length l) 0)
  | PDict kv => negb (Nat.eqb (length kv) 0)
  | POther _ _ => true
  end.

(** [d.get(k, default)] for a string key [k]. *)
Fixpoint dict_get (kv : list (pyval * pyval)) (k : string) (default : pyval) : pyval :=
  match kv with
  | [] => default
  | (PStr k', x) :: r => if String.eqb k k' then x else dict_get r k default
  | _ :: r => dict_get r k default
  end.

(** [isinstance] tests of [build_value_map_from_dict]; [bool] is a subclass
    of [int] in Python, so [isinstance(True, (int, float))] holds. *)
Definition is_str (v : pyval) : bool := match v with PStr _ => true | _ => false end.
Definition is_bool (v : pyval) : bool := match v with PBool _ => true | _ => false end.
Definition is_int_or_float (v : pyval) : bool :=
  match v with PBool _ | PInt _ | PFloat _ => true | _ => false end.
Definition is_none (v : pyval) : bool := match v with PNone => true | _ => false end.

(** ** Data model helpers ([a2ui_builder.py]) *)

Definition value_string (key value : pyval) : pyval :=
  PDict [(PStr "key", key); (PStr "valueString", value)].
Definition value_number (key value : pyval) : pyval :=
  PDict [(PStr "key", key); (PStr "valueNumber", value)].
Definition value_bool (key value : pyval) : pyval :=
  PDict [(PStr "key", key); (PStr "valueBoolean", value)].
Definition value_map (key : pyval) (items : list pyval) : pyval :=
  PDict [(PStr "key", key); (PStr "valueMap", PList items)].

(** [conv v] is [build_value_map_from_dict(v)] when [v] is a dict and the
    list-to-map conversion of its [list] branch when [v] is a list, in the
    case where nothing is raised; [conv_checked] below adds the exception. *)
Fixpoint conv (v : pyval) : list pyval :=
  match v with
  | PDict kv =>
      (fix go (kv : list (pyval * pyval)) : list pyval :=
         match kv with
         | [] => []
         | (key, value) :: r =>
             (if is_str value then [value_string key value]
              else if is_bool value then [value_bool key value]
              else if is_int_or_float value then [value_number key value]
              else match value with
                   | PDict _ => [value_map key (conv value)]
                   | PList _ => [value_map key (conv value)]
                   | PNone => [value_string key (PStr "")]
                   | _ => []
                   end) ++ go r
         end)%list kv
  | PList l =>
      (fix go (i : nat) (l : list pyval) : list pyval :=
         match l with
         | [] => []
         | item :: r =>
             (match item with
              | PDict _ => value_map (PStr ("item" ++ nat_dec i)) (conv item)
              | _ => value_string (PStr ("item" ++ nat_dec i)) (PStr (py_str item))
              end) :: go (S i) r
         end) 0 l
  | _ => []
  end.

Definition build_value_map_from_dict (data : list (pyval * pyval)) : list pyval :=
  conv (PDict data).

(** ** The builder ([A2UIBuilder]) *)

Record builder : Type := mk_builder {
  surface_id : string;
  components : list pyval;
  data_updates : list pyval
}.

Definition new_builder (sid : string) : builder := mk_builder sid [] [].

Definition reset (b : builder) : builder := mk_builder (surface_id b) [] [].

Definition append_component (b : builder) (c : pyval) : builder :=
  mk_builder (surface_id b) (components b ++ [c])%list (data_updates b).

Definition literal_string (v : pyval) : pyval := PDict [(PStr "literalString", v)].
Definition path (v : string) : pyval := PDict [(PStr "path", PStr v)].

Definition is_dict (v : pyval) : bool := match v with PDict _ => true | _ => false end.

(** Optional keyword arguments are [PNone] when omitted. *)
Definition opt_prop (name : string) (v : pyval) : list (pyval * pyval) :=
  if truthy v then [(PStr name, v)] else [].

Definition component (cid kind : string) (props : list (pyval * pyval)) : pyval :=
  PDict [(PStr "id", PStr cid); (PStr "component", PDict [(PStr kind, PDict props)])].

Definition id_list (children : list string) : pyval := PList (map PStr children).

Definition text (b : builder) (cid : string) (t : pyval) (usage_hint : pyval) : builder :=
  let text_value := if is_dict t then t else literal_string t in
  append_component b (component cid "Text" ((PStr "text", text_value) :: opt_prop "usageHint" usage_hint)).

Definition button (b : builder) (cid child_id action_name : string) (context : pyval) : builder :=
  let action := PDict ((PStr "name", PStr action_name) :: opt_prop "context" context) in
  append_component b (component cid "Button" [(PStr "child", PStr child_id); (PStr "action", action)]).

Definition text_field (b : builder) (cid : string) (label t text_field_type : pyval) : builder :=
  let label_value := if is_dict label then label else literal_string label in
  let text_props :=
    if truthy t then [(PStr "text", if is_dict t then t else literal_string t)] else [] in
  append_component b (component cid "TextField"
    ((PStr "label", label_value) :: text_props ++ opt_prop "textFieldType" text_field_type)%list).

Definition column (b : builder) (cid : string) (children : list string) (alignment distribution : pyval) : builder :=
  append_component b (component cid "Column"
    ((PStr "children", PDict [(PStr "explicitList", id_list children)])
       :: opt_prop "alignment" alignment ++ opt_prop "distribution" distribution)%list).

Definition row (b : builder) (cid : string) (children : list string) (alignment distribution : pyval) : builder :=
  append_component b (component cid "Row"
    ((PStr "children", PDict [(PStr "explicitList", id_list children)])
       :: opt_prop "alignment" alignment ++ opt_prop "distribution" distribution)%list).

Definition card (b : builder) (cid child : string) : builder :=
  append_component b (component cid "Card" [(PStr "child", PStr child)]).

Definition list_component (b : builder) (cid : string) (children template : pyval)
  (direction : string) (alignment : pyval) : builder :=
  let child_props :=
    if truthy children then [(PStr "children", PDict [(PStr "explicitList", children)])]
    else if truthy template then [(PStr "children", PDict [(PStr "template", template)])]
    else [] in
  append_component b (component cid "List"
    ((PStr "direction", PStr direction) :: child_props ++ opt_prop "alignment" alignment)%list).

Definition icon (b : builder) (cid : string) (name : pyval) : builder :=
  let name_value := if is_dict name then name else literal_string name in
  append_component b (component cid "Icon" [(PStr "name", name_value)]).

Definition divider (b : builder) (cid : string) : builder :=
  append_component b (component cid "Divider" []).

(** Message builders: the object each one passes to [json.dumps]. *)
Definition build_surface_update (b : builder) : pyval :=
  PDict [(PStr "surfaceUpdate",
          PDict [(PStr "surfaceId", PStr (surface_id b));
                 (PStr "components", PList (components b))])].

Definition build_data_model_update (b : builder) (p : string) (contents : list pyval) : pyval :=
  PDict [(PStr "dataModelUpdate",
          PDict [(PStr "surfaceId", PStr (surface_id b)); (PStr "path", PStr p);
                 (PStr "contents", PList contents)])].

Definition build_begin_rendering (b : builder) (root : string) : pyval :=
  PDict [(PStr "beginRendering",
          PDict [(PStr "surfaceId", PStr (surface_id b)); (PStr "root", PStr root)])].

Definition build_delete_surface (b : builder) : pyval :=
  PDict [(PStr "deleteSurface", PDict [(PStr "surfaceId", PStr (surface_id b))])].

(** ** Page assemblers ([pages/layout.py], [pages/error.py], [pages/tickets.py]) *)

Definition ctx_entry (key : string) (value : pyval) : pyval :=
  PDict [(PStr "key", PStr key); (PStr "value", value)].
Definition lit (s : string) : pyval := PDict [(PStr "literalString", PStr s)].
Definition bind_path (s : string) : pyval := PDict [(PStr "path", PStr s)].

Definition build_app_layout (b : builder) (content_id active_nav : string) : builder :=
  let b := text b "nav-logo-text" (PStr "Ticket System") (PStr "h2") in
  let b := text b "nav-tickets-text" (PStr "票据管理") PNone in
  let b := button b "nav-tickets" "nav-tickets-text" "navigate" (PList [ctx_entry "to" (lit "/tickets")]) in
  let b := text b "nav-tags-text" (PStr "标签管理") PNone in
  let b := button b "nav-tags" "nav-tags-text" "navigate" (PList [ctx_entry "to" (lit "/tags")]) in
  let b := row b "nav-items" ["nav-tickets"; "nav-tags"] (PStr "center") PNone in
  let b := row b "nav-header" ["nav-logo-text"; "nav-items"] (PStr "center") (PStr "spaceBetween") in
  let b := divider b "divider-nav" in
  column b "app-layout" ["nav-header"; "divider-nav"; content_id] PNone PNone.

Definition build_not_found_page (b : builder) : builder * string :=
  let b := icon b "notfound-icon" (PStr "error_outline") in
  let b := text b "notfound-title" (PStr "404") (PStr "h1") in
  let b := text b "notfound-subtitle" (PStr "页面未找到") (PStr "h2") in
  let b := text b "notfound-desc" (PStr "您访问的页面不存在，请检查URL是否正确") PNone in
  let b := icon b "notfound-home-icon" (PStr "home") in
  let b := text b "notfound-home-text" (PStr "返回首页") PNone in
  let b := row b "notfound-home-content" ["notfound-home-icon"; "notfound-home-text"] (PStr "center") PNone in
  let b := button b "notfound-home-btn" "notfound-home-content" "navigate" (PList [ctx_entry "to" (lit "/tickets")]) in
  let b := column b "notfound-page"
             ["notfound-icon"; "notfound-title"; "notfound-subtitle"; "notfound-desc"; "notfound-home-btn"]
             (PStr "center") PNone in
  (b, "notfound-page").

Definition build_error_page (b : builder) (error_message : string) : builder * string :=
  let b := icon b "error-icon" (PStr "error") in
  let b := text b "error-title" (PStr "出错了") (PStr "h1") in
  let b := text b "error-message" (PStr error_message) PNone in
  let b := icon b "error-retry-icon" (PStr "refresh") in
  let b := text b "error-retry-text" (PStr "重试") PNone in
  let b := row b "error-retry-content" ["error-retry-icon"; "error-retry-text"] (PStr "center") PNone in
  let b := button b "error-retry-btn" "error-retry-content" "retry" (PList []) in
  let b := icon b "error-home-icon" (PStr "home") in
  let b := text b "error-home-text" (PStr "返回首页") PNone in
  let b := row b "error-home-content" ["error-home-icon"; "error-home-text"] (PStr "center") PNone in
  let b := button b "error-home-btn" "error-home-content" "navigate" (PList [ctx_entry "to" (lit "/tickets")]) in
  let b := row b "error-actions" ["error-retry-btn"; "error-home-btn"] (PStr "center") PNone in
  let b := column b "error-page" ["error-icon"; "error-title"; "error-message"; "error-actions"] (PStr "center") PNone in
  (b, "error-page").

Definition filter_button (b : builder) (cid label_id label action key value : string) : builder :=
  let b := text b label_id (PStr label) PNone in
  button b cid label_id action (PList [ctx_entry key (lit value)]).

Definition build_tickets_page (b : builder) : builder * string :=
  let b := text b "tickets-title" (PStr "票据列表") (PStr "h1") in
  let b := text b "tickets-add-text" (PStr "+ 新建票据") PNone in
  let b := button b "tickets-add-btn" "tickets-add-text" "navigate" (PList [ctx_entry "to" (lit "/tickets/new")]) in
  let b := row b "tickets-header" ["tickets-title"; "tickets-add-btn"] (PStr "center") (PStr "spaceBetween") in
  let b := text_field b "tickets-search" (PStr "搜索票据...") (path "/app/tickets/query/search") PNone in
  let b := text b "tickets-search-btn-text" (PStr "搜索") PNone in
  let b := button b "tickets-search-btn" "tickets-search-btn-text" "search_tickets"
             (PList [ctx_entry "search" (bind_path "/app/tickets/query/search")]) in
  let b := row b "tickets-search-row" ["tickets-search"; "tickets-search-btn"] (PStr "center") PNone in
  let b := filter_button b "filter-all" "filter-all-text" "全部" "filter_status" "status" "" in
  let b := filter_button b "filter-open" "filter-open-text" "待处理" "filter_status" "status" "open" in
  let b := filter_button b "filter-progress" "filter-progress-text" "处理中" "filter_status" "status" "in_progress" in
  let b := filter_button b "filter-completed" "filter-completed-text" "已完成" "filter_status" "status" "completed" in
  let b := filter_button b "filter-cancelled" "filter-cancelled-text" "已取消" "filter_status" "status" "cancelled" in
  let b := row b "tickets-status-filters"
             ["filter-all"; "filter-open"; "filter-progress"; "filter-completed"; "filter-cancelled"] (PStr "center") PNone in
  let b := filter_button b "priority-all" "priority-all-text" "全部优先级" "filter_priority" "priority" "" in
  let b := filter_button b "priority-low" "priority-low-text" "低" "filter_priority" "priority" "low" in
  let b := filter_button b "priority-medium" "priority-medium-text" "中" "filter_priority" "priority" "medium" in
  let b := filter_button b "priority-high" "priority-high-text" "高" "filter_priority" "priority" "high" in
  let b := filter_button b "priority-urgent" "priority-urgent-text" "紧急" "filter_priority" "priority" "urgent" in
  let b := row b "tickets-priority-filters"
             ["priority-all"; "priority-low"; "priority-medium"; "priority-high"; "priority-urgent"] (PStr "center") PNone in
  let b := column b "tickets-filters" ["tickets-search-row"; "tickets-status-filters"; "tickets-priority-filters"] PNone PNone in
  let b := card b "tickets-filters-card" "tickets-filters" in
  let b := text b "ticket-item-title" (path "title") (PStr "h3") in
  let b := text b "ticket-item-status" (path "statusLabel") PNone in
  let b := text b "ticket-item-priority" (path "priorityLabel") PNone in
  let b := text b "ticket-item-date" (path "created_at") PNone in
  let b := row b "ticket-item-meta" ["ticket-item-status"; "ticket-item-priority"; "ticket-item-date"] (PStr "center") PNone in
  let b := column b "ticket-item-content" ["ticket-item-title"; "ticket-item-meta"] PNone PNone in
  let b := text b "ticket-item-arrow" (PStr "→") PNone in
  let b := row b "ticket-item-row" ["ticket-item-content"; "ticket-item-arrow"] (PStr "center") (PStr "spaceBetween") in
  let b := button b "ticket-item-btn" "ticket-item-row" "view_ticket" (PList [ctx_entry "id" (bind_path "id")]) in
  let b := card b "ticket-item-card" "ticket-item-btn" in
  let b := list_component b "tickets-list" PNone
             (PDict [(PStr "componentId", PStr "ticket-item-card"); (PStr "dataBinding", PStr "/app/tickets/list")])
             "vertical" PNone in
  let b := text b "tickets-empty-title" (PStr "暂无票据") (PStr "h3") in
  let b := text b "tickets-empty-desc" (PStr "点击上方按钮创建第一个票据") PNone in
  let b := column b "tickets-empty" ["tickets-empty-title"; "tickets-empty-desc"] (PStr "center") PNone in
  let b := text b "pagination-prev-text" (PStr "← 上一页") PNone in
  let b := button b "pagination-prev" "pagination-prev-text" "paginate"
             (PList [ctx_entry "page" (bind_path "/app/tickets/pagination/prevPage")]) in
  let b := text b "pagination-info" (path "/app/tickets/pagination/info") PNone in
  let b := text b "pagination-next-text" (PStr "下一页 →") PNone in
  let b := button b "pagination-next" "pagination-next-text" "paginate"
             (PList [ctx_entry "page" (bind_path "/app/tickets/pagination/nextPage")]) in
  let b := row b "tickets-pagination" ["pagination-prev"; "pagination-info"; "pagination-next"] (PStr "center") (PStr "center") in
  let b := column b "tickets-content" ["tickets-list"; "tickets-pagination"] PNone PNone in
  let b := column b "tickets-page" ["tickets-header"; "tickets-filters-card"; "tickets-content"] PNone PNone in
  (b, "tickets-page").

(** ** Exceptions and the Python operations that raise *)

Record exn : Type := mk_exn { exn_type : string; exn_str : string }.

Definition res (A : Type) : Type := (A + exn)%type.

Definition rbind {A B} (m : res A) (k : A -> res B) : res B :=
  match m with inl a => k a | inr e => inr e end.

Notation "x <- m ;; k" := (rbind m (fun x => k)) (at level 61, m at next level, right associativity).

Definition py_type_name (v : pyval) : string :=
  match v with
  | PNone => "NoneType" | PBool _ => "bool" | PInt _ => "int" | PFloat _ => "float"
  | PStr _ => "str" | PList _ => "list" | PDict _ => "dict" | POther t _ => t
  end.

(** *** [build_value_map_from_dict] with its exceptions

    [str(item)] of a non-dict list item raises [ValueError] when the item
    is, or holds at any depth, an int of more than 4300 decimal digits
    (CPython 3.11 and later, message of 3.12).  [conv] is the result when
    nothing is raised.  Not modelled: [RecursionError] on cyclic or deeply
    nested data, and exceptions of the [__str__] of other objects. *)

Definition int_str_limit_error : exn :=
  mk_exn "ValueError"
    "Exceeds the limit (4300 digits) for integer string conversion; use sys.set_int_max_str_digits() to increase the limit".

Fixpoint str_too_long (v : pyval) : bool :=
  match v with
  | PInt z => (10 ^ 4300 <=? Z.abs z)%Z
  | PList l => existsb str_too_long l
  | PDict kv => existsb (fun '(k, x) => str_too_long k || str_too_long x) kv
  | _ => false
  end.

Fixpoint conv_checked (v : pyval) : res (list pyval) :=
  match v with
  | PDict kv =>
      (fix go (kv : list (pyval * pyval)) : res (list pyval) :=
         match kv with
         | [] => inl []
         | (key, value) :: r =>
             entry <- (if is_str value then inl [value_string key value]
                       else if is_bool value then inl [value_bool key value]
                       else if is_int_or_float value then inl [value_number key value]
                       else match value with
                            | PDict _ => items <- conv_checked value ;; inl [value_map key items]
                            | PList _ => items <- conv_checked value ;; inl [value_map key items]
                            | PNone => inl [value_string key (PStr "")]
                            | _ => inl []
                            end) ;;
             rest <- go r ;;
             inl (entry ++ rest)%list
         end) kv
  | PList l =>
      (fix go (i : nat) (l : list pyval) : res (list pyval) :=
         match l with
         | [] => inl []
         | item :: r =>
             entry <- match item with
                      | PDict _ => items <- conv_checked item ;; inl (value_map (PStr ("item" ++ nat_dec i)) items)
                      | _ => if str_too_long item then inr int_str_limit_error
                             else inl (value_string (PStr ("item" ++ nat_dec i)) (PStr (py_str item)))
                      end ;;
             rest <- go (S i) r ;;
             inl (entry :: rest)
         end) 0 l
  | _ => inl []
  end.

(** [build_value_map_from_dict(data)], raising. *)
Definition build_value_map_from_dict_checked (data : list (pyval * pyval)) : res (list pyval) :=
  conv_checked (PDict data).

(** [v.get(k, default)]: only a dict has [get]. *)
Definition method_get (v : pyval) (k : string) (default : pyval) : res pyval :=
  match v with
  | PDict kv => inl (dict_get kv k default)
  | _ => inr (mk_exn "AttributeError" ("'" ++ py_type_name v ++ "' object has no attribute 'get'"))
  end.

Fixpoint dict_lookup (kv : list (pyval * pyval)) (k : string) : option pyval :=
  match kv with
  | [] => None
  | (PStr k', x) :: r => if String.eqb k k' then Some x else dict_lookup r k
  | _ :: r => dict_lookup r k
  end.

(** [v[k]] for a string [k]. *)
Definition getitem (v : pyval) (k : string) : res pyval :=
  match v with
  | PDict kv =>
      match dict_lookup kv k with
      | Some x => inl x
      | None => inr (mk_exn "KeyError" (repr_str k))
      end
  | PStr _ | PList _ => inr (mk_exn "TypeError" (py_type_name v ++ " indices must be integers or slices, not str"))
  | _ => inr (mk_exn "TypeError" ("'" ++ py_type_name v ++ "' object is not subscriptable"))
  end.

Fixpoint str_chars (s : string) : list pyval :=
  match s with
  | EmptyString => []
  | String c r => PStr (String c EmptyString) :: str_chars r
  end.

(** [for x in v]: lists, strings and dict keys are iterable. *)
Definition py_iter (v : pyval) : res (list pyval) :=
  match v with
  | PList l => inl l
  | PStr s => inl (str_chars s)
  | PDict kv => inl (map fst kv)
  | _ => inr (mk_exn "TypeError" ("'" ++ py_type_name v ++ "' object is not iterable"))
  end.

(** [v[:10]]. *)
Definition slice10 (v : pyval) : res pyval :=
  match v with
  | PStr s => inl (PStr (substring 0 10 s))
  | PList l => inl (PList (firstn 10 l))
  | _ => inr (mk_exn "TypeError" ("'" ++ py_type_name v ++ "' object is not subscriptable"))
  end.

(** Integer arithmetic and comparison; [bool] counts as [int].  Float
    operands are not modelled and raise here. *)
Definition as_int (v : pyval) : option Z :=
  match v with
  | PInt z => Some z
  | PBool b => Some (if b then 1 else 0)%Z
  | _ => None
  end.

Definition arith_error (op : string) (a b : pyval) : exn :=
  mk_exn "TypeError" ("unsupported operand type(s) for " ++ op ++ ": '" ++ py_type_name a ++ "' and '" ++ py_type_name b ++ "'").

Definition py_add (a b : pyval) : res pyval :=
  match as_int a, as_int b with
  | Some x, Some y => inl (PInt (x + y))
  | _, _ => inr (arith_error "+" a b)
  end.

Definition py_sub (a b : pyval) : res pyval :=
  match as_int a, as_int b with
  | Some x, Some y => inl (PInt (x - y))
  | _, _ => inr (arith_error "-" a b)
  end.

Definition py_lt (a b : pyval) : res bool :=
  match as_int a, as_int b with
  | Some x, Some y => inl (x <? y)%Z
  | _, _ => inr (mk_exn "TypeError" ("'<' not supported between instances of '" ++ py_type_name a ++ "' and '" ++ py_type_name b ++ "'"))
  end.

(** [max(a, b)] keeps [a] unless [b > a]; [min(a, b)] keeps [a] unless [b < a]. *)
Definition py_max (a b : pyval) : res pyval :=
  c <- py_lt a b ;; inl (if c then b else a).
Definition py_min (a b : pyval) : res pyval :=
  c <- py_lt b a ;; inl (if c then b else a).

(** [TicketStatus(v)] and [Priority(v)] followed by the label tables. *)
Definition status_label (v : pyval) : res pyval :=
  match v with
  | PStr "open" => inl (PStr "待处理")
  | PStr "in_progress" => inl (PStr "处理中")
  | PStr "completed" => inl (PStr "已完成")
  | PStr "cancelled" => inl (PStr "已取消")
  | _ => inr (mk_exn "ValueError" (py_repr v ++ " is not a valid TicketStatus"))
  end.

Definition priority_label (v : pyval) : res pyval :=
  match v with
  | PStr "low" => inl (PStr "低")
  | PStr "medium" => inl (PStr "中")
  | PStr "high" => inl (PStr "高")
  | PStr "urgent" => inl (PStr "紧急")
  | _ => inr (mk_exn "ValueError" (py_repr v ++ " is not a valid Priority"))
  end.

(** [build_tickets_data(tickets_response)] ([pages/tickets.py]). *)
Definition ticket_entry (i : nat) (ticket : pyval) : res pyval :=
  id <- getitem ticket "id" ;;
  title <- getitem ticket "title" ;;
  status <- getitem ticket "status" ;;
  st <- getitem ticket "status" ;;
  status_lbl <- status_label st ;;
  priority <- getitem ticket "priority" ;;
  pr <- getitem ticket "priority" ;;
  priority_lbl <- priority_label pr ;;
  created <- getitem ticket "created_at" ;;
  created10 <- slice10 created ;;
  inl (value_map (PStr ("ticket" ++ nat_dec i))
         (build_value_map_from_dict
            [(PStr "id", id); (PStr "title", title); (PStr "status", status);
             (PStr "statusLabel", status_lbl); (PStr "priority", priority);
             (PStr "priorityLabel", priority_lbl); (PStr "created_at", created10)])).

Fixpoint ticket_entries (i : nat) (tickets : list pyval) : res (list pyval) :=
  match tickets with
  | [] => inl []
  | t :: r => e <- ticket_entry i t ;; es <- ticket_entries (S i) r ;; inl (e :: es)
  end.

Definition build_tickets_data (tickets_response : pyval) : res (list pyval) :=
  let b := new_builder "main" in
  page0 <- method_get tickets_response "page" (PInt 1) ;;
  let query_data := [value_string (PStr "search") (PStr ""); value_string (PStr "status") (PStr "");
                     value_string (PStr "priority") (PStr ""); value_number (PStr "page") page0] in
  let m_query := build_data_model_update b "/app/tickets/query" query_data in
  tickets <- method_get tickets_response "data" (PList []) ;;
  items <- py_iter tickets ;;
  list_data <- ticket_entries 0 items ;;
  let m_list := build_data_model_update b "/app/tickets/list" list_data in
  page <- method_get tickets_response "page" (PInt 1) ;;
  total_pages <- method_get tickets_response "total_pages" (PInt 1) ;;
  p1 <- py_sub page (PInt 1) ;;
  prev <- py_max (PInt 1) p1 ;;
  p2 <- py_add page (PInt 1) ;;
  next <- py_min total_pages p2 ;;
  let pagination_data :=
    [value_number (PStr "page") page; value_number (PStr "totalPages") total_pages;
     value_number (PStr "prevPage") prev; value_number (PStr "nextPage") next;
     value_string (PStr "info") (PStr ("第 " ++ py_str page ++ " 页 / 共 " ++ py_str total_pages ++ " 页"))] in
  inl [m_query; m_list; build_data_model_update b "/app/tickets/pagination" pagination_data].

(** [build_ticket_create_data()] ([pages/tickets.py]). *)
Definition build_ticket_create_data : list pyval :=
  [build_data_model_update (new_builder "main") "/app/form/create"
     [value_string (PStr "title") (PStr ""); value_string (PStr "description") (PStr "");
      value_string (PStr "priority") (PStr "medium")]].

(** ** [safe_int] ([main.py]) *)

Definition is_digit (c : ascii) : bool :=
  let n := N_of_ascii c in (48 <=? n)%N && (n <=? 57)%N.
Definition digit_val (c : ascii) : Z := Z.of_N (N_of_ascii c - 48).

Definition is_space (c : ascii) : bool :=
  let n := N_of_ascii c in
  (n =? 32)%N || ((9 <=? n)%N && (n <=? 13)%N) || ((28 <=? n)%N && (n <=? 31)%N).

Fixpoint lstrip (s : string) : string :=
  match s with
  | String c r => if is_space c then lstrip r else s
  | EmptyString => EmptyString
  end.

Definition strip (s : string) : string :=
  string_of_list_ascii (rev (list_ascii_of_string (lstrip
    (string_of_list_ascii (rev (list_ascii_of_string (lstrip s))))))).

(** Base-10 digits with single underscores between digits. *)
Fixpoint parse_digit_groups (s : string) (acc : Z) (after_digit : bool) : option Z :=
  match s with
  | EmptyString => if after_digit then Some acc else None
  | String c r =>
      if is_digit c then parse_digit_groups r (10 * acc + digit_val c) true
      else if Ascii.eqb c "_" && after_digit then
        match r with
        | String d _ => if is_digit d then parse_digit_groups r acc false else None
        | EmptyString => None
        end
      else None
  end.

(** [int(s)] for a [str] (ASCII digits); [None] is the [ValueError].
    CPython's 4300-digit limit is not modelled: statements that use it on
    read-back strings bound their integers by [10 ^ 4300]. *)
Definition int_of_str (s : string) : option Z :=
  match strip s with
  | String "-" r => option_map Z.opp (parse_digit_groups r 0 false)
  | String "+" r => parse_digit_groups r 0 false
  | t => parse_digit_groups t 0 false
  end.

(** [int(f)] for a float given by its [repr]: truncation toward zero. *)
Fixpoint take_digits (s : string) (acc : Z) (n : Z) : Z * Z * string :=
  match s with
  | String c r => if is_digit c then take_digits r (10 * acc + digit_val c) (n + 1) else (acc, n, s)
  | EmptyString => (acc, n, s)
  end.

Definition trunc_unsigned (r : string) : option Z :=
  let '(ip, _, r1) := take_digits r 0 0 in
  let '(m, f, r2) := match r1 with
                     | String "." r' => let '(fp, nf, r'') := take_digits r' ip 0 in (fp, nf, r'')
                     | _ => (ip, 0%Z, r1)
                     end in
  let e := match r2 with
           | String "e" (String "+" x) => parse_digit_groups x 0 false
           | String "e" (String "-" x) => option_map Z.opp (parse_digit_groups x 0 false)
           | EmptyString => Some 0%Z
           | _ => None
           end in
  match e with
  | Some e => let k := (e - f)%Z in
              Some (if (0 <=? k)%Z then m * 10 ^ k else m / 10 ^ (- k))%Z
  | None => None
  end.

Definition int_of_float_repr (r : string) : res (option Z) :=
  if String.eqb r "inf" || String.eqb r "-inf" then
    inr (mk_exn "OverflowError" "cannot convert float infinity to integer")
  else if String.eqb r "nan" then inl None
  else match r with
       | String "-" r' => inl (option_map Z.opp (trunc_unsigned r'))
       | _ => inl (trunc_unsigned r)
       end.

(** [safe_int(value, default)]: [ValueError] and [TypeError] give the
    default, [OverflowError] propagates. *)
Definition safe_int (value : pyval) (default : Z) : res Z :=
  match value with
  | PNone => inl default
  | PInt z => inl z
  | PBool b => inl (if b then 1 else 0)%Z
  | PStr s => inl (match int_of_str s with Some z => z | None => default end)
  | PFloat r => o <- int_of_float_repr r ;; inl (match o with Some z => z | None => default end)
  | _ => inl default
  end.

(** ** The backend collaborator ([api_client.py])

    [http method path params json] is the outcome of [ApiClient._request]:
    the decoded JSON body ([None] for a 204), or the exception raised by the
    transport or by [raise_for_status]. *)
Record backend : Type := mk_backend {
  http : string -> string -> list (string * pyval) -> pyval -> res pyval
}.

Section Api.
Variable be : backend.

Definition list_tickets (search status priority : pyval) (page : Z) : res pyval :=
  let params := [("page", PStr (Z_dec page)); ("per_page", PStr "20")] in
  let params := if truthy search then (params ++ [("search", search)])%list else params in
  let params := if truthy status then (params ++ [("status", status)])%list else params in
  let params := if truthy priority then (params ++ [("priority", priority)])%list else params in
  http be "GET" "/api/tickets" params PNone.

(** Ids are interpolated with f-strings, hence [py_str]. *)
Definition get_ticket (ticket_id : pyval) : res pyval :=
  http be "GET" ("/api/tickets/" ++ py_str ticket_id) [] PNone.
Definition get_ticket_history (ticket_id : pyval) : res pyval :=
  http be "GET" ("/api/tickets/" ++ py_str ticket_id ++ "/history") [] PNone.
Definition get_ticket_attachments (ticket_id : pyval) : res pyval :=
  http be "GET" ("/api/tickets/" ++ py_str ticket_id ++ "/attachments") [] PNone.
Definition list_tags : res pyval := http be "GET" "/api/tags" [] PNone.
Definition create_ticket (data : pyval) : res pyval := http be "POST" "/api/tickets" [] data.
Definition update_ticket (ticket_id data : pyval) : res pyval :=
  http be "PUT" ("/api/tickets/" ++ py_str ticket_id) [] data.
Definition delete_ticket (ticket_id : pyval) : res unit :=
  _ <- http be "DELETE" ("/api/tickets/" ++ py_str ticket_id) [] PNone ;; inl tt.
Definition update_ticket_status (ticket_id data : pyval) : res pyval :=
  http be "PATCH" ("/api/tickets/" ++ py_str ticket_id ++ "/status") [] data.
Definition create_tag (data : pyval) : res pyval := http be "POST" "/api/tags" [] data.
Definition delete_tag (tag_id : pyval) : res unit :=
  _ <- http be "DELETE" ("/api/tags/" ++ py_str tag_id) [] PNone ;; inl tt.

End Api.

(** [api_client.add_tag_to_ticket] is called by [process_action] but
    [ApiClient] defines no such method: the attribute lookup raises. *)
Definition add_tag_to_ticket (ticket_id tag_id : pyval) : res pyval :=
  inr (mk_exn "AttributeError" "'ApiClient' object has no attribute 'add_tag_to_ticket'").

(** ** The page generator ([generate_page_messages] in [main.py])

    An async generator sharing one builder: a computation threads the
    builder, collects the yielded messages and may stop on an exception. *)

Definition Gen (A : Type) : Type := builder -> list pyval * builder * res A.

Definition gret {A} (a : A) : Gen A := fun b => ([], b, inl a).

Definition gbind {A B} (m : Gen A) (k : A -> Gen B) : Gen B :=
  fun b =>
    let '(o1, b1, r) := m b in
    match r with
    | inl a => let '(o2, b2, r2) := k a b1 in ((o1 ++ o2)%list, b2, r2)
    | inr e => (o1, b1, inr e)
    end.

Notation "x <-- m ;;; k" := (gbind m (fun x => k)) (at level 61, m at next level, right associativity).
Notation "m ;;; k" := (gbind m (fun _ => k)) (at level 61, right associativity).

Definition glift {A} (r : res A) : Gen A := fun b => ([], b, r).
Definition gyield (msg : builder -> pyval) : Gen unit := fun b => ([msg b], b, inl tt).
Definition gyield_all (msgs : list pyval) : Gen unit := fun b => (msgs, b, inl tt).
Definition gpage (f : builder -> builder * string) : Gen string :=
  fun b => let '(b', page_id) := f b in ([], b', inl page_id).
Definition gmodify (f : builder -> builder) : Gen unit := fun b => ([], f b, inl tt).

(** A call [f(a1, ..., an)] of a function declared with [params] positional
    parameters and no defaults: with another number of arguments Python
    raises [TypeError] before the body runs. *)
Definition arity_error (fname : string) (params nargs : nat) : exn :=
  mk_exn "TypeError"
    (fname ++ "() takes " ++ nat_dec params ++ " positional argument" ++
     (if Nat.eqb params 1 then "" else "s") ++ " but " ++ nat_dec nargs ++
     (if Nat.eqb nargs 1 then " was" else " were") ++ " given").

Definition py_call {A} (fname : string) (params nargs : nat) (body : Gen A) : Gen A :=
  if Nat.eqb params nargs then body else glift (inr (arity_error fname params nargs)).

(** [s.split("/")]; [cur] is the segment read so far. *)
Fixpoint split_slash_from (s cur : string) : list string :=
  match s with
  | EmptyString => [cur]
  | String c r =>
      if Ascii.eqb c "/" then cur :: split_slash_from r ""
      else split_slash_from r (cur ++ String c EmptyString)
  end.

Definition split_slash (s : string) : list string := split_slash_from s "".

Definition ends_with (suffix s : string) : bool :=
  starts_with (string_of_list_ascii (rev (list_ascii_of_string suffix)))
              (string_of_list_ascii (rev (list_ascii_of_string s))).

(** [path.split("/")[2]]. *)
Definition third_segment (p : string) : res pyval :=
  match nth_error (split_slash p) 2 with
  | Some x => inl (PStr x)
  | None => inr (mk_exn "IndexError" "list index out of range")
  end.

Section Router.

Variable be : backend.

(** The assemblers of the detail, edit, create and tag pages and their data
    functions are parameters: every statement below holds whatever they do.
    [build_ticket_create_page] is the body of the one-parameter function of
    [pages/tickets.py]. *)
Variable build_ticket_detail_page : pyval -> Gen string.
Variable build_ticket_detail_data : pyval -> pyval -> pyval -> res (list pyval).
Variable build_ticket_edit_page : pyval -> Gen string.
Variable build_ticket_edit_data : pyval -> res (list pyval).
Variable build_ticket_create_page : Gen string.
Variable build_tags_page : Gen string.
Variable build_tags_data : pyval -> res (list pyval).

Definition layout (page_id active_nav : string) : Gen unit :=
  gmodify (fun b => build_app_layout b page_id active_nav).

(** Lines 62-72 of [generate_page_messages]: read the query, call
    [api_client.list_tickets]. *)
Definition fetch_tickets (query_params : list (pyval * pyval)) : res pyval :=
  let search := dict_get query_params "search" (PStr "") in
  let status := dict_get query_params "status" (PStr "") in
  let priority := dict_get query_params "priority" (PStr "") in
  page <- safe_int (dict_get query_params "page" PNone) 1 ;;
  list_tickets be (if truthy search then search else PNone)
                  (if truthy status then status else PNone)
                  (if truthy priority then priority else PNone) page.

(** The [try] block of [generate_page_messages]. *)
Definition page_body (p : string) (query_params : list (pyval * pyval)) : Gen unit :=
  if String.eqb p "/" || String.eqb p "/tickets" then
    tickets_data <-- glift (fetch_tickets query_params) ;;;
    page_id <-- gpage build_tickets_page ;;;
    layout page_id "tickets" ;;;
    gyield build_surface_update ;;;
    msgs <-- py_call "build_tickets_data" 1 5 (glift (build_tickets_data tickets_data)) ;;;
    gyield_all msgs ;;;
    gyield (fun b => build_begin_rendering b "app-layout")
  else if String.eqb p "/tickets/new" then
    tags <-- glift (list_tags be) ;;;
    page_id <-- py_call "build_ticket_create_page" 1 2 build_ticket_create_page ;;;
    layout page_id "tickets" ;;;
    gyield build_surface_update ;;;
    msgs <-- py_call "build_ticket_create_data" 0 1 (gret build_ticket_create_data) ;;;
    gyield_all msgs ;;;
    gyield (fun b => build_begin_rendering b "app-layout")
  else if starts_with "/tickets/" p && ends_with "/edit" p then
    ticket_id <-- glift (third_segment p) ;;;
    ticket <-- glift (get_ticket be ticket_id) ;;;
    page_id <-- build_ticket_edit_page ticket ;;;
    layout page_id "tickets" ;;;
    gyield build_surface_update ;;;
    msgs <-- glift (build_ticket_edit_data ticket) ;;;
    gyield_all msgs ;;;
    gyield (fun b => build_begin_rendering b "app-layout")
  else if starts_with "/tickets/" p then
    ticket_id <-- glift (third_segment p) ;;;
    ticket <-- glift (get_ticket be ticket_id) ;;;
    attachments <-- glift (get_ticket_attachments be ticket_id) ;;;
    history_response <-- glift (get_ticket_history be ticket_id) ;;;
    history <-- glift (method_get history_response "data" (PList [])) ;;;
    page_id <-- build_ticket_detail_page ticket ;;;
    layout page_id "tickets" ;;;
    gyield build_surface_update ;;;
    msgs <-- glift (build_ticket_detail_data ticket attachments history) ;;;
    gyield_all msgs ;;;
    gyield (fun b => build_begin_rendering b "app-layout")
  else if String.eqb p "/tags" then
    tags <-- glift (list_tags be) ;;;
    page_id <-- build_tags_page ;;;
    layout page_id "tags" ;;;
    gyield build_surface_update ;;;
    msgs <-- glift (build_tags_data tags) ;;;
    gyield_all msgs ;;;
    gyield (fun b => build_begin_rendering b "app-layout")
  else
    page_id <-- gpage build_not_found_page ;;;
    layout page_id "" ;;;
    gyield build_surface_update ;;;
    gyield (fun b => build_begin_rendering b "app-layout").

(** The [except Exception as e] block: reset, error page, layout. *)
Definition error_messages (b : builder) (e : exn) : list pyval :=
  let b := reset b in
  let '(b, page_id) := build_error_page b (exn_str e) in
  let b := build_app_layout b page_id "" in
  [build_surface_update b; build_begin_rendering b "app-layout"].

(** All messages yielded by [generate_page_messages(path, query_params)]. *)
Definition generate_page_messages (p : string) (query_params : list (pyval * pyval)) : list pyval :=
  let '(out, b, r) := page_body p query_params (new_builder "main") in
  match r with
  | inl _ => out
  | inr e => (out ++ error_messages b e)%list
  end.

End Router.

(** ** The action dispatcher ([process_action] and [handle_action] in [main.py]) *)

(** [UserAction]: only [name] and [context] are read. *)
Record user_action : Type := mk_action {
  action_name : string;
  action_context : list (pyval * pyval)
}.

(** [x or default]. *)
Definition py_or (x default : pyval) : pyval := if truthy x then x else default.

Definition mem_name (name : string) (names : list string) : bool :=
  existsb (String.eqb name) names.

Definition navigate (target : string) : pyval := PDict [(PStr "navigate", PStr target)].

(** The navigation target of the list-query actions ([search_tickets],
    [filter_status], [filter_priority], [paginate]). *)
Definition query_navigation (new_search new_status new_priority : pyval) (new_page : Z) : pyval :=
  let query_parts :=
    ((if truthy new_search then [String.append "search=" (py_str new_search)] else []) ++
     (if truthy new_status then [String.append "status=" (py_str new_status)] else []) ++
     (if truthy new_priority then [String.append "priority=" (py_str new_priority)] else []) ++
     (if (1 <? new_page)%Z then [String.append "page=" (Z_dec new_page)] else []))%list in
  let query_string := match query_parts with [] => "" | _ => "?" ++ str_concat "&" query_parts end in
  navigate ("/tickets" ++ query_string).

(** [[tid.strip() for tid in s.split(",") if tid.strip()]] is computed,
    then [api_client.add_tag_to_ticket] fails for each id and the failure is
    logged: only the [split] on a non-string can raise. *)
Definition add_selected_tags (ticket_id selected_tag_ids : pyval) : res unit :=
  if truthy selected_tag_ids then
    match selected_tag_ids with
    | PStr _ => inl tt
    | _ => inr (mk_exn "AttributeError" ("'" ++ py_type_name selected_tag_ids ++ "' object has no attribute 'split'"))
    end
  else inl tt.

Section Actions.
Variable be : backend.

Definition process_action (action : user_action) : res pyval :=
  let name := action_name action in
  let context := action_context action in
  let get k := dict_get context k PNone in
  if String.eqb name "navigate" then
    inl (PDict [(PStr "navigate", dict_get context "to" (PStr "/tickets"))])
  else if mem_name name ["search_tickets"; "filter_status"; "filter_priority"; "paginate"] then
    let current_search := py_or (get "current_search") (PStr "") in
    let current_status := py_or (get "current_status") (PStr "") in
    let current_priority := py_or (get "current_priority") (PStr "") in
    current_page <- safe_int (get "current_page") 1 ;;
    if String.eqb name "search_tickets" then
      inl (query_navigation (py_or (get "search") (PStr "")) current_status current_priority 1)
    else if String.eqb name "filter_status" then
      let status := match get "status" with PNone => PStr "" | v => v end in
      inl (query_navigation current_search status current_priority 1)
    else if String.eqb name "filter_priority" then
      let priority := match get "priority" with PNone => PStr "" | v => v end in
      inl (query_navigation current_search current_status priority 1)
    else
      page <- safe_int (get "page") 1 ;;
      inl (query_navigation current_search current_status current_priority page)
  else if String.eqb name "view_ticket" then
    inl (navigate ("/tickets/" ++ py_str (get "id")))
  else if String.eqb name "create_ticket" then
    let form := dict_get context "form" (PDict []) in
    title <- method_get form "title" PNone ;;
    description <- method_get form "description" PNone ;;
    priority <- method_get form "priority" (PStr "medium") ;;
    ticket <- create_ticket be (PDict [(PStr "title", title); (PStr "description", description);
                                       (PStr "priority", priority)]) ;;
    ticket_id <- getitem ticket "id" ;;
    selected_tag_ids <- method_get form "selectedTagIds" (PStr "") ;;
    _ <- add_selected_tags ticket_id selected_tag_ids ;;
    inl (navigate ("/tickets/" ++ py_str ticket_id))
  else if String.eqb name "update_ticket" then
    let ticket_id := get "id" in
    let form := dict_get context "form" (PDict []) in
    title <- method_get form "title" PNone ;;
    description <- method_get form "description" PNone ;;
    priority <- method_get form "priority" PNone ;;
    _ <- update_ticket be ticket_id (PDict [(PStr "title", title); (PStr "description", description);
                                          (PStr "priority", priority)]) ;;
    inl (navigate ("/tickets/" ++ py_str ticket_id))
  else if String.eqb name "delete_ticket" then
    _ <- delete_ticket be (get "id") ;;
    inl (navigate "/tickets")
  else if String.eqb name "change_status" then
    let ticket_id := get "id" in
    _ <- update_ticket_status be ticket_id
           (PDict [(PStr "status", get "status"); (PStr "resolution", get "resolution")]) ;;
    inl (navigate ("/tickets/" ++ py_str ticket_id))
  else if String.eqb name "create_tag" then
    let form := dict_get context "form" (PDict []) in
    tag_name <- method_get form "name" PNone ;;
    color <- method_get form "color" (PStr "#3B82F6") ;;
    _ <- create_tag be (PDict [(PStr "name", tag_name); (PStr "color", color)]) ;;
    inl (navigate "/tags")
  else if String.eqb name "delete_tag" then
    _ <- delete_tag be (get "id") ;;
    inl (navigate "/tags")
  else if mem_name name ["show_create_tag_form"; "hide_create_tag_form"; "set_tag_color";
                         "set_form_priority"; "toggle_form_tag"; "toggle_multi_select"] then
    inl (PDict [(PStr "handled", PBool true)])
  else if mem_name name ["show_delete_dialog"; "dismiss_dialog"] then
    inl (PDict [(PStr "handled", PBool true)])
  else if String.eqb name "retry" then
    inl (PDict [(PStr "refresh", PBool true)])
  else
    inl (PDict [(PStr "unknown", PBool true)]).

(** The user-facing message for a failed action. *)
Definition classify_error (error_message : string) : string :=
  if str_in "409" error_message || str_in "Conflict" error_message then
    "操作失败：该名称已存在，请使用其他名称"
  else if str_in "400" error_message || str_in "Bad Request" error_message then
    "操作失败：请检查输入内容"
  else if str_in "404" error_message || str_in "Not Found" error_message then
    "操作失败：资源未找到"
  else "操作失败：" ++ error_message.

Definition handle_action (action : user_action) : pyval :=
  match process_action action with
  | inl result => PDict [(PStr "success", PBool true); (PStr "result", result)]
  | inr e => PDict [(PStr "success", PBool false); (PStr "error", PStr (classify_error (exn_str e)))]
  end.

End Actions.

(** ** The stream endpoint's parameters ([stream_ui] in [main.py])

    [urllib.parse.urlparse] and [parse_qs] as CPython 3.12 implements them,
    on UTF-8 byte strings.  Not modelled: the validation of a bracketed IPv6
    host and the NFKC check of a non-ASCII netloc, which only raise
    [ValueError] on such netlocs. *)

Fixpoint index_of (c : ascii) (s : string) : option nat :=
  match s with
  | EmptyString => None
  | String d r => if Ascii.eqb c d then Some 0 else option_map S (index_of c r)
  end.

(** [s.split(c, 1)] when [c in s]. *)
Definition split_once (c : ascii) (s : string) : option (string * string) :=
  match index_of c s with
  | Some i => Some (substring 0 i s, substring (S i) (String.length s) s)
  | None => None
  end.

Fixpoint remove_unsafe (s : string) : string :=
  match s with
  | EmptyString => EmptyString
  | String c r =>
      let n := N_of_ascii c in
      if (n =? 9)%N || (n =? 10)%N || (n =? 13)%N then remove_unsafe r else String c (remove_unsafe r)
  end.

(** [url.lstrip(_WHATWG_C0_CONTROL_OR_SPACE)]. *)
Fixpoint lstrip_c0 (s : string) : string :=
  match s with
  | String c r => if (N_of_ascii c <=? 32)%N then lstrip_c0 r else s
  | EmptyString => EmptyString
  end.

Definition is_alpha (c : ascii) : bool :=
  let n := N_of_ascii c in ((65 <=? n)%N && (n <=? 90)%N) || ((97 <=? n)%N && (n <=? 122)%N).

Definition is_scheme_char (c : ascii) : bool :=
  is_alpha c || is_digit c || Ascii.eqb c "+" || Ascii.eqb c "-" || Ascii.eqb c ".".

Definition lower_char (c : ascii) : ascii :=
  let n := N_of_ascii c in if (65 <=? n)%N && (n <=? 90)%N then ascii_of_N (n + 32) else c.

Fixpoint str_map (f : ascii -> ascii) (s : string) : string :=
  match s with EmptyString => EmptyString | String c r => String (f c) (str_map f r) end.

Fixpoint str_forall (f : ascii -> bool) (s : string) : bool :=
  match s with EmptyString => true | String c r => f c && str_forall f r end.

(** The scheme split of [urlsplit]: [(scheme, rest)]. *)
Definition split_scheme (url : string) : string * string :=
  match index_of ":" url, url with
  | Some (S _ as i), String c0 _ =>
      let sch := substring 0 i url in
      if is_alpha c0 && str_forall is_scheme_char sch
      then (str_map lower_char sch, substring (S i) (String.length url) url)
      else ("", url)
  | _, _ => ("", url)
  end.

(** [_splitnetloc(url, 2)]: the netloc ends at the first of [/?#]. *)
Fixpoint split_netloc (s : string) : string * string :=
  match s with
  | EmptyString => ("", "")
  | String c r =>
      if Ascii.eqb c "/" || Ascii.eqb c "?" || Ascii.eqb c "#" then ("", s)
      else let '(n, rest) := split_netloc r in (String c n, rest)
  end.

Record parse_result : Type := mk_parse {
  pr_scheme : string; pr_netloc : string; pr_path : string;
  pr_params : string; pr_query : string; pr_fragment : string
}.

Definition uses_params : list string :=
  [""; "ftp"; "hdl"; "prospero"; "http"; "imap"; "https"; "shttp"; "rtsp"; "rtsps";
   "rtspu"; "sip"; "sips"; "mms"; "sftp"; "tel"].

Fixpoint rindex_of (c : ascii) (s : string) : option nat :=
  match s with
  | EmptyString => None
  | String d r =>
      match rindex_of c r with
      | Some i => Some (S i)
      | None => if Ascii.eqb c d then Some 0 else None
      end
  end.

(** [_splitparams(url)]: split at the first [;] after the last [/]. *)
Definition split_params (url : string) : string * string :=
  let n := String.length url in
  match rindex_of "/" url with
  | Some j =>
      match index_of ";" (substring j n url) with
      | Some i => (substring 0 (j + i) url, substring (j + i + 1) n url)
      | None => (url, "")
      end
  | None =>
      match index_of ";" url with
      | Some i => (substring 0 i url, substring (S i) n url)
      | None => (url, "")
      end
  end.

Definition urlparse (url0 : string) : option parse_result :=
  let url := remove_unsafe (lstrip_c0 url0) in
  let '(scheme, url) := split_scheme url in
  let '(netloc, url) := if starts_with "//" url
                        then split_netloc (substring 2 (String.length url) url) else ("", url) in
  if xorb (str_contains_char "[" netloc) (str_contains_char "]" netloc) then None
  else
    let '(url, fragment) := match split_once "#" url with Some (u, f) => (u, f) | None => (url, "") end in
    let '(url, query) := match split_once "?" url with Some (u, q) => (u, q) | None => (url, "") end in
    let '(url, params) := if mem_name scheme uses_params && str_contains_char ";" url
                          then split_params url else (url, "") in
    Some (mk_parse scheme netloc url params query fragment).

(** [s.split(c)]. *)
Fixpoint split_on_from (c : ascii) (s cur : string) : list string :=
  match s with
  | EmptyString => [cur]
  | String d r =>
      if Ascii.eqb c d then cur :: split_on_from c r ""
      else split_on_from c r (cur ++ String d EmptyString)
  end.

Definition plus_to_space (s : string) : string :=
  str_map (fun c => if Ascii.eqb c "+" then " "%char else c) s.

(** Percent-decoding of a byte string ([unquote] on input whose decoded
    bytes are valid UTF-8). *)
Definition hex_val (c : ascii) : option N :=
  let n := N_of_ascii c in
  if (48 <=? n)%N && (n <=? 57)%N then Some (n - 48)%N
  else if (65 <=? n)%N && (n <=? 70)%N then Some (n - 55)%N
  else if (97 <=? n)%N && (n <=? 102)%N then Some (n - 87)%N
  else None.

Fixpoint percent_decode (s : string) : string :=
  match s with
  | String "%" (String h (String l r) as rest) =>
      match hex_val h, hex_val l with
      | Some x, Some y => String (ascii_of_N (16 * x + y)) (percent_decode r)
      | _, _ => String "%" (percent_decode rest)
      end
  | String c r => String c (percent_decode r)
  | EmptyString => EmptyString
  end.

(** String-keyed dicts of [str]: insertion-ordered association lists. *)
Fixpoint sdict_get (d : list (string * string)) (k : string) : option string :=
  match d with
  | [] => None
  | (k', v) :: r => if String.eqb k k' then Some v else sdict_get r k
  end.

(** [d[k] = v]: an existing key keeps its position. *)
Fixpoint sdict_set (d : list (string * string)) (k v : string) : list (string * string) :=
  match d with
  | [] => [(k, v)]
  | (k', v') :: r => if String.eqb k k' then (k', v) :: r else (k', v') :: sdict_set r k v
  end.

(** [d.pop(k, None)]. *)
Fixpoint sdict_pop (d : list (string * string)) (k : string) : list (string * string) :=
  match d with
  | [] => []
  | (k', v') :: r => if String.eqb k k' then r else (k', v') :: sdict_pop r k
  end.

Section QueryMerge.

(** [unquote]: every statement below holds for any decoding. *)
Variable unquote : string -> string.

(** [parse_qsl(qs)] with [keep_blank_values=False]: pieces without [=] and
    pieces with an empty value are dropped. *)
Definition parse_qsl (qs : string) : list (string * string) :=
  let query_args := if String.eqb qs "" then [] else split_on_from "&" qs "" in
  flat_map (fun name_value =>
              match split_once "=" name_value with
              | Some (name, value) =>
                  if Nat.eqb (String.length value) 0 then []
                  else [(unquote (plus_to_space name), unquote (plus_to_space value))]
              | None => []
              end) query_args.

(** [parse_qs(qs)]: the values of each name, in order of first appearance. *)
Fixpoint add_value (d : list (string * list string)) (k v : string) : list (string * list string) :=
  match d with
  | [] => [(k, [v])]
  | (k', vs) :: r => if String.eqb k k' then (k', (vs ++ [v])%list) :: r else (k', vs) :: add_value r k v
  end.

Definition parse_qs (qs : string) : list (string * list string) :=
  fold_left (fun d '(k, v) => add_value d k v) (parse_qsl qs) [].

(** Lines 156-171 of [stream_ui]: the routing path and the merged query
    parameters, from the [path] query parameter and [dict(request.query_params)];
    [None] when [urlparse] raises. *)
Definition stream_params (path : string) (request_query : list (string * string))
  : option (string * list (string * string)) :=
  match urlparse path with
  | None => None
  | Some parsed =>
      let path_query_params := parse_qs (pr_query parsed) in
      let request_params := sdict_pop request_query "path" in
      let query_params :=
        fold_left (fun qp '(key, values) =>
                     match values with
                     | v :: _ => sdict_set qp key v
                     | [] => qp
                     end) path_query_params request_params in
      Some (pr_path parsed, query_params)
  end.

End QueryMerge.

(** The ticket id of [/tickets/<rest>]: [path.split("/")[2]]. *)
Definition ticket_id_of (rest : string) : string := hd "" (split_slash rest).

(** The builder state from which the [except] block serializes the error
    view for exception [e]: reset, error page, app layout around it. *)
Definition error_view (e : exn) : builder :=
  let '(b, page_id) := build_error_page (reset (new_builder "main")) (exn_str e) in
  build_app_layout b page_id "".

(** The list view as serialized before [build_tickets_data] is called. *)
Definition tickets_list_view : builder :=
  let '(b, page_id) := build_tickets_page (new_builder "main") in
  build_app_layout b page_id "tickets".

(** The entry [build_value_map_from_dict] makes for the [i]-th item of a
    list value. *)
Definition list_item_entry (i : nat) (item : pyval) : pyval :=
  match item with
  | PDict kv => value_map (PStr ("item" ++ nat_dec i)) (build_value_map_from_dict kv)
  | _ => value_string (PStr ("item" ++ nat_dec i)) (PStr (py_str item))
  end.

(** Values of type [str], [bool], [int], [float], [dict], [list] or [None]. *)
Definition supported (v : pyval) : bool :=
  match v with POther _ _ => false | _ => true end.

(** The pagination entries as the spec words them, for page [p] of [t]. *)
Definition pagination_spec (p t : Z) : list pyval :=
  [value_number (PStr "page") (PInt p); value_number (PStr "totalPages") (PInt t);
   value_number (PStr "prevPage") (PInt (Z.max 1 (p - 1)));
   value_number (PStr "nextPage") (PInt (Z.min t (p + 1)));
   value_string (PStr "info") (PStr ("第 " ++ Z_dec p ++ " 页 / 共 " ++ Z_dec t ++ " 页"))].

(** A tickets response with no tickets, page [p] of [t]. *)
Definition tickets_response (p t : Z) : pyval :=
  PDict [(PStr "data", PList []); (PStr "total", PInt 0); (PStr "page", PInt p);
         (PStr "per_page", PInt 20); (PStr "total_pages", PInt t)].

(** The action names [process_action] dispatches on. *)
Definition known_actions : list string :=
  ["navigate"; "search_tickets"; "filter_status"; "filter_priority"; "paginate";
   "view_ticket"; "create_ticket"; "update_ticket"; "delete_ticket"; "change_status";
   "create_tag"; "delete_tag"; "show_create_tag_form"; "hide_create_tag_form";
   "set_tag_color"; "set_form_priority"; "toggle_form_tag"; "toggle_multi_select";
   "show_delete_dialog"; "dismiss_dialog"; "retry"].

(** The failure [httpx] reports for a missing tag. *)
Definition exn_tag_404 : exn :=
  mk_exn "HTTPStatusError"
    "Client error '404 Not Found' for url 'http://localhost:8000/api/tags/t1'".

(** A backend whose [DELETE] of tag [t1] fails with [exn_tag_404]. *)
Definition be_tag_missing : backend :=
  mk_backend (fun m p _ _ =>
    if String.eqb m "DELETE" && String.eqb p "/api/tags/t1" then inr exn_tag_404 else inl PNone).

(** Lookups used to state the merge of [stream_ui]. *)
Fixpoint lookup_values (d : list (string * list string)) (k : string) : option (list string) :=
  match d with
  | [] => None
  | (k', vs) :: r => if String.eqb k k' then Some vs else lookup_values r k
  end.

Definition head_value (o : option (list string)) : option string :=
  match o with Some (v :: _) => Some v | _ => None end.

(** The value of the first pair named [k]. *)
Fixpoint first_match (pairs : list (string * string)) (k : string) : option string :=
  match pairs with
  | [] => None
  | (n, v) :: r => if String.eqb k n then Some v else first_match r k
  end.

(** Characters a client navigation path [p] of [p?q] does not contain. *)
Definition plain_path_char (c : ascii) : bool :=
  negb (Ascii.eqb c "?" || Ascii.eqb c "#" || Ascii.eqb c ";" ||
        (N_of_ascii c =? 9)%N || (N_of_ascii c =? 10)%N || (N_of_ascii c =? 13)%N).

(** Characters the query [q] of [p?q] does not contain. *)
Definition plain_query_char (c : ascii) : bool :=
  negb (Ascii.eqb c "#" || (N_of_ascii c =? 9)%N || (N_of_ascii c =? 10)%N || (N_of_ascii c =? 13)%N).

(** ** Concrete collaborators for the instances below *)

Definition exn_404 : exn :=
  mk_exn "HTTPStatusError" "Client error '404 Not Found' for url 'http://localhost:8000/api/tickets/abc/attachments'".

(** A backend where every call succeeds with [{}], except the attachments
    of ticket [abc]. *)
Definition be_attachments_fail : backend :=
  mk_backend (fun _ p _ _ =>
    if String.eqb p "/api/tickets/abc/attachments" then inr exn_404 else inl (PDict [])).

(** A backend where every call succeeds. *)
Definition be_ok (body : pyval) : backend := mk_backend (fun _ _ _ _ => inl body).

(** A ticket as the backend returns it. *)
Definition sample_ticket : list (pyval * pyval) :=
  [(PStr "id", PInt 7); (PStr "title", PStr "Printer jam"); (PStr "status", PStr "open");
   (PStr "priority", PStr "high")].

(** Page assemblers for the parameters of [generate_page_messages]. *)
Definition stub_page : Gen string := gret "stub-page".
Definition stub_page1 (_ : pyval) : Gen string := gret "stub-page".
Definition stub_data1 (_ : pyval) : res (list pyval) := inl [].
Definition stub_data3 (_ _ _ : pyval) : res (list pyval) := inl [].

(** ** Ticket enums ([models.py]) *)

(** [TicketStatus(v)]: the member's value, or [ValueError]. *)
Definition ticket_status (v : pyval) : res string :=
  match v with
  | PStr s =>
      if mem_name s ["open"; "in_progress"; "completed"; "cancelled"] then inl s
      else inr (mk_exn "ValueError" (py_repr v ++ " is not a valid TicketStatus"))
  | _ => inr (mk_exn "ValueError" (py_repr v ++ " is not a valid TicketStatus"))
  end.

(** [STATUS_TRANSITIONS], on the members' values. *)
Definition status_transitions (s : string) : list string :=
  if String.eqb s "open" then ["in_progress"; "cancelled"]
  else if String.eqb s "in_progress" then ["open"; "completed"; "cancelled"]
  else if String.eqb s "completed" then ["open"]
  else if String.eqb s "cancelled" then ["open"]
  else [].

(** ** The detail page ([build_ticket_detail_page] in [pages/tickets.py]) *)

(** Lines 167-213: header, description, resolution and the status labels. *)
Definition detail_header (b : builder) (ticket_id : pyval) : builder :=
  let b := text b "detail-back-text" (PStr "← 返回列表") PNone in
  let b := button b "detail-back-btn" "detail-back-text" "navigate" (PList [ctx_entry "to" (lit "/tickets")]) in
  let b := text b "detail-title" (path "/app/ticket/detail/title") (PStr "h1") in
  let b := text b "detail-edit-text" (PStr "编辑") PNone in
  let b := button b "detail-edit-btn" "detail-edit-text" "navigate"
             (PList [ctx_entry "to" (lit ("/tickets/" ++ py_str ticket_id ++ "/edit"))]) in
  let b := text b "detail-delete-text" (PStr "删除") PNone in
  let b := button b "detail-delete-btn" "detail-delete-text" "show_delete_dialog"
             (PList [ctx_entry "id" (literal_string ticket_id)]) in
  let b := row b "detail-actions" ["detail-edit-btn"; "detail-delete-btn"] (PStr "center") PNone in
  let b := row b "detail-header" ["detail-back-btn"; "detail-title"; "detail-actions"] (PStr "center") (PStr "spaceBetween") in
  let b := text b "detail-desc-label" (PStr "描述") (PStr "h4") in
  let b := text b "detail-desc-content" (path "/app/ticket/detail/description") PNone in
  let b := column b "detail-desc-col" ["detail-desc-label"; "detail-desc-content"] PNone PNone in
  let b := card b "detail-desc-card" "detail-desc-col" in
  let b := text b "detail-resolution-label" (PStr "处理结果") (PStr "h4") in
  let b := text b "detail-resolution-content" (path "/app/ticket/detail/resolution") PNone in
  let b := column b "detail-resolution-col" ["detail-resolution-label"; "detail-resolution-content"] PNone PNone in
  let b := card b "detail-resolution-card" "detail-resolution-col" in
  let b := text b "detail-status-label" (PStr "状态") (PStr "h4") in
  text b "detail-status-value" (path "/app/ticket/detail/statusLabel") PNone.

(** Lines 217-231: one button per allowed transition. *)
Fixpoint status_buttons (ticket_id : pyval) (targets : list string) : Gen (list string) :=
  match targets with
  | [] => gret []
  | t :: r =>
      label <-- glift (status_label (PStr t)) ;;;
      gmodify (fun b =>
        let b := text b ("status-btn-text-" ++ t) (PStr ("→ " ++ py_str label)) PNone in
        button b ("status-btn-" ++ t) ("status-btn-text-" ++ t) "change_status"
          (PList [ctx_entry "id" (literal_string ticket_id); ctx_entry "status" (lit t)])) ;;;
      rest <-- status_buttons ticket_id r ;;;
      gret (("status-btn-" ++ t) :: rest)
  end.

(** Lines 233-302: the status, priority, tags, time, attachments and history cards. *)
Definition detail_cards (b : builder) (status_btns : list string) : builder :=
  let b := row b "detail-status-btns" status_btns (PStr "center") PNone in
  let b := column b "detail-status-col" ["detail-status-label"; "detail-status-value"; "detail-status-btns"] PNone PNone in
  let b := card b "detail-status-card" "detail-status-col" in
  let b := text b "detail-priority-label" (PStr "优先级") (PStr "h4") in
  let b := text b "detail-priority-value" (path "/app/ticket/detail/priorityLabel") PNone in
  let b := column b "detail-priority-col" ["detail-priority-label"; "detail-priority-value"] PNone PNone in
  let b := card b "detail-priority-card" "detail-priority-col" in
  let b := text b "detail-tags-label" (PStr "标签") (PStr "h4") in
  let b := text b "detail-tag-name" (path "name") PNone in
  let b := list_component b "detail-tags-list" PNone
             (PDict [(PStr "componentId", PStr "detail-tag-name"); (PStr "dataBinding", PStr "/app/ticket/tags")])
             "horizontal" PNone in
  let b := column b "detail-tags-col" ["detail-tags-label"; "detail-tags-list"] PNone PNone in
  let b := card b "detail-tags-card" "detail-tags-col" in
  let b := text b "detail-time-label" (PStr "时间信息") (PStr "h4") in
  let b := text b "detail-created-label" (PStr "创建时间") PNone in
  let b := text b "detail-created-value" (path "/app/ticket/detail/created_at") PNone in
  let b := row b "detail-created-row" ["detail-created-label"; "detail-created-value"] PNone (PStr "spaceBetween") in
  let b := text b "detail-updated-label" (PStr "更新时间") PNone in
  let b := text b "detail-updated-value" (path "/app/ticket/detail/updated_at") PNone in
  let b := row b "detail-updated-row" ["detail-updated-label"; "detail-updated-value"] PNone (PStr "spaceBetween") in
  let b := column b "detail-time-col" ["detail-time-label"; "detail-created-row"; "detail-updated-row"] PNone PNone in
  let b := card b "detail-time-card" "detail-time-col" in
  let b := text b "detail-attach-label" (PStr "附件") (PStr "h4") in
  let b := text b "detail-attach-filename" (path "filename") PNone in
  let b := text b "detail-attach-size" (path "sizeFormatted") PNone in
  let b := row b "detail-attach-info" ["detail-attach-filename"; "detail-attach-size"] PNone (PStr "spaceBetween") in
  let b := text b "detail-attach-download-text" (PStr "下载") PNone in
  let b := button b "detail-attach-download" "detail-attach-download-text" "download_attachment"
             (PList [ctx_entry "id" (bind_path "id")]) in
  let b := row b "detail-attach-item" ["detail-attach-info"; "detail-attach-download"] (PStr "center") (PStr "spaceBetween") in
  let b := list_component b "detail-attach-list" PNone
             (PDict [(PStr "componentId", PStr "detail-attach-item"); (PStr "dataBinding", PStr "/app/ticket/attachments")])
             "vertical" PNone in
  let b := text b "detail-attach-empty" (PStr "暂无附件") PNone in
  let b := column b "detail-attach-col" ["detail-attach-label"; "detail-attach-list"] PNone PNone in
  let b := card b "detail-attach-card" "detail-attach-col" in
  let b := text b "detail-history-label" (PStr "变更历史") (PStr "h4") in
  let b := text b "detail-history-type" (path "changeTypeLabel") PNone in
  let b := text b "detail-history-time" (path "created_at") PNone in
  let b := text b "detail-history-old" (path "old_value") PNone in
  let b := text b "detail-history-arrow" (PStr "→") PNone in
  let b := text b "detail-history-new" (path "new_value") PNone in
  let b := row b "detail-history-change" ["detail-history-old"; "detail-history-arrow"; "detail-history-new"] (PStr "center") PNone in
  let b := column b "detail-history-item" ["detail-history-type"; "detail-history-time"; "detail-history-change"] PNone PNone in
  let b := list_component b "detail-history-list" PNone
             (PDict [(PStr "componentId", PStr "detail-history-item"); (PStr "dataBinding", PStr "/app/ticket/history")])
             "vertical" PNone in
  let b := column b "detail-history-col" ["detail-history-label"; "detail-history-list"] PNone PNone in
  card b "detail-history-card" "detail-history-col".

(** Lines 305-337: the two columns, the page and the delete dialog. *)
Definition detail_tail (b : builder) (ticket_id : pyval) (has_resolution : bool) : builder :=
  let main_cards := (["detail-desc-card"] ++ (if has_resolution then ["detail-resolution-card"] else [])
                     ++ ["detail-attach-card"])%list in
  let b := column b "detail-main" main_cards PNone PNone in
  let b := column b "detail-sidebar"
             ["detail-status-card"; "detail-priority-card"; "detail-tags-card"; "detail-time-card"; "detail-history-card"]
             PNone PNone in
  let b := row b "detail-body" ["detail-main"; "detail-sidebar"] PNone (PStr "start") in
  let b := column b "detail-page" ["detail-header"; "detail-body"] PNone PNone in
  let b := text b "delete-modal-title" (PStr "确认删除") (PStr "h3") in
  let b := text b "delete-modal-desc" (PStr "确定要删除这个票据吗？此操作无法撤销。") PNone in
  let b := text b "delete-modal-cancel-text" (PStr "取消") PNone in
  let b := button b "delete-modal-cancel" "delete-modal-cancel-text" "dismiss_dialog" (PList []) in
  let b := text b "delete-modal-confirm-text" (PStr "确认删除") PNone in
  let b := button b "delete-modal-confirm" "delete-modal-confirm-text" "delete_ticket"
             (PList [ctx_entry "id" (literal_string ticket_id)]) in
  let b := row b "delete-modal-actions" ["delete-modal-cancel"; "delete-modal-confirm"] PNone (PStr "end") in
  column b "delete-modal-content" ["delete-modal-title"; "delete-modal-desc"; "delete-modal-actions"] PNone PNone.

Definition build_ticket_detail_page (ticket : pyval) : Gen string :=
  ticket_id <-- glift (getitem ticket "id") ;;;
  status <-- glift (getitem ticket "status") ;;;
  gmodify (fun b => detail_header b ticket_id) ;;;
  st <-- glift (ticket_status status) ;;;
  status_btns <-- status_buttons ticket_id (status_transitions st) ;;;
  gmodify (fun b => detail_cards b status_btns) ;;;
  resolution <-- glift (method_get ticket "resolution" PNone) ;;;
  gmodify (fun b => detail_tail b ticket_id (truthy resolution)) ;;;
  gret "detail-page".

(** ** The create page ([build_ticket_create_page(builder)] in [pages/tickets.py]) *)

Definition priority_button (b : builder) (prefix level label : string) : builder :=
  let b := text b (prefix ++ "-priority-" ++ level ++ "-text") (PStr label) PNone in
  button b (prefix ++ "-priority-" ++ level) (prefix ++ "-priority-" ++ level ++ "-text") "set_form_priority"
    (PList [ctx_entry "priority" (lit level)]).

Definition build_ticket_create_page_body (b : builder) : builder * string :=
  let b := text b "create-back-text" (PStr "← 返回列表") PNone in
  let b := button b "create-back-btn" "create-back-text" "navigate" (PList [ctx_entry "to" (lit "/tickets")]) in
  let b := text b "create-title" (PStr "新建票据") (PStr "h1") in
  let b := row b "create-header" ["create-back-btn"; "create-title"] (PStr "center") PNone in
  let b := text b "create-title-label" (PStr "标题 *") (PStr "h4") in
  let b := text_field b "create-title-input" (PStr "请输入票据标题") (path "/app/form/create/title") PNone in
  let b := text b "create-desc-label" (PStr "描述") (PStr "h4") in
  let b := text_field b "create-desc-input" (PStr "请输入详细描述...") (path "/app/form/create/description") (PStr "multiline") in
  let b := text b "create-priority-label" (PStr "优先级") (PStr "h4") in
  let b := priority_button b "create" "low" "低" in
  let b := priority_button b "create" "medium" "中" in
  let b := priority_button b "create" "high" "高" in
  let b := priority_button b "create" "urgent" "紧急" in
  let b := row b "create-priority-btns"
             ["create-priority-low"; "create-priority-medium"; "create-priority-high"; "create-priority-urgent"]
             (PStr "center") PNone in
  let b := column b "create-form-fields"
             ["create-title-label"; "create-title-input"; "create-desc-label"; "create-desc-input";
              "create-priority-label"; "create-priority-btns"] PNone PNone in
  let b := divider b "create-divider" in
  let b := text b "create-cancel-text" (PStr "取消") PNone in
  let b := button b "create-cancel-btn" "create-cancel-text" "navigate" (PList [ctx_entry "to" (lit "/tickets")]) in
  let b := text b "create-submit-text" (PStr "创建票据") PNone in
  let b := button b "create-submit-btn" "create-submit-text" "create_ticket"
             (PList [ctx_entry "form" (bind_path "/app/form/create")]) in
  let b := row b "create-actions" ["create-cancel-btn"; "create-submit-btn"] (PStr "center") (PStr "end") in
  let b := column b "create-form" ["create-form-fields"; "create-divider"; "create-actions"] PNone PNone in
  let b := card b "create-form-card" "create-form" in
  let b := column b "create-page" ["create-header"; "create-form-card"] PNone PNone in
  (b, "create-page").

(** ** The edit page ([build_ticket_edit_page], [build_ticket_edit_data]) *)

Definition edit_components (b : builder) (ticket_id : pyval) : builder :=
  let back := "/tickets/" ++ py_str ticket_id in
  let b := text b "edit-back-text" (PStr "← 返回详情") PNone in
  let b := button b "edit-back-btn" "edit-back-text" "navigate" (PList [ctx_entry "to" (lit back)]) in
  let b := text b "edit-title" (PStr "编辑票据") (PStr "h1") in
  let b := row b "edit-header" ["edit-back-btn"; "edit-title"] (PStr "center") PNone in
  let b := text b "edit-title-label" (PStr "标题 *") (PStr "h4") in
  let b := text_field b "edit-title-input" (PStr "请输入票据标题") (path "/app/form/edit/title") PNone in
  let b := text b "edit-desc-label" (PStr "描述") (PStr "h4") in
  let b := text_field b "edit-desc-input" (PStr "请输入详细描述...") (path "/app/form/edit/description") (PStr "multiline") in
  let b := text b "edit-priority-label" (PStr "优先级") (PStr "h4") in
  let b := priority_button b "edit" "low" "低" in
  let b := priority_button b "edit" "medium" "中" in
  let b := priority_button b "edit" "high" "高" in
  let b := priority_button b "edit" "urgent" "紧急" in
  let b := row b "edit-priority-btns"
             ["edit-priority-low"; "edit-priority-medium"; "edit-priority-high"; "edit-priority-urgent"]
             (PStr "center") PNone in
  let b := column b "edit-form-fields"
             ["edit-title-label"; "edit-title-input"; "edit-desc-label"; "edit-desc-input";
              "edit-priority-label"; "edit-priority-btns"] PNone PNone in
  let b := divider b "edit-divider" in
  let b := text b "edit-cancel-text" (PStr "取消") PNone in
  let b := button b "edit-cancel-btn" "edit-cancel-text" "navigate" (PList [ctx_entry "to" (lit back)]) in
  let b := text b "edit-submit-text" (PStr "保存更改") PNone in
  let b := button b "edit-submit-btn" "edit-submit-text" "update_ticket"
             (PList [ctx_entry "id" (literal_string ticket_id); ctx_entry "form" (bind_path "/app/form/edit")]) in
  let b := row b "edit-actions" ["edit-cancel-btn"; "edit-submit-btn"] (PStr "center") (PStr "end") in
  let b := column b "edit-form" ["edit-form-fields"; "edit-divider"; "edit-actions"] PNone PNone in
  let b := card b "edit-form-card" "edit-form" in
  column b "edit-page" ["edit-header"; "edit-form-card"] PNone PNone.

Definition build_ticket_edit_page (ticket : pyval) : Gen string :=
  ticket_id <-- glift (getitem ticket "id") ;;;
  gmodify (fun b => edit_components b ticket_id) ;;;
  gret "edit-page".

(** The list [messages] of one data model update, built by a fresh
    [A2UIBuilder()] (surface ["main"]). *)
Definition build_ticket_edit_data (ticket : pyval) : res pyval :=
  title <- getitem ticket "title" ;;
  description <- method_get ticket "description" PNone ;;
  priority <- getitem ticket "priority" ;;
  let form_data := [value_string (PStr "title") title;
                    value_string (PStr "description") (py_or description (PStr ""));
                    value_string (PStr "priority") priority] in
  let messages := [build_data_model_update (new_builder "main") "/app/form/edit" form_data] in
  inl (PList messages).

(** [for msg in build_ticket_edit_data(ticket)]: the messages iterated. *)
Definition edit_data_messages (ticket : pyval) : res (list pyval) :=
  v <- build_ticket_edit_data ticket ;; py_iter v.

(** ** The tags page ([pages/tags.py]) *)

Definition color_button (b : builder) (color label hex : string) : builder :=
  let b := text b ("tag-color-" ++ color ++ "-text") (PStr label) PNone in
  button b ("tag-color-" ++ color) ("tag-color-" ++ color ++ "-text") "set_tag_color"
    (PList [ctx_entry "color" (lit hex)]).

Definition build_tags_page (b : builder) : builder * string :=
  let b := text b "tags-title" (PStr "标签管理") (PStr "h1") in
  let b := text b "tags-add-text" (PStr "+ 新建标签") PNone in
  let b := button b "tags-add-btn" "tags-add-text" "show_create_tag_form" (PList []) in
  let b := row b "tags-header" ["tags-title"; "tags-add-btn"] (PStr "center") (PStr "spaceBetween") in
  let b := text b "tag-form-title" (PStr "新建标签") (PStr "h3") in
  let b := text b "tag-form-name-label" (PStr "标签名称") (PStr "h4") in
  let b := text_field b "tag-form-name-input" (PStr "请输入标签名称") (path "/app/tags/form/name") PNone in
  let b := text b "tag-form-color-label" (PStr "颜色") (PStr "h4") in
  let b := color_button b "blue" "● 蓝色" "#3B82F6" in
  let b := color_button b "green" "● 绿色" "#10B981" in
  let b := color_button b "yellow" "● 黄色" "#F59E0B" in
  let b := color_button b "red" "● 红色" "#EF4444" in
  let b := color_button b "purple" "● 紫色" "#8B5CF6" in
  let b := row b "tag-color-btns"
             ["tag-color-blue"; "tag-color-green"; "tag-color-yellow"; "tag-color-red"; "tag-color-purple"]
             (PStr "center") PNone in
  let b := column b "tag-form-fields"
             ["tag-form-name-label"; "tag-form-name-input"; "tag-form-color-label"; "tag-color-btns"] PNone PNone in
  let b := text b "tag-form-cancel-text" (PStr "取消") PNone in
  let b := button b "tag-form-cancel" "tag-form-cancel-text" "hide_create_tag_form" (PList []) in
  let b := text b "tag-form-submit-text" (PStr "创建标签") PNone in
  let b := button b "tag-form-submit" "tag-form-submit-text" "create_tag"
             (PList [ctx_entry "form" (bind_path "/app/tags/form")]) in
  let b := row b "tag-form-actions" ["tag-form-cancel"; "tag-form-submit"] PNone (PStr "end") in
  let b := column b "tag-form-content" ["tag-form-title"; "tag-form-fields"; "tag-form-actions"] PNone PNone in
  let b := card b "tag-form-card" "tag-form-content" in
  let b := text b "tags-predefined-label" (PStr "预定义标签") (PStr "h4") in
  let b := text b "predefined-tag-name" (path "name") PNone in
  let b := list_component b "tags-predefined-list" PNone
             (PDict [(PStr "componentId", PStr "predefined-tag-name"); (PStr "dataBinding", PStr "/app/tags/predefined")])
             "horizontal" PNone in
  let b := column b "tags-predefined-section" ["tags-predefined-label"; "tags-predefined-list"] PNone PNone in
  let b := card b "tags-predefined-card" "tags-predefined-section" in
  let b := text b "tags-custom-label" (PStr "自定义标签") (PStr "h4") in
  let b := text b "custom-tag-name" (path "name") PNone in
  let b := text b "custom-tag-delete-text" (PStr "删除") PNone in
  let b := button b "custom-tag-delete" "custom-tag-delete-text" "delete_tag" (PList [ctx_entry "id" (bind_path "id")]) in
  let b := row b "custom-tag-item" ["custom-tag-name"; "custom-tag-delete"] (PStr "center") (PStr "spaceBetween") in
  let b := list_component b "tags-custom-list" PNone
             (PDict [(PStr "componentId", PStr "custom-tag-item"); (PStr "dataBinding", PStr "/app/tags/custom")])
             "vertical" PNone in
  let b := text b "tags-custom-empty" (PStr "暂无自定义标签") PNone in
  let b := column b "tags-custom-section" ["tags-custom-label"; "tags-custom-list"] PNone PNone in
  let b := card b "tags-custom-card" "tags-custom-section" in
  let b := column b "tags-page" ["tags-header"; "tag-form-card"; "tags-predefined-card"; "tags-custom-card"] PNone PNone in
  (b, "tags-page").

(** [[t for t in items if keep(t)]], where [keep] may raise. *)
Fixpoint rfilter (keep : pyval -> res bool) (items : list pyval) : res (list pyval) :=
  match items with
  | [] => inl []
  | t :: r => k <- keep t ;; rest <- rfilter keep r ;; inl (if k then t :: rest else rest)
  end.

Definition tag_entry (i : nat) (tag : pyval) : res pyval :=
  id <- getitem tag "id" ;;
  name <- getitem tag "name" ;;
  color <- getitem tag "color" ;;
  inl (value_map (PStr ("tag" ++ nat_dec i))
         (build_value_map_from_dict [(PStr "id", id); (PStr "name", name); (PStr "color", color)])).

Fixpoint tag_entries (i : nat) (tags : list pyval) : res (list pyval) :=
  match tags with
  | [] => inl []
  | t :: r => e <- tag_entry i t ;; es <- tag_entries (S i) r ;; inl (e :: es)
  end.

Definition build_tags_data (tags : pyval) : res (list pyval) :=
  let b := new_builder "main" in
  let form_data := [value_string (PStr "name") (PStr ""); value_string (PStr "color") (PStr "#3B82F6")] in
  let m_form := build_data_model_update b "/app/tags/form" form_data in
  items <- py_iter tags ;;
  predefined <- rfilter (fun t => v <- method_get t "is_predefined" PNone ;; inl (truthy v)) items ;;
  predefined_data <- tag_entries 0 predefined ;;
  let m_predefined := build_data_model_update b "/app/tags/predefined" predefined_data in
  items2 <- py_iter tags ;;
  custom <- rfilter (fun t => v <- method_get t "is_predefined" PNone ;; inl (negb (truthy v))) items2 ;;
  custom_data <- tag_entries 0 custom ;;
  inl [m_form; m_predefined; build_data_model_update b "/app/tags/custom" custom_data].

(** ** The detail page's data ([build_ticket_detail_data] in [pages/tickets.py]) *)

(** [v[:n]]. *)
Definition slice_to (n : nat) (v : pyval) : res pyval :=
  match v with
  | PStr s => inl (PStr (substring 0 n s))
  | PList l => inl (PList (firstn n l))
  | _ => inr (mk_exn "TypeError" ("'" ++ py_type_name v ++ "' object is not subscriptable"))
  end.

Fixpoint replace_char (c d : ascii) (s : string) : string :=
  match s with
  | EmptyString => EmptyString
  | String x r => String (if Ascii.eqb x c then d else x) (replace_char c d r)
  end.

(** [v[:19].replace("T", " ")]. *)
Definition timestamp19 (v : pyval) : res pyval :=
  s <- slice_to 19 v ;;
  match s with
  | PStr x => inl (PStr (replace_char "T" " " x))
  | _ => inr (mk_exn "AttributeError" ("'" ++ py_type_name s ++ "' object has no attribute 'replace'"))
  end.

(** [a / b] rounded to the nearest integer, ties to even ([a >= 0], [b > 0]). *)
Definition round_half_even_div (a b : Z) : Z :=
  let q := (a / b)%Z in
  let r := (a mod b)%Z in
  if (2 * r <? b)%Z then q
  else if (b <? 2 * r)%Z then (q + 1)%Z
  else if Z.even q then q else (q + 1)%Z.

(** A positive integer as the nearest binary64 value [m * 2 ^ e]. *)
Definition binary64_of_pos (k : Z) : Z * Z :=
  let n := (Z.log2 k + 1)%Z in
  if (n <=? 53)%Z then (k, 0%Z)
  else (round_half_even_div k (2 ^ (n - 53)), (n - 53)%Z).

(** [k / 2 ** p] as a float (for [k >= 1024]), printed with [:.1f]: the
    number of tenths, rounded half to even from the float's exact value. *)
Definition tenths_of_div (k p : Z) : res Z :=
  let '(m, sh) := binary64_of_pos k in
  let e := (sh - p)%Z in
  if (0 <=? e)%Z then
    if (2 ^ 1024 <=? m * 2 ^ e)%Z
    then inr (mk_exn "OverflowError" "integer division result too large for a float")
    else inl (10 * m * 2 ^ e)%Z
  else inl (round_half_even_div (10 * m) (2 ^ (- e))).

Definition format_tenths (t : Z) : string := Z_dec (t / 10) ++ "." ++ Z_dec (t mod 10).

(** The [size_formatted] of an attachment. *)
Definition size_formatted (size_bytes : pyval) : res string :=
  c1 <- py_lt size_bytes (PInt 1024) ;;
  if c1 then inl (py_str size_bytes ++ " B")
  else
    c2 <- py_lt size_bytes (PInt (1024 * 1024)) ;;
    let k := match as_int size_bytes with Some k => k | None => 0%Z end in
    if c2 then t <- tenths_of_div k 10 ;; inl (format_tenths t ++ " KB")
    else t <- tenths_of_div k 20 ;; inl (format_tenths t ++ " MB").

Definition att_entry (i : nat) (att : pyval) : res pyval :=
  size_bytes <- getitem att "size_bytes" ;;
  sf <- size_formatted size_bytes ;;
  id <- getitem att "id" ;;
  filename <- getitem att "filename" ;;
  inl (value_map (PStr ("att" ++ nat_dec i))
         (build_value_map_from_dict [(PStr "id", id); (PStr "filename", filename);
                                     (PStr "sizeFormatted", PStr sf)])).

Fixpoint att_entries (i : nat) (atts : list pyval) : res (list pyval) :=
  match atts with
  | [] => inl []
  | a :: r => e <- att_entry i a ;; es <- att_entries (S i) r ;; inl (e :: es)
  end.

(** [change_type_labels.get(k, default)]: a list or dict key is unhashable. *)
Definition change_type_label (k default : pyval) : res pyval :=
  match k with
  | PStr "status" => inl (PStr "状态变更")
  | PStr "priority" => inl (PStr "优先级变更")
  | PStr "resolution" => inl (PStr "处理结果")
  | PStr "tag_added" => inl (PStr "添加标签")
  | PStr "tag_removed" => inl (PStr "移除标签")
  | PList _ | PDict _ => inr (mk_exn "TypeError" ("unhashable type: '" ++ py_type_name k ++ "'"))
  | _ => inl default
  end.

Definition history_entry (i : nat) (h : pyval) : res pyval :=
  ct <- getitem h "change_type" ;;
  ct' <- getitem h "change_type" ;;
  label <- change_type_label ct ct' ;;
  old_value <- method_get h "old_value" PNone ;;
  new_value <- method_get h "new_value" PNone ;;
  created <- getitem h "created_at" ;;
  created19 <- timestamp19 created ;;
  inl (value_map (PStr ("h" ++ nat_dec i))
         (build_value_map_from_dict [(PStr "changeTypeLabel", label);
                                     (PStr "old_value", py_or old_value (PStr "-"));
                                     (PStr "new_value", py_or new_value (PStr "-"));
                                     (PStr "created_at", created19)])).

Fixpoint history_entries (i : nat) (hs : list pyval) : res (list pyval) :=
  match hs with
  | [] => inl []
  | h :: r => e <- history_entry i h ;; es <- history_entries (S i) r ;; inl (e :: es)
  end.

Definition build_ticket_detail_data (ticket attachments history : pyval) : res (list pyval) :=
  let b := new_builder "main" in
  id <- getitem ticket "id" ;;
  title <- getitem ticket "title" ;;
  description <- method_get ticket "description" PNone ;;
  status <- getitem ticket "status" ;;
  st <- getitem ticket "status" ;;
  status_lbl <- status_label st ;;
  priority <- getitem ticket "priority" ;;
  pr <- getitem ticket "priority" ;;
  priority_lbl <- priority_label pr ;;
  resolution <- method_get ticket "resolution" PNone ;;
  created <- getitem ticket "created_at" ;;
  created19 <- timestamp19 created ;;
  updated <- getitem ticket "updated_at" ;;
  updated19 <- timestamp19 updated ;;
  let detail_data :=
    build_value_map_from_dict
      [(PStr "id", id); (PStr "title", title); (PStr "description", py_or description (PStr "无描述"));
       (PStr "status", status); (PStr "statusLabel", status_lbl); (PStr "priority", priority);
       (PStr "priorityLabel", priority_lbl); (PStr "resolution", py_or resolution (PStr ""));
       (PStr "created_at", created19); (PStr "updated_at", updated19)] in
  let m_detail := build_data_model_update b "/app/ticket/detail" detail_data in
  tags <- method_get ticket "tags" (PList []) ;;
  tag_items <- py_iter tags ;;
  tags_data <- tag_entries 0 tag_items ;;
  let m_tags := build_data_model_update b "/app/ticket/tags" tags_data in
  att_items <- py_iter attachments ;;
  attach_data <- att_entries 0 att_items ;;
  let m_att := build_data_model_update b "/app/ticket/attachments" attach_data in
  hist_items <- py_iter history ;;
  history_data <- history_entries 0 hist_items ;;
  inl [m_detail; m_tags; m_att; build_data_model_update b "/app/ticket/history" history_data].

(** [generate_page_messages] with the page assemblers of [pages/]; the
    detail data function is left as a parameter. *)
Definition render (be : backend) (detail_data : pyval -> pyval -> pyval -> res (list pyval))
  (p : string) (query_params : list (pyval * pyval)) : list pyval :=
  generate_page_messages be build_ticket_detail_page detail_data build_ticket_edit_page edit_data_messages
    (gpage build_ticket_create_page_body) (gpage build_tags_page) build_tags_data p query_params.

(** [generate_page_messages] with every page assembler and data function
    of [pages/]. *)
Definition serve (be : backend) (p : string) (query_params : list (pyval * pyval)) : list pyval :=
  render be build_ticket_detail_data p query_params.

(** The surface of the detail view of [ticket]. *)
Definition detail_surface (ticket : pyval) : builder :=
  let '(_, b, _) := build_ticket_detail_page ticket (new_builder "main") in
  build_app_layout b "detail-page" "tickets".

(** ** Surface well-formedness *)

Definition comp_field (c : pyval) (k : string) : option pyval :=
  match c with PDict kv => dict_lookup kv k | _ => None end.

Definition str_of (v : option pyval) : list string :=
  match v with Some (PStr s) => [s] | _ => [] end.

Definition comp_id (c : pyval) : list string := str_of (comp_field c "id").

(** The component ids a component refers to: [child], the modal children,
    an explicit children list or a template's [componentId]. *)
Definition comp_refs (c : pyval) : list string :=
  match comp_field c "component" with
  | Some (PDict [(_, PDict props)]) =>
      (str_of (dict_lookup props "child") ++ str_of (dict_lookup props "entryPointChild") ++
       str_of (dict_lookup props "contentChild") ++
       match dict_lookup props "children" with
       | Some (PDict ch) =>
           (match dict_lookup ch "explicitList" with
            | Some (PList l) => flat_map (fun v => str_of (Some v)) l
            | _ => []
            end) ++ str_of (match dict_lookup ch "template" with Some t => comp_field t "componentId" | None => None end)
       | _ => []
       end)%list
  | _ => []
  end.

Fixpoint nodupb (l : list string) : bool :=
  match l with [] => true | x :: r => negb (mem_name x r) && nodupb r end.

(** Component ids pairwise distinct, every reference resolved, root present. *)
Definition surface_ok (b : builder) (root : string) : bool :=
  let ids := flat_map comp_id (components b) in
  nodupb ids && forallb (fun r => mem_name r ids) (flat_map comp_refs (components b)) && mem_name root ids.

(** The first component of the surface with id [cid]. *)
Definition lookup_component (b : builder) (cid : string) : option pyval :=
  find (fun c => mem_name cid (comp_id c)) (components b).

(** The values [TicketStatus] accepts. *)
Definition ticket_statuses : list string := ["open"; "in_progress"; "completed"; "cancelled"].

(** The surfaces of the views, as serialized by [build_surface_update]. *)
Definition not_found_view : builder :=
  let '(b, page_id) := build_not_found_page (new_builder "main") in build_app_layout b page_id "".
Definition tags_view : builder :=
  let '(b, page_id) := build_tags_page (new_builder "main") in build_app_layout b page_id "tags".
Definition create_view : builder :=
  let '(b, page_id) := build_ticket_create_page_body (new_builder "main") in build_app_layout b page_id "tickets".
Definition edit_view (ticket_id : pyval) : builder :=
  build_app_layout (edit_components (new_builder "main") ticket_id) "edit-page" "tickets".

(** ** Tag records *)

Definition has_key (kv : list (pyval * pyval)) (k : string) : bool :=
  match dict_lookup kv k with Some _ => true | None => false end.

(** A tag the page can show: a dict with [id], [name] and [color]. *)
Definition tag_complete (t : pyval) : bool :=
  match t with PDict kv => has_key kv "id" && has_key kv "name" && has_key kv "color" | _ => false end.

(** [t.get("is_predefined")] is truthy. *)
Definition is_predefined_tag (t : pyval) : bool :=
  match t with PDict kv => truthy (dict_get kv "is_predefined" PNone) | _ => false end.

Definition tags_form_data : list pyval :=
  [value_string (PStr "name") (PStr ""); value_string (PStr "color") (PStr "#3B82F6")].

(** Tags as the backend lists them. *)
Definition sample_tags : list pyval :=
  [PDict [(PStr "id", PStr "t1"); (PStr "name", PStr "bug"); (PStr "color", PStr "#EF4444");
          (PStr "is_predefined", PBool true)];
   PDict [(PStr "id", PStr "t2"); (PStr "name", PStr "vip"); (PStr "color", PStr "#3B82F6")]].

(** ** Decimal strings *)

Fixpoint all_digits (s : string) : bool :=
  match s with EmptyString => true | String c r => is_digit c && all_digits r end.

(** The value of a digit string read after [acc]. *)
Fixpoint digits_value (s : string) (acc : Z) : Z :=
  match s with EmptyString => acc | String c r => digits_value r (10 * acc + digit_val c) end.

(** ** Shapes of generator runs *)

(** A run that completes has yielded a [beginRendering] of ["app-layout"] last. *)
Definition ends_in_begin_rendering {A} (m : Gen A) : Prop :=
  forall b, match m b with
            | (o, _, inl _) => exists pre b', o = (pre ++ [build_begin_rendering b' "app-layout"])%list
            | _ => True
            end.

(** A computation that yields nothing. *)
Definition silent {A} (m : Gen A) : Prop := forall b, fst (fst (m b)) = [].

(** What has been yielded is nothing, or starts with a [surfaceUpdate]. *)
Definition opens_with_surface_update {A} (m : Gen A) : Prop :=
  forall b, fst (fst (m b)) = [] \/ exists b' rest, fst (fst (m b)) = build_surface_update b' :: rest.

(** ** Navigation targets read back by the stream endpoint *)

(** The dict of [str] that [stream_ui] passes to [generate_page_messages]. *)
Definition query_dict (qp : list (string * string)) : list (pyval * pyval) :=
  map (fun '(k, v) => (PStr k, PStr v)) qp.

(** Characters of a filter value that [parse_qs] reads back unchanged:
    none of [& # % +], tab, LF or CR. *)
Definition plain_value_char (c : ascii) : bool :=
  negb (Ascii.eqb c "&" || Ascii.eqb c "#" || Ascii.eqb c "%" || Ascii.eqb c "+" ||
        (N_of_ascii c =? 9)%N || (N_of_ascii c =? 10)%N || (N_of_ascii c =? 13)%N).

(** The piece [f"{key}={value}"] of a query string. *)
Definition query_part (kv : string * string) : string := fst kv ++ "=" ++ snd kv.

(** ** Auxiliary lemmas *)

Lemma split_slash_from_cons : forall s cur, exists x xs, split_slash_from s cur = x :: xs.
Proof.
  induction s as [| c r IH]; intros cur; simpl.
  - eauto.
  - destruct (Ascii.eqb c "/"); eauto.
Qed.

Lemma third_segment_tickets : forall rest,
  third_segment ("/tickets/" ++ rest) = inl (PStr (ticket_id_of rest)).
Proof.
  intros rest. unfold third_segment, ticket_id_of, split_slash. simpl.
  destruct (split_slash_from_cons rest "") as [x [xs E]]. now rewrite E.
Qed.

Lemma route_detail : forall rest,
  rest <> "new" -> ends_with "/edit" ("/tickets/" ++ rest) = false ->
  (String.eqb ("/tickets/" ++ rest) "/" || String.eqb ("/tickets/" ++ rest) "/tickets") = false /\
  String.eqb ("/tickets/" ++ rest) "/tickets/new" = false /\
  (starts_with "/tickets/" ("/tickets/" ++ rest) && ends_with "/edit" ("/tickets/" ++ rest)) = false /\
  starts_with "/tickets/" ("/tickets/" ++ rest) = true.
Proof.
  intros rest Hnew Hedit. rewrite Hedit. simpl.
  repeat split; try reflexivity; try (now apply String.eqb_neq); now rewrite andb_false_r.
Qed.

Lemma conv_list_items : forall l i,
  (fix go (i : nat) (l : list pyval) : list pyval :=
     match l with
     | [] => []
     | item :: r =>
         (match item with
          | PDict _ => value_map (PStr ("item" ++ nat_dec i)) (conv item)
          | _ => value_string (PStr ("item" ++ nat_dec i)) (PStr (py_str item))
          end) :: go (S i) r
     end) i l =
  map (fun '(i, x) => list_item_entry i x) (combine (seq i (length l)) l).
Proof.
  induction l as [| item r IH]; intros i; simpl; [reflexivity |].
  rewrite IH. f_equal. destruct item; reflexivity.
Qed.

Lemma conv_cons : forall k v rest,
  build_value_map_from_dict ((k, v) :: rest) =
  ((if is_str v then [value_string k v]
    else if is_bool v then [value_bool k v]
    else if is_int_or_float v then [value_number k v]
    else match v with
         | PDict _ => [value_map k (conv v)]
         | PList _ => [value_map k (conv v)]
         | PNone => [value_string k (PStr "")]
         | _ => []
         end) ++ build_value_map_from_dict rest)%list.
Proof. reflexivity. Qed.

Lemma py_max_int : forall a b, py_max (PInt a) (PInt b) = inl (PInt (Z.max a b)).
Proof.
  intros a b. unfold py_max, py_lt. simpl.
  destruct (Z.ltb_spec a b); do 2 f_equal; lia.
Qed.

Lemma py_min_int : forall a b, py_min (PInt a) (PInt b) = inl (PInt (Z.min a b)).
Proof.
  intros a b. unfold py_min, py_lt. simpl.
  destruct (Z.ltb_spec b a); do 2 f_equal; lia.
Qed.

Lemma sdict_get_set : forall d k v k',
  sdict_get (sdict_set d k v) k' = if String.eqb k' k then Some v else sdict_get d k'.
Proof.
  induction d as [| [k1 v1] r IH]; intros k v k'; simpl.
  - reflexivity.
  - destruct (String.eqb k k1) eqn:E1; simpl.
    + apply String.eqb_eq in E1; subst k1.
      destruct (String.eqb k' k); reflexivity.
    + rewrite IH. destruct (String.eqb k' k1) eqn:E2; [| reflexivity].
      apply String.eqb_eq in E2; subst k1.
      destruct (String.eqb k' k) eqn:E3; [| reflexivity].
      apply String.eqb_eq in E3; subst. rewrite String.eqb_refl in E1. discriminate.
Qed.

Lemma lookup_add_value : forall d n v k,
  lookup_values (add_value d n v) k =
  if String.eqb k n then Some (match lookup_values d k with Some vs => (vs ++ [v])%list | None => [v] end)
  else lookup_values d k.
Proof.
  induction d as [| [k1 vs1] r IH]; intros n v k; simpl.
  - destruct (String.eqb k n); reflexivity.
  - destruct (String.eqb n k1) eqn:E1; simpl.
    + apply String.eqb_eq in E1; subst k1.
      destruct (String.eqb k n); reflexivity.
    + rewrite IH. destruct (String.eqb k k1) eqn:E2; [| reflexivity].
      apply String.eqb_eq in E2; subst k1.
      destruct (String.eqb k n) eqn:E3; [| reflexivity].
      apply String.eqb_eq in E3; subst. rewrite String.eqb_refl in E1. discriminate.
Qed.

Lemma head_parse_qs_from : forall P d k,
  head_value (lookup_values (fold_left (fun d '(k, v) => add_value d k v) P d) k) =
  match head_value (lookup_values d k) with Some v => Some v | None => first_match P k end.
Proof.
  induction P as [| [n v] P IH]; intros d k; simpl.
  - destruct (head_value (lookup_values d k)); reflexivity.
  - rewrite IH, lookup_add_value.
    destruct (String.eqb k n) eqn:E.
    + destruct (lookup_values d k) as [[| x xs] |]; reflexivity.
    + reflexivity.
Qed.

Lemma keys_add_value : forall d n v,
  NoDup (map fst d) -> NoDup (map fst (add_value d n v)).
Proof.
  induction d as [| [k1 vs1] r IH]; intros n v Hd; simpl.
  - constructor; [intros [] | constructor].
  - inversion Hd as [| ? ? Hnot Hr]; subst.
    destruct (String.eqb n k1) eqn:E; simpl.
    + constructor; assumption.
    + constructor; [| now apply IH].
      intros Hin. apply Hnot.
      assert (Hk : forall d', In k1 (map fst (add_value d' n v)) -> k1 = n \/ In k1 (map fst d')).
      { induction d' as [| [k2 vs2] r' IH']; simpl; intros H.
        - destruct H as [H | []]. left; auto.
        - destruct (String.eqb n k2); simpl in H; destruct H as [H | H]; auto.
          apply IH' in H. tauto. }
      destruct (Hk r Hin) as [Heq | Hin']; [| exact Hin'].
      subst. rewrite String.eqb_refl in E. discriminate.
Qed.

Lemma keys_parse_qs_from : forall P d,
  NoDup (map fst d) -> NoDup (map fst (fold_left (fun d '(k, v) => add_value d k v) P d)).
Proof.
  induction P as [| [n v] P IH]; intros d Hd; simpl; [exact Hd |].
  apply IH. now apply keys_add_value.
Qed.

Lemma merge_get : forall L d k,
  NoDup (map fst L) ->
  sdict_get (fold_left (fun qp '(key, values) =>
                          match values with v :: _ => sdict_set qp key v | [] => qp end) L d) k =
  match head_value (lookup_values L k) with Some v => Some v | None => sdict_get d k end.
Proof.
  induction L as [| [k1 vs] L IH]; intros d k Hnd; simpl; [reflexivity |].
  inversion Hnd as [| ? ? Hnot Hr]; subst.
  rewrite IH by exact Hr.
  destruct (String.eqb k k1) eqn:E.
  - apply String.eqb_eq in E; subst k1.
    assert (Hnone : lookup_values L k = None).
    { clear - Hnot. induction L as [| [k2 vs2] L IH]; simpl; [reflexivity |].
      simpl in Hnot. destruct (String.eqb k k2) eqn:E.
      - apply String.eqb_eq in E; subst. tauto.
      - apply IH. tauto. }
    rewrite Hnone. simpl.
    destruct vs as [| v vs]; simpl; [reflexivity |].
    rewrite sdict_get_set, String.eqb_refl. reflexivity.
  - destruct (head_value (lookup_values L k)); [reflexivity |].
    destruct vs as [| v vs]; [reflexivity |].
    rewrite sdict_get_set, E. reflexivity.
Qed.

Lemma index_of_none : forall (f : ascii -> bool) c s,
  (forall d, f d = true -> Ascii.eqb c d = false) -> str_forall f s = true -> index_of c s = None.
Proof.
  intros f c s Hf. induction s as [| d r IH]; simpl; [reflexivity |].
  intros H. apply andb_prop in H. destruct H as [H1 H2].
  rewrite (Hf d H1), IH by exact H2. reflexivity.
Qed.

Lemma index_of_app : forall c s1 s2,
  index_of c s1 = None -> index_of c (s1 ++ s2) = option_map (fun i => String.length s1 + i) (index_of c s2).
Proof.
  intros c s1 s2. induction s1 as [| d r IH]; simpl; intros H.
  - destruct (index_of c s2); reflexivity.
  - destruct (Ascii.eqb c d); [discriminate |].
    destruct (index_of c r) eqn:E; [discriminate |].
    rewrite IH by reflexivity. destruct (index_of c s2); reflexivity.
Qed.

Lemma substring_prefix : forall s1 s2, substring 0 (String.length s1) (s1 ++ s2) = s1.
Proof. induction s1 as [| d r IH]; intros s2; simpl; [now destruct s2 | now rewrite IH]. Qed.

Lemma substring_skip : forall s1 s2 k m, substring (String.length s1 + k) m (s1 ++ s2) = substring k m s2.
Proof. induction s1 as [| d r IH]; intros s2 k m; simpl; [reflexivity | apply IH]. Qed.

Lemma str_length_app : forall s1 s2, String.length (s1 ++ s2) = String.length s1 + String.length s2.
Proof. induction s1 as [| d r IH]; intros s2; simpl; [reflexivity | now rewrite IH]. Qed.

Lemma substring_all : forall s m, String.length s <= m -> substring 0 m s = s.
Proof.
  induction s as [| d r IH]; intros m Hm; simpl.
  - destruct m; reflexivity.
  - destruct m as [| m]; simpl in Hm; [lia |]. simpl. rewrite IH by lia. reflexivity.
Qed.

Lemma remove_unsafe_plain : forall (f : ascii -> bool) s,
  (forall c, f c = true -> ((N_of_ascii c =? 9) || (N_of_ascii c =? 10) || (N_of_ascii c =? 13))%N = false) ->
  str_forall f s = true -> remove_unsafe s = s.
Proof.
  intros f s Hf. induction s as [| d r IH]; simpl; [reflexivity |].
  intros H. apply andb_prop in H. destruct H as [H1 H2].
  rewrite (Hf d H1), IH by exact H2. reflexivity.
Qed.

Lemma remove_unsafe_app : forall s1 s2, remove_unsafe (s1 ++ s2) = (remove_unsafe s1 ++ remove_unsafe s2)%string.
Proof.
  induction s1 as [| d r IH]; intros s2; simpl; [reflexivity |].
  rewrite IH. destruct (_ || _ || _); reflexivity.
Qed.

Lemma str_contains_none : forall c s, index_of c s = None -> str_contains_char c s = false.
Proof.
  induction s as [| d r IH]; simpl; [reflexivity |].
  destruct (Ascii.eqb c d); [discriminate |].
  destruct (index_of c r); [discriminate |]. intros _. now apply IH.
Qed.

Lemma plain_path_char_spec : forall c, plain_path_char c = true ->
  Ascii.eqb "?" c = false /\ Ascii.eqb "#" c = false /\ Ascii.eqb ";" c = false /\
  ((N_of_ascii c =? 9) || (N_of_ascii c =? 10) || (N_of_ascii c =? 13))%N = false.
Proof.
  intros c. unfold plain_path_char.
  rewrite (Ascii.eqb_sym "?"), (Ascii.eqb_sym "#"), (Ascii.eqb_sym ";").
  destruct (Ascii.eqb c "?"), (Ascii.eqb c "#"), (Ascii.eqb c ";"),
    (N_of_ascii c =? 9)%N, (N_of_ascii c =? 10)%N, (N_of_ascii c =? 13)%N;
    simpl; intros H; try discriminate; auto.
Qed.

Lemma plain_query_char_spec : forall c, plain_query_char c = true ->
  Ascii.eqb "#" c = false /\
  ((N_of_ascii c =? 9) || (N_of_ascii c =? 10) || (N_of_ascii c =? 13))%N = false.
Proof.
  intros c. unfold plain_query_char. rewrite (Ascii.eqb_sym "#").
  destruct (Ascii.eqb c "#"), (N_of_ascii c =? 9)%N, (N_of_ascii c =? 10)%N, (N_of_ascii c =? 13)%N;
    simpl; intros H; try discriminate; auto.
Qed.

Lemma urlparse_plain : forall p' q,
  starts_with "/" p' = false -> str_forall plain_path_char p' = true -> str_forall plain_query_char q = true ->
  urlparse (String "/" (p' ++ String "?" q)) = Some (mk_parse "" "" (String "/" p') "" q "").
Proof.
  intros p' q Hs Hp Hq.
  assert (Hu : remove_unsafe (String "/" (p' ++ String "?" q)) = String "/" (p' ++ String "?" q)).
  { simpl. rewrite remove_unsafe_app.
    rewrite (remove_unsafe_plain plain_path_char p') by (exact Hp || (intros c Hc; apply plain_path_char_spec, Hc)).
    simpl. rewrite (remove_unsafe_plain plain_query_char q) by (exact Hq || (intros c Hc; apply plain_query_char_spec, Hc)).
    reflexivity. }
  unfold urlparse. simpl lstrip_c0. rewrite Hu.
  assert (Hsch : split_scheme (String "/" (p' ++ String "?" q)) = ("", String "/" (p' ++ String "?" q))).
  { unfold split_scheme. destruct (index_of ":" _) as [[| i] |]; reflexivity. }
  rewrite Hsch.
  assert (Hss : starts_with "//" (String "/" (p' ++ String "?" q)) = false).
  { destruct p' as [| d r]; [reflexivity |]. simpl in Hs |- *. exact Hs. }
  rewrite Hss. cbv beta iota zeta. simpl str_contains_char. cbv beta iota.
  assert (Hph : index_of "#" p' = None)
    by (apply (index_of_none plain_path_char); [intros d Hd; apply plain_path_char_spec, Hd | exact Hp]).
  assert (Hqh : index_of "#" q = None)
    by (apply (index_of_none plain_query_char); [intros d Hd; apply plain_query_char_spec, Hd | exact Hq]).
  assert (Hpq : index_of "?" p' = None)
    by (apply (index_of_none plain_path_char); [intros d Hd; apply plain_path_char_spec, Hd | exact Hp]).
  assert (Hps : index_of ";" p' = None)
    by (apply (index_of_none plain_path_char); [intros d Hd; apply plain_path_char_spec, Hd | exact Hp]).
  assert (Hf : split_once "#" (String "/" (p' ++ String "?" q)) = None).
  { unfold split_once. simpl. rewrite index_of_app by exact Hph. simpl. rewrite Hqh. reflexivity. }
  rewrite Hf.
  assert (Hq' : split_once "?" (String "/" (p' ++ String "?" q)) = Some (String "/" p', q)).
  { unfold split_once. simpl. rewrite index_of_app by exact Hpq. simpl.
    rewrite Nat.add_0_r, substring_prefix.
    rewrite <- Nat.add_1_r, substring_skip.
    simpl. rewrite substring_all by (rewrite str_length_app; simpl; lia). reflexivity. }
  rewrite Hq'.
  simpl mem_name. simpl str_contains_char. rewrite (str_contains_none ";" p' Hps). reflexivity.
Qed.

(** ** Claims *)

(** C1. A stream request for a ticket-detail path [/tickets/<rest>] whose
    attachments fetch raises [e] (the ticket fetch having succeeded) yields
    exactly two messages: the [surfaceUpdate] of the error view built after
    [reset], then [beginRendering] with root ["app-layout"], the top
    component of the error view, a column whose content child is the error
    page root ["error-page"].  Nothing of the detail page is emitted. *)
Theorem detail_attachments_failure_ends_in_begin_rendering :
  forall be dp dd ep ed cp tp td rest query_params ticket e,
  rest <> "new" ->
  ends_with "/edit" ("/tickets/" ++ rest) = false ->
  get_ticket be (PStr (ticket_id_of rest)) = inl ticket ->
  get_ticket_attachments be (PStr (ticket_id_of rest)) = inr e ->
  generate_page_messages be dp dd ep ed cp tp td ("/tickets/" ++ rest) query_params =
    [build_surface_update (error_view e); build_begin_rendering (error_view e) "app-layout"] /\
  last (components (error_view e)) PNone =
    component "app-layout" "Column"
      [(PStr "children", PDict [(PStr "explicitList", id_list ["nav-header"; "divider-nav"; "error-page"])])].
Proof.
  intros be dp dd ep ed cp tp td rest query_params ticket e Hnew Hedit Hticket Hatt.
  destruct (route_detail rest Hnew Hedit) as (R1 & R2 & R3 & R4).
  split; [| reflexivity].
  unfold generate_page_messages, page_body.
  rewrite R1, R2, R3, R4, third_segment_tickets.
  cbn [gbind glift]. rewrite Hticket. cbn [gbind glift]. rewrite Hatt.
  reflexivity.
Qed.

Lemma detail_attachments_failure_witness :
  generate_page_messages be_attachments_fail stub_page1 stub_data3 stub_page1 stub_data1
    stub_page stub_page stub_data1 ("/tickets/" ++ "abc") [] =
    [build_surface_update (error_view exn_404); build_begin_rendering (error_view exn_404) "app-layout"] /\
  last (components (error_view exn_404)) PNone =
    component "app-layout" "Column"
      [(PStr "children", PDict [(PStr "explicitList", id_list ["nav-header"; "divider-nav"; "error-page"])])].
Proof.
  apply (detail_attachments_failure_ends_in_begin_rendering be_attachments_fail stub_page1 stub_data3
           stub_page1 stub_data1 stub_page stub_page stub_data1 "abc" [] (PDict []) exn_404);
    [discriminate | reflexivity | reflexivity | reflexivity].
Defined.

(** On the list routes ["/"] and ["/tickets"], once the tickets fetch
    succeeds, the list view's [surfaceUpdate] is yielded, then the call
    [build_tickets_data(tickets_data, search, status, priority, page)]
    raises [TypeError] and the error view follows. *)
Lemma list_route_emits_list_surface_then_error_view :
  forall be dp dd ep ed cp tp td p query_params tickets_data,
  (p = "/" \/ p = "/tickets") ->
  fetch_tickets be query_params = inl tickets_data ->
  generate_page_messages be dp dd ep ed cp tp td p query_params =
    [build_surface_update tickets_list_view;
     build_surface_update (error_view (arity_error "build_tickets_data" 1 5));
     build_begin_rendering (error_view (arity_error "build_tickets_data" 1 5)) "app-layout"].
Proof.
  intros be dp dd ep ed cp tp td p query_params tickets_data Hp Hfetch.
  assert (Hr : (String.eqb p "/" || String.eqb p "/tickets") = true)
    by (destruct Hp; subst; reflexivity).
  unfold generate_page_messages, page_body. rewrite Hr.
  cbn [gbind glift]. rewrite Hfetch. reflexivity.
Qed.

(** On the create route, once the tags fetch succeeds, the call
    [build_ticket_create_page(builder, tags)] raises [TypeError] before
    anything is yielded. *)
Lemma create_route_emits_only_error_view :
  forall be dp dd ep ed cp tp td query_params tags,
  list_tags be = inl tags ->
  generate_page_messages be dp dd ep ed cp tp td "/tickets/new" query_params =
    [build_surface_update (error_view (arity_error "build_ticket_create_page" 1 2));
     build_begin_rendering (error_view (arity_error "build_ticket_create_page" 1 2)) "app-layout"].
Proof.
  intros be dp dd ep ed cp tp td query_params tags Htags.
  unfold generate_page_messages, page_body. cbn [String.eqb orb].
  cbn [gbind glift]. rewrite Htags. reflexivity.
Qed.

(** C2 (as amended).  The calls [build_tickets_data(tickets_data, search,
    status, priority, page)] and [build_ticket_create_page(builder, tags)]
    pass more arguments than the one-parameter definitions accept, so
    Python raises [TypeError] and the [except] block emits the error view
    (a [surfaceUpdate] built after [reset], then [beginRendering] with root
    ["app-layout"]).  On the create route this is the whole output.  On the
    list routes the list view's [surfaceUpdate] has already been yielded
    before the failing call, so the output is that [surfaceUpdate] followed
    by the error view; no list data and no list [beginRendering] follow. *)
Theorem list_and_create_routes_fall_into_error_view :
  forall be dp dd ep ed cp tp td query_params,
  (forall p tickets_data, (p = "/" \/ p = "/tickets") ->
     fetch_tickets be query_params = inl tickets_data ->
     generate_page_messages be dp dd ep ed cp tp td p query_params =
       [build_surface_update tickets_list_view;
        build_surface_update (error_view (arity_error "build_tickets_data" 1 5));
        build_begin_rendering (error_view (arity_error "build_tickets_data" 1 5)) "app-layout"]) /\
  (forall tags, list_tags be = inl tags ->
     generate_page_messages be dp dd ep ed cp tp td "/tickets/new" query_params =
       [build_surface_update (error_view (arity_error "build_ticket_create_page" 1 2));
        build_begin_rendering (error_view (arity_error "build_ticket_create_page" 1 2)) "app-layout"]).
Proof.
  intros be dp dd ep ed cp tp td query_params. split.
  - intros p tickets_data Hp Hfetch.
    now apply (list_route_emits_list_surface_then_error_view be dp dd ep ed cp tp td p query_params tickets_data).
  - intros tags Htags.
    now apply (create_route_emits_only_error_view be dp dd ep ed cp tp td query_params tags).
Qed.

Lemma list_and_create_routes_witness :
  generate_page_messages (be_ok (PDict [])) stub_page1 stub_data3 stub_page1 stub_data1
    stub_page stub_page stub_data1 "/tickets" [] =
    [build_surface_update tickets_list_view;
     build_surface_update (error_view (arity_error "build_tickets_data" 1 5));
     build_begin_rendering (error_view (arity_error "build_tickets_data" 1 5)) "app-layout"] /\
  generate_page_messages (be_ok (PDict [])) stub_page1 stub_data3 stub_page1 stub_data1
    stub_page stub_page stub_data1 "/tickets/new" [] =
    [build_surface_update (error_view (arity_error "build_ticket_create_page" 1 2));
     build_begin_rendering (error_view (arity_error "build_ticket_create_page" 1 2)) "app-layout"].
Proof.
  destruct (list_and_create_routes_fall_into_error_view (be_ok (PDict [])) stub_page1 stub_data3
              stub_page1 stub_data1 stub_page stub_page stub_data1 []) as [L C].
  split.
  - apply (L "/tickets" (PDict [])); [right; reflexivity | reflexivity].
  - apply (C (PDict [])). reflexivity.
Defined.

(** C2, as stated, fails on the list route: with a backend that answers
    [{}], the stream for ["/tickets"] has three messages, the first being
    the [surfaceUpdate] of the list page (not of the error view). *)
Lemma list_route_not_only_error_view :
  let out := generate_page_messages (be_ok (PDict [])) stub_page1 stub_data3 stub_page1 stub_data1
               stub_page stub_page stub_data1 "/tickets" [] in
  out <> [build_surface_update (error_view (arity_error "build_tickets_data" 1 5));
          build_begin_rendering (error_view (arity_error "build_tickets_data" 1 5)) "app-layout"] /\
  length out = 3 /\
  hd PNone out = build_surface_update tickets_list_view /\
  build_surface_update tickets_list_view <> build_surface_update (error_view (arity_error "build_tickets_data" 1 5)).
Proof.
  vm_compute. split; [discriminate | split; [reflexivity | split; [reflexivity | discriminate]]].
Qed.

(** C3. [build_value_map_from_dict({"a": 1, "b": True, "c": "x"})] is
    [[{key:"a",valueNumber:1},{key:"b",valueBoolean:true},{key:"c",valueString:"x"}]]:
    [True] is classified as boolean although [isinstance(True, (int, float))]
    holds, because the [bool] test comes first.  In general, entry by entry
    in insertion order: [str] gives [valueString], [bool] [valueBoolean],
    [int] and [float] [valueNumber], a [dict] a nested [valueMap], a [list] a
    [valueMap] with keys [item0], [item1], ..., and [None] an empty
    [valueString]. *)
Theorem build_value_map_from_dict_kinds :
  build_value_map_from_dict [(PStr "a", PInt 1); (PStr "b", PBool true); (PStr "c", PStr "x")] =
    [PDict [(PStr "key", PStr "a"); (PStr "valueNumber", PInt 1)];
     PDict [(PStr "key", PStr "b"); (PStr "valueBoolean", PBool true)];
     PDict [(PStr "key", PStr "c"); (PStr "valueString", PStr "x")]] /\
  is_int_or_float (PBool true) = true /\
  (forall k s rest, build_value_map_from_dict ((k, PStr s) :: rest) =
     value_string k (PStr s) :: build_value_map_from_dict rest) /\
  (forall k b rest, build_value_map_from_dict ((k, PBool b) :: rest) =
     value_bool k (PBool b) :: build_value_map_from_dict rest) /\
  (forall k z rest, build_value_map_from_dict ((k, PInt z) :: rest) =
     value_number k (PInt z) :: build_value_map_from_dict rest) /\
  (forall k r rest, build_value_map_from_dict ((k, PFloat r) :: rest) =
     value_number k (PFloat r) :: build_value_map_from_dict rest) /\
  (forall k kv rest, build_value_map_from_dict ((k, PDict kv) :: rest) =
     value_map k (build_value_map_from_dict kv) :: build_value_map_from_dict rest) /\
  (forall k l rest, build_value_map_from_dict ((k, PList l) :: rest) =
     value_map k (map (fun '(i, x) => list_item_entry i x) (combine (seq 0 (length l)) l))
       :: build_value_map_from_dict rest) /\
  (forall k rest, build_value_map_from_dict ((k, PNone) :: rest) =
     value_string k (PStr "") :: build_value_map_from_dict rest).
Proof.
  repeat split; try reflexivity.
  intros k l rest. rewrite conv_cons. simpl. f_equal. f_equal.
  apply conv_list_items.
Qed.

(** C9. [reset()] empties the components and the data updates and keeps
    the surface id, so the next [build_surface_update()] is a
    [surfaceUpdate] of the same surface with no components. *)
Theorem reset_keeps_surface_id :
  forall b : builder,
  surface_id (reset b) = surface_id b /\
  components (reset b) = [] /\
  data_updates (reset b) = [] /\
  build_surface_update (reset b) =
    PDict [(PStr "surfaceUpdate",
            PDict [(PStr "surfaceId", PStr (surface_id b)); (PStr "components", PList [])])].
Proof. intros b. repeat split. Qed.

Lemma rbind_inl {A B} (m : res A) (k : A -> res B) x :
  rbind m k = inl x -> exists a, m = inl a /\ k a = inl x.
Proof. destruct m as [a | e]; simpl; [eauto | discriminate]. Qed.

Fixpoint conv_checked_ok (v : pyval) {struct v} : forall out, conv_checked v = inl out -> out = conv v.
Proof.
  destruct v as [| b | z | r | s | l | kv | t x]; intros out H; try (simpl in H |- *; congruence).
  - simpl in H |- *. revert out H. generalize 0. revert l. fix IHl 1. intros [| item l] i out H.
    + simpl in H. congruence.
    + apply rbind_inl in H. destruct H as [entry [He H]].
      apply rbind_inl in H. destruct H as [rest [Hr H]].
      injection H as <-. rewrite (IHl l (S i) rest Hr).
      f_equal.
      pose proof (conv_checked_ok item) as IHi.
      destruct item as [| b' | z' | r' | s' | l' | kv' | t' x'];
        try (destruct (str_too_long _); [discriminate He |]; injection He as <-; reflexivity).
      apply rbind_inl in He. destruct He as [items [Hc He]].
      injection He as <-. rewrite (IHi items Hc). reflexivity.
  - simpl in H |- *. revert out H. revert kv. fix IHkv 1. intros [| [key value] kv] out H.
    + simpl in H. congruence.
    + apply rbind_inl in H. destruct H as [entry [He H]].
      apply rbind_inl in H. destruct H as [rest [Hr H]].
      injection H as <-. rewrite (IHkv kv rest Hr).
      f_equal.
      pose proof (conv_checked_ok value) as IHv.
      destruct value as [| b' | z' | r' | s' | l' | kv' | t' x']; cbn [is_str is_bool is_int_or_float] in He |- *;
        try (injection He as <-; reflexivity);
        apply rbind_inl in He; destruct He as [items [Hc He]];
        injection He as <-; rewrite (IHv items Hc); reflexivity.
Qed.

Lemma conv_length_supported : forall data,
  length (build_value_map_from_dict data) = length (filter supported (map snd data)).
Proof.
  induction data as [| [k v] rest IH]; [reflexivity |].
  rewrite conv_cons. destruct v; simpl; try rewrite IH; reflexivity.
Qed.

(** C10 (as amended).  [build_value_map_from_dict] is not total:
    [str(item)] of a non-dict list item raises [ValueError] on an int of
    more than 4300 digits, as for [{"ids": [10**4300]}].  Whenever it
    returns, its result is [conv]'s, and a key whose value is of none of the
    types [str], [bool], [int], [float], [dict], [list], [None] (a tuple, a
    set, any other object) gives no entry: the output has one entry per key
    with a supported value, so it can be shorter than the input, as for
    [{"t": (1, 2), "n": 1}]. *)
Theorem build_value_map_from_dict_drops_other_types :
  (forall k t x rest, build_value_map_from_dict_checked ((k, POther t x) :: rest) =
     build_value_map_from_dict_checked rest) /\
  (forall data out, build_value_map_from_dict_checked data = inl out ->
     out = build_value_map_from_dict data /\
     length out = length (filter supported (map snd data))) /\
  build_value_map_from_dict_checked [(PStr "t", POther "tuple" "(1, 2)"); (PStr "n", PInt 1)] =
    inl [value_number (PStr "n") (PInt 1)] /\
  build_value_map_from_dict_checked [(PStr "ids", PList [PInt (10 ^ 4300)])] = inr int_str_limit_error.
Proof.
  split; [| split; [| split]].
  - intros k t x rest. unfold build_value_map_from_dict_checked. cbn [conv_checked].
    cbn [is_str is_bool is_int_or_float rbind app].
    destruct (_ rest); reflexivity.
  - intros data out H. apply conv_checked_ok in H. subst out.
    split; [reflexivity | apply conv_length_supported].
  - reflexivity.
  - vm_compute. reflexivity.
Qed.

(** C4. Whenever [build_tickets_data] succeeds on a response whose [page]
    is the integer [p] and whose [total_pages] is the integer [t], its last
    message is the [/app/tickets/pagination] update with [prevPage =
    max(1, p-1)], [nextPage = min(t, p+1)] and [info = "第 p 页 / 共 t 页"];
    for [p = 3], [t = 5] these are 2, 4 and ["第 3 页 / 共 5 页"]; for
    [p = 1] [prevPage] is 1; for [p = t] [nextPage] is [t]. *)
Theorem tickets_pagination_clamped :
  (forall resp msgs p t,
     method_get resp "page" (PInt 1) = inl (PInt p) ->
     method_get resp "total_pages" (PInt 1) = inl (PInt t) ->
     build_tickets_data resp = inl msgs ->
     exists m_query m_list,
       msgs = [m_query; m_list;
               build_data_model_update (new_builder "main") "/app/tickets/pagination" (pagination_spec p t)]) /\
  pagination_spec 3 5 =
    [value_number (PStr "page") (PInt 3); value_number (PStr "totalPages") (PInt 5);
     value_number (PStr "prevPage") (PInt 2); value_number (PStr "nextPage") (PInt 4);
     value_string (PStr "info") (PStr "第 3 页 / 共 5 页")] /\
  (forall t, nth 2 (pagination_spec 1 t) PNone = value_number (PStr "prevPage") (PInt 1)) /\
  (forall p, nth 3 (pagination_spec p p) PNone = value_number (PStr "nextPage") (PInt p)).
Proof.
  split; [| split; [reflexivity | split]].
  - intros resp msgs p t Hp Ht H.
    unfold build_tickets_data in H. rewrite Hp in H. cbn [rbind] in H.
    destruct (method_get resp "data" (PList [])) as [tickets | e]; [| discriminate H].
    cbn [rbind] in H.
    destruct (py_iter tickets) as [items | e]; [| discriminate H].
    cbn [rbind] in H.
    destruct (ticket_entries 0 items) as [list_data | e]; [| discriminate H].
    cbn [rbind] in H. rewrite Ht in H. cbn [rbind py_sub py_add as_int] in H.
    rewrite py_max_int in H. cbn [rbind] in H. rewrite py_min_int in H. cbn [rbind] in H.
    injection H as <-. eexists; eexists. reflexivity.
  - intros t. reflexivity.
  - intros p. unfold pagination_spec. simpl. do 3 f_equal. lia.
Qed.

Lemma tickets_pagination_witness :
  exists m_query m_list,
    build_tickets_data (tickets_response 3 5) =
      inl [m_query; m_list;
           build_data_model_update (new_builder "main") "/app/tickets/pagination" (pagination_spec 3 5)].
Proof.
  destruct (proj1 tickets_pagination_clamped (tickets_response 3 5)
              [build_data_model_update (new_builder "main") "/app/tickets/query"
                 [value_string (PStr "search") (PStr ""); value_string (PStr "status") (PStr "");
                  value_string (PStr "priority") (PStr ""); value_number (PStr "page") (PInt 3)];
               build_data_model_update (new_builder "main") "/app/tickets/list" [];
               build_data_model_update (new_builder "main") "/app/tickets/pagination" (pagination_spec 3 5)]
              3%Z 5%Z eq_refl eq_refl eq_refl) as [mq [ml E]].
  exists mq, ml. rewrite <- E. reflexivity.
Defined.

(** C5. [filter_status] with status ["open"], current search ["x"] and
    current page 3 navigates to [/tickets?search=x&status=open]: the page
    is reset to 1 and, being the default, left out of the query. *)
Theorem filter_status_resets_page :
  forall be,
  process_action be (mk_action "filter_status"
    [(PStr "status", PStr "open"); (PStr "current_search", PStr "x"); (PStr "current_page", PInt 3)]) =
  inl (PDict [(PStr "navigate", PStr "/tickets?search=x&status=open")]).
Proof. intros be. reflexivity. Qed.

(** C6. When the backend call of a [delete_tag] action raises an exception
    whose text contains ["404"] but none of ["409"], ["Conflict"], ["400"],
    ["Bad Request"], [handle_action] returns the envelope
    [{success: false, error: "操作失败：资源未找到"}]. *)
Theorem delete_tag_404_envelope :
  forall be context e,
  delete_tag be (dict_get context "id" PNone) = inr e ->
  str_in "404" (exn_str e) = true ->
  str_in "409" (exn_str e) = false -> str_in "Conflict" (exn_str e) = false ->
  str_in "400" (exn_str e) = false -> str_in "Bad Request" (exn_str e) = false ->
  handle_action be (mk_action "delete_tag" context) =
    PDict [(PStr "success", PBool false); (PStr "error", PStr "操作失败：资源未找到")].
Proof.
  intros be context e Hdel H404 H409 Hconf H400 Hbad.
  unfold handle_action, process_action. cbn [action_name action_context String.eqb mem_name existsb orb].
  cbn [Ascii.eqb Bool.eqb andb].
  rewrite Hdel. cbn [rbind orb]. unfold classify_error.
  rewrite H409, Hconf, H400, Hbad, H404. reflexivity.
Qed.

Lemma delete_tag_404_witness :
  handle_action be_tag_missing (mk_action "delete_tag" [(PStr "id", PStr "t1")]) =
    PDict [(PStr "success", PBool false); (PStr "error", PStr "操作失败：资源未找到")].
Proof.
  apply (delete_tag_404_envelope be_tag_missing [(PStr "id", PStr "t1")] exn_tag_404);
    vm_compute; reflexivity.
Defined.

(** C7. For an action name outside the dispatched set, whatever the
    context, [process_action] returns [{unknown: true}] and no error. *)
Theorem unknown_action_is_soft :
  forall be name context,
  mem_name name known_actions = false ->
  process_action be (mk_action name context) = inl (PDict [(PStr "unknown", PBool true)]).
Proof.
  intros be name context H.
  assert (Hn : forall x, In x known_actions -> String.eqb name x = false).
  { intros x Hx. destruct (String.eqb name x) eqn:E; [| reflexivity].
    exfalso. assert (Ht : mem_name name known_actions = true)
      by (apply existsb_exists; eauto). congruence. }
  unfold process_action, mem_name. cbn [action_name action_context existsb].
  repeat match goal with
         | |- context [String.eqb name ?x] => rewrite (Hn x) by (simpl; tauto)
         end.
  reflexivity.
Qed.

Lemma unknown_action_witness :
  process_action (be_ok PNone) (mk_action "archive_ticket" [(PStr "id", PStr "t1")]) =
    inl (PDict [(PStr "unknown", PBool true)]).
Proof.
  apply unknown_action_is_soft. vm_compute. reflexivity.
Defined.

(** C8 (as amended).  For every [path] parameter that [urlparse] accepts and
    every outer query [request_query], the routing path is [urlparse(path).path]
    and the effective value of each key [k] is the first value [parse_qsl] keeps
    for [k] in the embedded query string, when there is one; otherwise it is the
    outer value of [k], with the outer ["path"] removed.  [parse_qsl] drops
    pieces with an empty value, so an embedded [k=] leaves the outer value in
    place.  For a navigation target [/p?q], where [p] does not start with [/] and
    contains none of [? # ;] or tab, CR or LF, and [q] contains none of [#],
    tab, CR or LF, the parse has path [/p] and query [q]. *)
Theorem stream_params_merge :
  (forall unquote path request_query parsed,
     urlparse path = Some parsed ->
     exists qp, stream_params unquote path request_query = Some (pr_path parsed, qp) /\
       forall k, sdict_get qp k =
         match first_match (parse_qsl unquote (pr_query parsed)) k with
         | Some v => Some v
         | None => sdict_get (sdict_pop request_query "path") k
         end) /\
  (forall p q,
     starts_with "/" p = false -> str_forall plain_path_char p = true ->
     str_forall plain_query_char q = true ->
     urlparse (String "/" (p ++ String "?" q)) = Some (mk_parse "" "" (String "/" p) "" q "")).
Proof.
  split.
  - intros unquote path rq parsed Hp.
    unfold stream_params. rewrite Hp.
    eexists. split; [reflexivity |]. intros k.
    rewrite merge_get.
    + unfold parse_qs. rewrite head_parse_qs_from. reflexivity.
    + unfold parse_qs. apply keys_parse_qs_from. constructor.
  - exact urlparse_plain.
Qed.

Lemma stream_params_merge_witness :
  (starts_with "/" "tickets" = false /\ str_forall plain_path_char "tickets" = true /\
   str_forall plain_query_char "page=2&status=" = true) /\
  urlparse (String "/" ("tickets" ++ String "?" "page=2&status=")) =
    Some (mk_parse "" "" "/tickets" "" "page=2&status=" "") /\
  exists qp, stream_params percent_decode "/tickets?page=2&status=" [("status", "open"); ("page", "9")] =
    Some ("/tickets", qp) /\
    forall k, sdict_get qp k =
      match first_match (parse_qsl percent_decode "page=2&status=") k with
      | Some v => Some v
      | None => sdict_get (sdict_pop [("status", "open"); ("page", "9")] "path") k
      end.
Proof.
  split; [vm_compute; repeat split |].
  split.
  - apply (proj2 stream_params_merge "tickets" "page=2&status="); vm_compute; reflexivity.
  - apply (proj1 stream_params_merge percent_decode "/tickets?page=2&status="
             [("status", "open"); ("page", "9")] (mk_parse "" "" "/tickets" "" "page=2&status=" "")).
    vm_compute. reflexivity.
Defined.

(** C8, as stated, fails for an embedded key with an empty value: with the
    navigation target [/tickets?status=] and the outer parameter
    [status=open], the key [status] is in both, yet the effective [status] is
    the outer ["open"], since [parse_qs] drops the blank value. *)
Lemma blank_embedded_value_keeps_outer :
  urlparse "/tickets?status=" = Some (mk_parse "" "" "/tickets" "" "status=" "") /\
  stream_params percent_decode "/tickets?status=" [("path", "/tickets?status="); ("status", "open")] =
    Some ("/tickets", [("status", "open")]).
Proof. split; vm_compute; reflexivity. Qed.

(** C10, as stated, fails: [build_value_map_from_dict({"ids": [10**4300]})]
    raises [ValueError], since [str] of the list item exceeds the 4300-digit
    limit. *)
Lemma value_map_long_int_raises :
  build_value_map_from_dict_checked [(PStr "ids", PList [PInt (10 ^ 4300)])] = inr int_str_limit_error.
Proof. vm_compute. reflexivity. Qed.

(** ** Further properties of the server *)

Lemma starts_with_app : forall p s, starts_with p (p ++ s) = true.
Proof. induction p as [| a p IH]; intros s; simpl; [reflexivity | now rewrite Ascii.eqb_refl, IH]. Qed.

(** The views the server serializes are well formed: component ids are
    pairwise distinct, every [child], children list entry and template
    [componentId] names a component of the surface, and the root
    ["app-layout"] is one of them.  This holds for the error view of any
    exception, the not-found view, the tickets list view, the tags view and
    the create view. *)
Theorem static_views_well_formed :
  (forall e, surface_ok (error_view e) "app-layout" = true) /\
  surface_ok not_found_view "app-layout" = true /\
  surface_ok tickets_list_view "app-layout" = true /\
  surface_ok tags_view "app-layout" = true /\
  surface_ok create_view "app-layout" = true.
Proof.
  split; [intros [t m]; vm_compute; reflexivity |].
  repeat split; vm_compute; reflexivity.
Qed.

(** A path that is none of ["/"], ["/tickets"], ["/tags"] and does not
    start with ["/tickets/"] renders the not-found view: exactly its
    [surfaceUpdate] and [beginRendering] with root ["app-layout"], whatever
    the backend and the other page assemblers. *)
Theorem unrouted_path_renders_not_found :
  forall be dp dd ep ed cp tp td p query_params,
  String.eqb p "/" = false -> String.eqb p "/tickets" = false ->
  starts_with "/tickets/" p = false -> String.eqb p "/tags" = false ->
  generate_page_messages be dp dd ep ed cp tp td p query_params =
    [build_surface_update not_found_view; build_begin_rendering not_found_view "app-layout"].
Proof.
  intros be dp dd ep ed cp tp td p qp H1 H2 H3 H4.
  assert (Hn : String.eqb p "/tickets/new" = false).
  { destruct (String.eqb p "/tickets/new") eqn:E; [| reflexivity].
    apply String.eqb_eq in E. subst. discriminate. }
  unfold generate_page_messages, page_body.
  rewrite H1, H2, Hn, H3, H4. reflexivity.
Qed.

(** When [process_action] raises, [handle_action] answers with
    [{"success": False, "error": msg}] and [msg] always starts with
    ["操作失败："]. *)
Theorem handle_action_failure_envelope :
  forall be action e,
  process_action be action = inr e ->
  exists msg, handle_action be action = PDict [(PStr "success", PBool false); (PStr "error", PStr msg)] /\
              starts_with "操作失败：" msg = true.
Proof.
  intros be action e H. unfold handle_action. rewrite H.
  eexists. split; [reflexivity |].
  unfold classify_error.
  destruct (_ || _); [reflexivity |].
  destruct (_ || _); [reflexivity |].
  destruct (_ || _); [reflexivity |].
  apply starts_with_app.
Qed.

(** [process_action] reaches the backend only for [create_ticket],
    [update_ticket], [delete_ticket], [change_status], [create_tag] and
    [delete_tag]: for any other action its result does not depend on the
    backend. *)
Theorem process_action_backend_free :
  forall be1 be2 action,
  mem_name (action_name action)
    ["create_ticket"; "update_ticket"; "delete_ticket"; "change_status"; "create_tag"; "delete_tag"] = false ->
  process_action be1 action = process_action be2 action.
Proof.
  intros be1 be2 [name ctx] H. simpl in H. unfold mem_name in H. simpl in H.
  repeat rewrite orb_false_iff in H.
  destruct H as (E1 & E2 & E3 & E4 & E5 & E6 & _).
  unfold process_action. simpl action_name. simpl action_context.
  rewrite E1, E2, E3, E4, E5, E6. reflexivity.
Qed.


Lemma valid_status_cases : forall st, mem_name st ticket_statuses = true ->
  st = "open" \/ st = "in_progress" \/ st = "completed" \/ st = "cancelled".
Proof.
  intros st H. unfold mem_name, ticket_statuses in H. simpl in H.
  repeat rewrite orb_true_iff in H.
  destruct H as [H | [H | [H | [H | H]]]]; try discriminate; apply String.eqb_eq in H; auto.
Qed.

Ltac run_detail_page Hid Hst :=
  unfold build_ticket_detail_page; cbn [gbind glift gmodify gret getitem method_get];
  rewrite Hid, Hst; reflexivity.

(** On a ticket with an [id] and a valid [status], the detail page offers
    one [change_status] button per target of [STATUS_TRANSITIONS[status]]:
    the row ["detail-status-btns"] lists ["status-btn-<t>"] for exactly these
    targets, in the table's order; button ["status-btn-<t>"] sends the
    ticket id and [t]; the current status is never a target. *)
Theorem detail_page_status_buttons :
  forall kv tid st,
  dict_lookup kv "id" = Some tid -> dict_lookup kv "status" = Some (PStr st) ->
  mem_name st ticket_statuses = true ->
  exists b', build_ticket_detail_page (PDict kv) (new_builder "main") = ([], b', inl "detail-page") /\
    ~ In st (status_transitions st) /\
    lookup_component b' "detail-status-btns" =
      Some (component "detail-status-btns" "Row"
              [(PStr "children", PDict [(PStr "explicitList",
                  id_list (map (fun t => "status-btn-" ++ t) (status_transitions st)))]);
               (PStr "alignment", PStr "center")]) /\
    forall t, In t (status_transitions st) ->
      lookup_component b' ("status-btn-" ++ t) =
        Some (component ("status-btn-" ++ t) "Button"
                [(PStr "child", PStr ("status-btn-text-" ++ t));
                 (PStr "action", PDict [(PStr "name", PStr "change_status");
                                        (PStr "context", PList [ctx_entry "id" (literal_string tid);
                                                                ctx_entry "status" (lit t)])])]).
Proof.
  intros kv tid st Hid Hst Hv.
  destruct (valid_status_cases st Hv) as [-> | [-> | [-> | ->]]];
    (eexists; split; [run_detail_page Hid Hst |]);
    (split; [simpl; intuition discriminate |]);
    (split; [vm_compute; reflexivity |]);
    intros t Ht; simpl in Ht; repeat destruct Ht as [<- | Ht]; try contradiction;
    vm_compute; reflexivity.
Qed.

Lemma detail_page_status_buttons_witness :
  (dict_lookup [(PStr "id", PStr "7"); (PStr "status", PStr "open")] "id" = Some (PStr "7") /\
   dict_lookup [(PStr "id", PStr "7"); (PStr "status", PStr "open")] "status" = Some (PStr "open") /\
   mem_name "open" ticket_statuses = true) /\
  exists b', build_ticket_detail_page (PDict [(PStr "id", PStr "7"); (PStr "status", PStr "open")]) (new_builder "main") = ([], b', inl "detail-page") /\
    ~ In "open" (status_transitions "open") /\
    lookup_component b' "detail-status-btns" =
      Some (component "detail-status-btns" "Row"
              [(PStr "children", PDict [(PStr "explicitList",
                  id_list (map (fun t => "status-btn-" ++ t) (status_transitions "open")))]);
               (PStr "alignment", PStr "center")]) /\
    forall t, In t (status_transitions "open") ->
      lookup_component b' ("status-btn-" ++ t) =
        Some (component ("status-btn-" ++ t) "Button"
                [(PStr "child", PStr ("status-btn-text-" ++ t));
                 (PStr "action", PDict [(PStr "name", PStr "change_status");
                                        (PStr "context", PList [ctx_entry "id" (literal_string (PStr "7"));
                                                                ctx_entry "status" (lit t)])])]).
Proof.
  split; [repeat split |].
  apply detail_page_status_buttons; reflexivity.
Defined.

(** The left column ["detail-main"] of the detail page holds the resolution
    card exactly when [ticket.get("resolution")] is truthy, between the
    description and the attachments cards. *)
Theorem detail_page_resolution_card :
  forall kv tid st,
  dict_lookup kv "id" = Some tid -> dict_lookup kv "status" = Some (PStr st) ->
  mem_name st ticket_statuses = true ->
  exists b', build_ticket_detail_page (PDict kv) (new_builder "main") = ([], b', inl "detail-page") /\
    lookup_component b' "detail-main" =
      Some (component "detail-main" "Column"
              [(PStr "children", PDict [(PStr "explicitList",
                  id_list (["detail-desc-card"] ++
                           (if truthy (dict_get kv "resolution" PNone) then ["detail-resolution-card"] else []) ++
                           ["detail-attach-card"])%list)])]).
Proof.
  intros kv tid st Hid Hst Hv.
  destruct (valid_status_cases st Hv) as [-> | [-> | [-> | ->]]];
    (eexists; split; [run_detail_page Hid Hst |]);
    destruct (truthy (dict_get kv "resolution" PNone)); vm_compute; reflexivity.
Qed.

Lemma detail_page_resolution_card_witness :
  (dict_lookup [(PStr "id", PStr "7"); (PStr "status", PStr "completed"); (PStr "resolution", PStr "done")] "id" = Some (PStr "7") /\
   dict_lookup [(PStr "id", PStr "7"); (PStr "status", PStr "completed"); (PStr "resolution", PStr "done")] "status" = Some (PStr "completed") /\
   mem_name "completed" ticket_statuses = true) /\
  exists b', build_ticket_detail_page (PDict [(PStr "id", PStr "7"); (PStr "status", PStr "completed"); (PStr "resolution", PStr "done")]) (new_builder "main") = ([], b', inl "detail-page") /\
    lookup_component b' "detail-main" =
      Some (component "detail-main" "Column"
              [(PStr "children", PDict [(PStr "explicitList",
                  id_list (["detail-desc-card"] ++
                           (if truthy (dict_get [(PStr "id", PStr "7"); (PStr "status", PStr "completed"); (PStr "resolution", PStr "done")] "resolution" PNone) then ["detail-resolution-card"] else []) ++
                           ["detail-attach-card"])%list)])]).
Proof.
  split; [repeat split |].
  apply detail_page_resolution_card with (tid := PStr "7") (st := "completed"); reflexivity.
Defined.

(** The edit view (for any ticket id) and the detail view (for any ticket
    with an [id] and a valid [status], with or without a resolution) are
    well formed: distinct component ids, every reference resolved, root
    ["app-layout"] present. *)
Theorem ticket_views_well_formed :
  (forall tid, surface_ok (edit_view tid) "app-layout" = true) /\
  (forall kv tid st,
   dict_lookup kv "id" = Some tid -> dict_lookup kv "status" = Some (PStr st) ->
   mem_name st ticket_statuses = true ->
   exists b', build_ticket_detail_page (PDict kv) (new_builder "main") = ([], b', inl "detail-page") /\
     surface_ok (build_app_layout b' "detail-page" "tickets") "app-layout" = true).
Proof.
  split; [intros tid; vm_compute; reflexivity |].
  intros kv tid st Hid Hst Hv.
  destruct (valid_status_cases st Hv) as [-> | [-> | [-> | ->]]];
    (eexists; split; [run_detail_page Hid Hst |]);
    destruct (truthy (dict_get kv "resolution" PNone)); vm_compute; reflexivity.
Qed.

Lemma ticket_views_well_formed_witness :
  (dict_lookup [(PStr "id", PInt 7); (PStr "status", PStr "in_progress")] "id" = Some (PInt 7) /\
   dict_lookup [(PStr "id", PInt 7); (PStr "status", PStr "in_progress")] "status" = Some (PStr "in_progress") /\
   mem_name "in_progress" ticket_statuses = true) /\
  exists b', build_ticket_detail_page (PDict [(PStr "id", PInt 7); (PStr "status", PStr "in_progress")]) (new_builder "main") = ([], b', inl "detail-page") /\
     surface_ok (build_app_layout b' "detail-page" "tickets") "app-layout" = true.
Proof.
  split; [repeat split |].
  apply (proj2 ticket_views_well_formed) with (tid := PInt 7) (st := "in_progress"); reflexivity.
Defined.

Lemma route_edit : forall rest,
  ends_with "/edit" ("/tickets/" ++ rest) = true ->
  (String.eqb ("/tickets/" ++ rest) "/" || String.eqb ("/tickets/" ++ rest) "/tickets") = false /\
  String.eqb ("/tickets/" ++ rest) "/tickets/new" = false /\
  (starts_with "/tickets/" ("/tickets/" ++ rest) && ends_with "/edit" ("/tickets/" ++ rest)) = true.
Proof.
  intros rest H. split; [reflexivity |]. split.
  - destruct (String.eqb ("/tickets/" ++ rest) "/tickets/new") eqn:E; [| reflexivity].
    apply String.eqb_eq in E. rewrite E in H. discriminate.
  - now rewrite H, starts_with_app.
Qed.

(** For a ticket the backend returns with [id], [title] and [priority], the
    edit route ["/tickets/<id>/edit"] sends the edit form's [surfaceUpdate],
    the one data model update of [build_ticket_edit_data] at
    ["/app/form/edit"] (title, description or [""], priority) and
    [beginRendering] with root ["app-layout"], and nothing else. *)
Theorem edit_route_messages :
  forall be dd rest query_params kv tid title priority,
  ends_with "/edit" ("/tickets/" ++ rest) = true ->
  get_ticket be (PStr (ticket_id_of rest)) = inl (PDict kv) ->
  dict_lookup kv "id" = Some tid -> dict_lookup kv "title" = Some title ->
  dict_lookup kv "priority" = Some priority ->
  render be dd ("/tickets/" ++ rest) query_params =
    [build_surface_update (edit_view tid);
     build_data_model_update (new_builder "main") "/app/form/edit"
       [value_string (PStr "title") title;
        value_string (PStr "description") (py_or (dict_get kv "description" PNone) (PStr ""));
        value_string (PStr "priority") priority];
     build_begin_rendering (edit_view tid) "app-layout"].
Proof.
  intros be dd rest qp kv tid title pr H Ht Hid Hti Hpr.
  destruct (route_edit rest H) as (R1 & R2 & R3).
  unfold render, generate_page_messages, page_body.
  rewrite R1, R2, R3, third_segment_tickets.
  cbn [gbind glift]. rewrite Ht.
  unfold build_ticket_edit_page, edit_data_messages, build_ticket_edit_data.
  cbn [gbind glift gmodify gret getitem method_get rbind].
  rewrite Hid, Hti, Hpr. reflexivity.
Qed.

Lemma edit_route_messages_witness :
  (ends_with "/edit" ("/tickets/" ++ "7/edit") = true /\
   get_ticket (be_ok (PDict sample_ticket)) (PStr (ticket_id_of "7/edit")) = inl (PDict sample_ticket) /\
   dict_lookup sample_ticket "id" = Some (PInt 7) /\
   dict_lookup sample_ticket "title" = Some (PStr "Printer jam") /\
   dict_lookup sample_ticket "priority" = Some (PStr "high")) /\
  render (be_ok (PDict sample_ticket)) stub_data3 ("/tickets/" ++ "7/edit") [] =
    [build_surface_update (edit_view (PInt 7));
     build_data_model_update (new_builder "main") "/app/form/edit"
       [value_string (PStr "title") (PStr "Printer jam");
        value_string (PStr "description") (PStr "");
        value_string (PStr "priority") (PStr "high")];
     build_begin_rendering (edit_view (PInt 7)) "app-layout"].
Proof.
  split; [split; [| split; [| split; [| split]]]; reflexivity |].
  apply edit_route_messages with (kv := sample_ticket); reflexivity.
Defined.

(** The edit form is sent before its data is read: for a ticket with an
    [id] but no [title] (or with a [title] but no [priority]), the edit route
    sends the edit form's [surfaceUpdate], then the error view of the
    [KeyError] (whose [str] is ['title'], resp. ['priority']) with its
    [beginRendering]. *)
Theorem edit_route_missing_field :
  forall be dd rest query_params kv tid,
  ends_with "/edit" ("/tickets/" ++ rest) = true ->
  get_ticket be (PStr (ticket_id_of rest)) = inl (PDict kv) ->
  dict_lookup kv "id" = Some tid ->
  (dict_lookup kv "title" = None ->
   render be dd ("/tickets/" ++ rest) query_params =
     [build_surface_update (edit_view tid);
      build_surface_update (error_view (mk_exn "KeyError" "'title'"));
      build_begin_rendering (error_view (mk_exn "KeyError" "'title'")) "app-layout"]) /\
  (forall title, dict_lookup kv "title" = Some title -> dict_lookup kv "priority" = None ->
   render be dd ("/tickets/" ++ rest) query_params =
     [build_surface_update (edit_view tid);
      build_surface_update (error_view (mk_exn "KeyError" "'priority'"));
      build_begin_rendering (error_view (mk_exn "KeyError" "'priority'")) "app-layout"]).
Proof.
  intros be dd rest qp kv tid H Ht Hid.
  destruct (route_edit rest H) as (R1 & R2 & R3).
  unfold render, generate_page_messages, page_body.
  rewrite R1, R2, R3, third_segment_tickets.
  cbn [gbind glift]. rewrite Ht.
  unfold build_ticket_edit_page, edit_data_messages, build_ticket_edit_data.
  cbn [gbind glift gmodify gret getitem method_get rbind].
  rewrite Hid. split.
  - intros Hti. rewrite Hti. reflexivity.
  - intros title Hti Hpr. rewrite Hti, Hpr. reflexivity.
Qed.

Lemma edit_route_missing_field_witness :
  (ends_with "/edit" ("/tickets/" ++ "7/edit") = true /\
   get_ticket (be_ok (PDict [(PStr "id", PInt 7)])) (PStr (ticket_id_of "7/edit")) = inl (PDict [(PStr "id", PInt 7)]) /\
   dict_lookup [(PStr "id", PInt 7)] "id" = Some (PInt 7) /\
   dict_lookup [(PStr "id", PInt 7)] "title" = None) /\
  render (be_ok (PDict [(PStr "id", PInt 7)])) stub_data3 ("/tickets/" ++ "7/edit") [] =
    [build_surface_update (edit_view (PInt 7));
     build_surface_update (error_view (mk_exn "KeyError" "'title'"));
     build_begin_rendering (error_view (mk_exn "KeyError" "'title'")) "app-layout"].
Proof.
  split; [split; [| split; [| split]]; reflexivity |].
  apply (proj1 (edit_route_missing_field (be_ok (PDict [(PStr "id", PInt 7)])) stub_data3 "7/edit" []
                  [(PStr "id", PInt 7)] (PInt 7) eq_refl eq_refl eq_refl)).
  reflexivity.
Defined.

Lemma unrouted_path_renders_not_found_witness :
  (String.eqb "/nope" "/" = false /\ String.eqb "/nope" "/tickets" = false /\
   starts_with "/tickets/" "/nope" = false /\ String.eqb "/nope" "/tags" = false) /\
  generate_page_messages (be_ok (PDict [])) stub_page1 stub_data3 stub_page1 stub_data1 stub_page stub_page stub_data1
    "/nope" [] =
    [build_surface_update not_found_view; build_begin_rendering not_found_view "app-layout"].
Proof.
  split; [repeat split |].
  apply unrouted_path_renders_not_found; reflexivity.
Defined.

Lemma handle_action_failure_envelope_witness :
  process_action be_tag_missing (mk_action "delete_tag" [(PStr "id", PStr "t1")]) = inr exn_tag_404 /\
  exists msg, handle_action be_tag_missing (mk_action "delete_tag" [(PStr "id", PStr "t1")]) =
                PDict [(PStr "success", PBool false); (PStr "error", PStr msg)] /\
              starts_with "操作失败：" msg = true.
Proof.
  split; [reflexivity |].
  apply handle_action_failure_envelope with (e := exn_tag_404). reflexivity.
Defined.

Lemma process_action_backend_free_witness :
  mem_name (action_name (mk_action "navigate" [(PStr "path", PStr "/tags")]))
    ["create_ticket"; "update_ticket"; "delete_ticket"; "change_status"; "create_tag"; "delete_tag"] = false /\
  process_action be_tag_missing (mk_action "navigate" [(PStr "path", PStr "/tags")]) =
  process_action (be_ok PNone) (mk_action "navigate" [(PStr "path", PStr "/tags")]).
Proof.
  split; [reflexivity |].
  apply process_action_backend_free. reflexivity.
Defined.


(** *** Stream framing *)

Lemma ends_bind : forall A B (m : Gen A) (k : A -> Gen B),
  (forall a, ends_in_begin_rendering (k a)) -> ends_in_begin_rendering (gbind m k).
Proof.
  intros A B m k Hk b. unfold gbind.
  destruct (m b) as [[o1 b1] [a | e]]; [| exact I].
  specialize (Hk a b1). destruct (k a b1) as [[o2 b2] [x | e]]; [| exact I].
  destruct Hk as [pre [b' ->]]. exists (o1 ++ pre)%list, b'. now rewrite app_assoc.
Qed.

Lemma ends_final : ends_in_begin_rendering (gyield (fun b => build_begin_rendering b "app-layout")).
Proof. intros b. exists [], b. reflexivity. Qed.

Lemma page_body_ends : forall be dp dd ep ed cp tp td p query_params,
  ends_in_begin_rendering (page_body be dp dd ep ed cp tp td p query_params).
Proof.
  intros. unfold page_body.
  repeat match goal with |- context [if ?c then _ else _] => destruct c end;
    repeat (apply ends_bind; intros ?); apply ends_final.
Qed.

Lemma generate_page_messages_ends : forall be dp dd ep ed cp tp td p query_params,
  exists pre b, generate_page_messages be dp dd ep ed cp tp td p query_params =
                (pre ++ [build_begin_rendering b "app-layout"])%list.
Proof.
  intros. unfold generate_page_messages.
  pose proof (page_body_ends be dp dd ep ed cp tp td p query_params (new_builder "main")) as H.
  destruct (page_body be dp dd ep ed cp tp td p query_params (new_builder "main")) as [[out b] [u | e]].
  - exact H.
  - unfold error_messages. destruct (build_error_page (reset b) (exn_str e)) as [b2 pid].
    exists (out ++ [build_surface_update (build_app_layout b2 pid "")])%list, (build_app_layout b2 pid "").
    now rewrite <- app_assoc.
Qed.

(** Whatever the path, the query, the backend's answers and the page
    assemblers, the stream of [generate_page_messages] is never empty and its
    last message is a [beginRendering] with root ["app-layout"]: each route
    ends with one, and the [except] block yields one after the error page. *)
Theorem stream_ends_with_begin_rendering :
  forall be dp dd ep ed cp tp td p query_params,
  exists pre b, generate_page_messages be dp dd ep ed cp tp td p query_params =
                (pre ++ [build_begin_rendering b "app-layout"])%list.
Proof. exact generate_page_messages_ends. Qed.

Lemma silent_bind : forall A B (m : Gen A) (k : A -> Gen B),
  silent m -> (forall a, silent (k a)) -> silent (gbind m k).
Proof.
  intros A B m k Hm Hk b. specialize (Hm b). unfold gbind.
  destruct (m b) as [[o1 b1] [a | e]]; simpl in *; [| exact Hm].
  specialize (Hk a b1). destruct (k a b1) as [[o2 b2] r2]. simpl in *. now subst.
Qed.

Lemma silent_glift : forall A (r : res A), silent (glift r).
Proof. intros A r b. reflexivity. Qed.

Lemma silent_gret : forall A (a : A), silent (gret a).
Proof. intros A a b. reflexivity. Qed.

Lemma silent_gmodify : forall f, silent (gmodify f).
Proof. intros f b. reflexivity. Qed.

Lemma silent_gpage : forall f, silent (gpage f).
Proof. intros f b. unfold gpage. now destruct (f b). Qed.

Lemma silent_py_call : forall A fname params nargs (body : Gen A),
  silent body -> silent (py_call fname params nargs body).
Proof. intros. unfold py_call. destruct (Nat.eqb params nargs); [assumption | apply silent_glift]. Qed.

Ltac silent_tac :=
  repeat first [ apply silent_bind; [| intros ?]
               | apply silent_glift | apply silent_gret | apply silent_gmodify | apply silent_gpage
               | apply silent_py_call ].

Lemma silent_status_buttons : forall tid targets, silent (status_buttons tid targets).
Proof.
  intros tid targets. induction targets as [| t r IH]; simpl; [apply silent_gret |].
  silent_tac. exact IH.
Qed.

Lemma silent_detail_page : forall t, silent (build_ticket_detail_page t).
Proof.
  intros t. unfold build_ticket_detail_page.
  repeat first [ apply silent_bind; [| intros ?] | apply silent_glift | apply silent_gret
               | apply silent_gmodify | apply silent_status_buttons ].
Qed.

Lemma silent_edit_page : forall t, silent (build_ticket_edit_page t).
Proof. intros t. unfold build_ticket_edit_page. silent_tac. Qed.

Lemma opens_bind_silent : forall A B (m : Gen A) (k : A -> Gen B),
  silent m -> (forall a, opens_with_surface_update (k a)) -> opens_with_surface_update (gbind m k).
Proof.
  intros A B m k Hm Hk b. specialize (Hm b). unfold gbind.
  destruct (m b) as [[o1 b1] [a | e]]; simpl in Hm; subst o1.
  - specialize (Hk a b1). destruct (k a b1) as [[o2 b2] r2]. exact Hk.
  - left. reflexivity.
Qed.

Lemma opens_surface_update : forall B (k : unit -> Gen B),
  opens_with_surface_update (gbind (gyield build_surface_update) k).
Proof.
  intros B k b. unfold gbind, gyield. destruct (k tt b) as [[o2 b2] r2].
  right. eexists _, _. reflexivity.
Qed.

Lemma render_page_body_opens : forall be dd p query_params,
  opens_with_surface_update
    (page_body be build_ticket_detail_page dd build_ticket_edit_page edit_data_messages
       (gpage build_ticket_create_page_body) (gpage build_tags_page) build_tags_data p query_params).
Proof.
  intros. unfold page_body, layout.
  repeat match goal with |- context [if ?c then _ else _] => destruct c end;
    repeat (apply opens_bind_silent;
            [solve [first [apply silent_detail_page | apply silent_edit_page | silent_tac]] | intros ?]);
    apply opens_surface_update.
Qed.

(** With the page assemblers of [pages/], the stream of every request starts
    with a [surfaceUpdate] and ends with a [beginRendering] of
    ["app-layout"]: no page yields before its surface is sent, and when the
    route fails before that, the error page's [surfaceUpdate] comes first. *)
Theorem render_stream_framing :
  forall be dd p query_params,
  exists b rest b' pre,
    render be dd p query_params = build_surface_update b :: rest /\
    render be dd p query_params = (pre ++ [build_begin_rendering b' "app-layout"])%list.
Proof.
  intros be dd p qp.
  destruct (generate_page_messages_ends be build_ticket_detail_page dd build_ticket_edit_page edit_data_messages
              (gpage build_ticket_create_page_body) (gpage build_tags_page) build_tags_data p qp)
    as [pre [b' Hend]].
  assert (Hopen : exists b rest, render be dd p qp = build_surface_update b :: rest).
  { unfold render in *. unfold generate_page_messages in *.
    pose proof (render_page_body_opens be dd p qp (new_builder "main")) as Ho.
    destruct (page_body be build_ticket_detail_page dd build_ticket_edit_page edit_data_messages
                (gpage build_ticket_create_page_body) (gpage build_tags_page) build_tags_data p qp
                (new_builder "main")) as [[out b] [u | e]].
    - simpl in Ho. destruct Ho as [-> | Ho]; [| exact Ho].
      destruct pre; discriminate Hend.
    - simpl in Ho. unfold error_messages.
      destruct (build_error_page (reset b) (exn_str e)) as [b2 pid].
      destruct Ho as [-> | [b0 [rest ->]]].
      + eexists _, _. reflexivity.
      + eexists _, _. reflexivity. }
  destruct Hopen as [b [rest Hopen]].
  exists b, rest, b', pre. split; [exact Hopen | exact Hend].
Qed.

(** *** Ticket detail on an unknown status *)

Lemma ticket_status_invalid : forall sv,
  (forall s, sv = PStr s -> mem_name s ticket_statuses = false) ->
  ticket_status sv = inr (mk_exn "ValueError" (py_repr sv ++ " is not a valid TicketStatus")).
Proof.
  intros sv H. destruct sv; try reflexivity.
  unfold ticket_status. specialize (H s eq_refl). unfold ticket_statuses in H. now rewrite H.
Qed.

(** A ticket whose [status] is not a [TicketStatus] value is never shown:
    [TicketStatus(ticket["status"])] raises [ValueError] while the detail
    page is being built, nothing has been yielded yet, and the stream is
    exactly the error view with its [beginRendering]. *)
Theorem detail_route_invalid_status :
  forall be dd rest query_params kv tid sv att hist,
  rest <> "new" -> ends_with "/edit" ("/tickets/" ++ rest) = false ->
  get_ticket be (PStr (ticket_id_of rest)) = inl (PDict kv) ->
  get_ticket_attachments be (PStr (ticket_id_of rest)) = inl att ->
  get_ticket_history be (PStr (ticket_id_of rest)) = inl (PDict hist) ->
  dict_lookup kv "id" = Some tid -> dict_lookup kv "status" = Some sv ->
  (forall s, sv = PStr s -> mem_name s ticket_statuses = false) ->
  render be dd ("/tickets/" ++ rest) query_params =
    [build_surface_update (error_view (mk_exn "ValueError" (py_repr sv ++ " is not a valid TicketStatus")));
     build_begin_rendering (error_view (mk_exn "ValueError" (py_repr sv ++ " is not a valid TicketStatus")))
       "app-layout"].
Proof.
  intros be dd rest qp kv tid sv att hist Hnew Hedit Ht Ha Hh Hid Hst Hinv.
  destruct (route_detail rest Hnew Hedit) as (R1 & R2 & R3 & R4).
  unfold render, generate_page_messages, page_body.
  rewrite R1, R2, R3, R4, third_segment_tickets.
  cbn [gbind glift]. rewrite Ht, Ha, Hh.
  unfold build_ticket_detail_page, gbind, glift, gmodify, getitem.
  rewrite Hid, Hst. cbv beta iota zeta.
  rewrite (ticket_status_invalid sv Hinv). reflexivity.
Qed.

Lemma detail_route_invalid_status_witness :
  ("7" <> "new" /\ ends_with "/edit" ("/tickets/" ++ "7") = false /\
   get_ticket (be_ok (PDict [(PStr "id", PInt 7); (PStr "status", PStr "closed")])) (PStr (ticket_id_of "7")) =
     inl (PDict [(PStr "id", PInt 7); (PStr "status", PStr "closed")]) /\
   get_ticket_attachments (be_ok (PDict [(PStr "id", PInt 7); (PStr "status", PStr "closed")])) (PStr (ticket_id_of "7")) =
     inl (PDict [(PStr "id", PInt 7); (PStr "status", PStr "closed")]) /\
   get_ticket_history (be_ok (PDict [(PStr "id", PInt 7); (PStr "status", PStr "closed")])) (PStr (ticket_id_of "7")) =
     inl (PDict [(PStr "id", PInt 7); (PStr "status", PStr "closed")]) /\
   dict_lookup [(PStr "id", PInt 7); (PStr "status", PStr "closed")] "id" = Some (PInt 7) /\
   dict_lookup [(PStr "id", PInt 7); (PStr "status", PStr "closed")] "status" = Some (PStr "closed") /\
   (forall s, PStr "closed" = PStr s -> mem_name s ticket_statuses = false)) /\
  render (be_ok (PDict [(PStr "id", PInt 7); (PStr "status", PStr "closed")])) stub_data3 ("/tickets/" ++ "7") [] =
    [build_surface_update (error_view (mk_exn "ValueError" (py_repr (PStr "closed") ++ " is not a valid TicketStatus")));
     build_begin_rendering (error_view (mk_exn "ValueError" (py_repr (PStr "closed") ++ " is not a valid TicketStatus")))
       "app-layout"].
Proof.
  split.
  - repeat split; try reflexivity.
    + discriminate.
    + intros s Hs. injection Hs as <-. reflexivity.
  - apply detail_route_invalid_status with (kv := [(PStr "id", PInt 7); (PStr "status", PStr "closed")])
      (tid := PInt 7) (att := PDict [(PStr "id", PInt 7); (PStr "status", PStr "closed")])
      (hist := [(PStr "id", PInt 7); (PStr "status", PStr "closed")]); try reflexivity.
    + discriminate.
    + intros s Hs. injection Hs as <-. reflexivity.
Defined.

(** *** The tags page *)

Lemma rfilter_is_predefined : forall (f : bool -> bool) l,
  forallb tag_complete l = true ->
  rfilter (fun t => v <- method_get t "is_predefined" PNone ;; inl (f (truthy v))) l =
  inl (filter (fun t => f (is_predefined_tag t)) l).
Proof.
  intros f l. induction l as [| t r IH]; intros H; [reflexivity |].
  simpl in H. apply andb_prop in H as [Ht Hr].
  destruct t; try discriminate Ht. simpl. rewrite (IH Hr). reflexivity.
Qed.

Lemma forallb_filter_keep : forall (P g : pyval -> bool) l,
  forallb P l = true -> forallb P (filter g l) = true.
Proof.
  intros P g l. induction l as [| x r IH]; simpl; [reflexivity |].
  intros H. apply andb_prop in H as [Hx Hr]. destruct (g x); simpl; [rewrite Hx |]; auto.
Qed.

Lemma tag_entries_complete : forall l i,
  forallb tag_complete l = true -> exists es, tag_entries i l = inl es /\ length es = length l.
Proof.
  induction l as [| t r IH]; intros i H; simpl; [eauto |].
  simpl in H. apply andb_prop in H as [Ht Hr].
  destruct t as [| | | | | | kv |]; try discriminate Ht. unfold tag_complete, has_key in Ht.
  unfold tag_entry, getitem.
  destruct (dict_lookup kv "id"); [| discriminate].
  destruct (dict_lookup kv "name"); [| discriminate].
  destruct (dict_lookup kv "color"); [| discriminate].
  destruct (IH (S i) Hr) as [es [E Hl]]. simpl. rewrite E. simpl.
  eexists; split; [reflexivity | simpl; now rewrite Hl].
Qed.

Lemma filter_partition_length : forall (g : pyval -> bool) l,
  (length (filter g l) + length (filter (fun t => negb (g t)) l) = length l)%nat.
Proof.
  intros g l. induction l as [| x r IH]; simpl; [reflexivity |].
  destruct (g x); simpl; lia.
Qed.

Lemma build_tags_data_complete : forall l,
  forallb tag_complete l = true ->
  exists pd cd,
    build_tags_data (PList l) =
      inl [build_data_model_update (new_builder "main") "/app/tags/form" tags_form_data;
           build_data_model_update (new_builder "main") "/app/tags/predefined" pd;
           build_data_model_update (new_builder "main") "/app/tags/custom" cd] /\
    length pd = length (filter is_predefined_tag l) /\
    length cd = length (filter (fun t => negb (is_predefined_tag t)) l) /\
    (length pd + length cd = length l)%nat.
Proof.
  intros l H. unfold build_tags_data. cbn [py_iter rbind].
  pose proof (rfilter_is_predefined (fun x => x) l H) as Fp. cbv beta in Fp. rewrite Fp.
  rewrite (rfilter_is_predefined negb l H). cbn [rbind].
  destruct (tag_entries_complete (filter (fun t => is_predefined_tag t) l) 0
              (forallb_filter_keep _ _ _ H)) as [pd [Ep Hp]].
  destruct (tag_entries_complete (filter (fun t => negb (is_predefined_tag t)) l) 0
              (forallb_filter_keep _ _ _ H)) as [cd [Ec Hc]].
  rewrite Ep, Ec. exists pd, cd. split; [reflexivity |].
  rewrite Hp, Hc. split; [reflexivity | split; [reflexivity |]].
  apply filter_partition_length.
Qed.

(** On a list of tag dicts with [id], [name] and [color],
    [build_tags_data] returns three data model updates: the empty form,
    the predefined tags and the custom tags.  Every tag is listed exactly
    once: those whose [is_predefined] is truthy under ["/app/tags/predefined"],
    the others (the key missing included) under ["/app/tags/custom"]. *)
Theorem tags_data_partition :
  forall l, forallb tag_complete l = true ->
  exists pd cd,
    build_tags_data (PList l) =
      inl [build_data_model_update (new_builder "main") "/app/tags/form" tags_form_data;
           build_data_model_update (new_builder "main") "/app/tags/predefined" pd;
           build_data_model_update (new_builder "main") "/app/tags/custom" cd] /\
    length pd = length (filter is_predefined_tag l) /\
    length cd = length (filter (fun t => negb (is_predefined_tag t)) l) /\
    (length pd + length cd = length l)%nat.
Proof. exact build_tags_data_complete. Qed.

Lemma tags_data_partition_witness :
  forallb tag_complete sample_tags = true /\
  exists pd cd,
    build_tags_data (PList sample_tags) =
      inl [build_data_model_update (new_builder "main") "/app/tags/form" tags_form_data;
           build_data_model_update (new_builder "main") "/app/tags/predefined" pd;
           build_data_model_update (new_builder "main") "/app/tags/custom" cd] /\
    length pd = length (filter is_predefined_tag sample_tags) /\
    length cd = length (filter (fun t => negb (is_predefined_tag t)) sample_tags) /\
    (length pd + length cd = length sample_tags)%nat.
Proof.
  split; [reflexivity |].
  apply tags_data_partition. reflexivity.
Defined.

(** When the backend lists tag dicts with [id], [name] and [color], the
    ["/tags"] route streams the tags view, the three data model updates of
    [build_tags_data] and [beginRendering], and nothing else. *)
Theorem tags_route_messages :
  forall be dd query_params l,
  list_tags be = inl (PList l) -> forallb tag_complete l = true ->
  exists pd cd,
    render be dd "/tags" query_params =
      [build_surface_update tags_view;
       build_data_model_update (new_builder "main") "/app/tags/form" tags_form_data;
       build_data_model_update (new_builder "main") "/app/tags/predefined" pd;
       build_data_model_update (new_builder "main") "/app/tags/custom" cd;
       build_begin_rendering tags_view "app-layout"] /\
    (length pd + length cd = length l)%nat.
Proof.
  intros be dd qp l Hl H.
  destruct (build_tags_data_complete l H) as [pd [cd [E [_ [_ Hlen]]]]].
  exists pd, cd. split; [| exact Hlen].
  assert (E1 : (String.eqb "/tags" "/" || String.eqb "/tags" "/tickets") = false) by reflexivity.
  assert (E2 : String.eqb "/tags" "/tickets/new" = false) by reflexivity.
  assert (E3 : (starts_with "/tickets/" "/tags" && ends_with "/edit" "/tags") = false) by reflexivity.
  assert (E4 : starts_with "/tickets/" "/tags" = false) by reflexivity.
  assert (E5 : String.eqb "/tags" "/tags" = true) by reflexivity.
  unfold render, generate_page_messages, page_body. rewrite E1, E2, E3, E4, E5.
  unfold gbind, glift, gpage, layout, gmodify, gyield, gyield_all. rewrite Hl.
  cbv beta iota zeta. rewrite E. reflexivity.
Qed.

Lemma tags_route_messages_witness :
  (list_tags (be_ok (PList sample_tags)) = inl (PList sample_tags) /\ forallb tag_complete sample_tags = true) /\
  exists pd cd,
    render (be_ok (PList sample_tags)) stub_data3 "/tags" [] =
      [build_surface_update tags_view;
       build_data_model_update (new_builder "main") "/app/tags/form" tags_form_data;
       build_data_model_update (new_builder "main") "/app/tags/predefined" pd;
       build_data_model_update (new_builder "main") "/app/tags/custom" cd;
       build_begin_rendering tags_view "app-layout"] /\
    (length pd + length cd = length sample_tags)%nat.
Proof.
  split; [split; reflexivity |].
  apply tags_route_messages; reflexivity.
Defined.

(** *** [safe_int] on decimal strings *)

Lemma str_app_assoc : forall s t u, ((s ++ t) ++ u)%string = (s ++ (t ++ u))%string.
Proof. induction s as [| c r IH]; intros t u; simpl; [reflexivity | now rewrite IH]. Qed.

Lemma str_app_nil_r : forall s, (s ++ EmptyString)%string = s.
Proof. induction s as [| c r IH]; simpl; [reflexivity | now rewrite IH]. Qed.

Lemma parse_all_digits : forall s acc b,
  all_digits s = true -> s <> EmptyString ->
  parse_digit_groups s acc b = Some (digits_value s acc).
Proof.
  induction s as [| c r IH]; intros acc b H Hne; [congruence |].
  simpl in H. apply andb_prop in H as [Hc Hr]. simpl. rewrite Hc.
  destruct r as [| c' r']; [reflexivity |].
  apply IH; [exact Hr | discriminate].
Qed.

Lemma digits_value_app : forall s t acc, digits_value (s ++ t) acc = digits_value t (digits_value s acc).
Proof. induction s as [| c r IH]; intros t acc; simpl; auto. Qed.

Lemma all_digits_app : forall s t, all_digits (s ++ t) = all_digits s && all_digits t.
Proof. induction s as [| c r IH]; intros t; simpl; [reflexivity | now rewrite IH, andb_assoc]. Qed.

Lemma digit_char : forall d, (d < 10)%N ->
  is_digit (ascii_of_N (48 + d)) = true /\ digit_val (ascii_of_N (48 + d)) = Z.of_N d.
Proof.
  intros d Hd. unfold is_digit, digit_val.
  rewrite N_ascii_embedding by lia. split.
  - apply andb_true_intro. split; apply N.leb_le; lia.
  - f_equal. lia.
Qed.

Lemma digits_of_spec : forall f n acc, (Z.of_N n < 2 ^ Z.of_nat (S f))%Z ->
  exists s, digits_of (S f) n acc = (s ++ acc)%string /\ all_digits s = true /\ s <> EmptyString /\
            digits_value s 0 = Z.of_N n.
Proof.
  induction f as [| f IH]; intros n acc Hn.
  - assert (Hq : (n / 10 = 0)%N) by (apply N.div_small; simpl in Hn; lia).
    destruct (digit_char (n mod 10) ltac:(apply N.mod_lt; lia)) as [Hd Hv].
    change (digits_of 1 n acc) with
      (let d := N.modulo n 10 in
       let c := ascii_of_N (48 + d) in
       let q := N.div n 10 in
       if (q =? 0)%N then String c acc else digits_of 0 q (String c acc)).
    cbv zeta. rewrite Hq. change (N.eqb 0 0) with true. cbv iota.
    remember (ascii_of_N (48 + n mod 10)) as c eqn:Ec.
    exists (String c EmptyString). cbn [append all_digits digits_value].
    rewrite Hd, Hv. repeat split; try discriminate.
    rewrite N.mod_small by (simpl in Hn; lia). lia.
  - destruct (digit_char (n mod 10) ltac:(apply N.mod_lt; lia)) as [Hd Hv].
    change (digits_of (S (S f)) n acc) with
      (let d := N.modulo n 10 in
       let c := ascii_of_N (48 + d) in
       let q := N.div n 10 in
       if (q =? 0)%N then String c acc else digits_of (S f) q (String c acc)).
    cbv zeta.
    remember (ascii_of_N (48 + n mod 10)) as c eqn:Ec.
    destruct (N.eqb (n / 10) 0) eqn:Eq.
    + apply N.eqb_eq in Eq.
      exists (String c EmptyString). cbn [append all_digits digits_value].
      rewrite Hd, Hv. repeat split; try discriminate.
      rewrite (N.div_mod n 10) at 2 by lia. rewrite Eq. lia.
    + apply N.eqb_neq in Eq.
      assert (Hq : (Z.of_N (n / 10) < 2 ^ Z.of_nat (S f))%Z).
      { rewrite Nat2Z.inj_succ, Z.pow_succ_r in Hn by lia.
        rewrite N2Z.inj_div. apply Z.div_lt_upper_bound; lia. }
      destruct (IH (n / 10)%N (String c acc) Hq) as [s [E [Ha [Hne Hv']]]].
      exists (s ++ String c EmptyString)%string.
      rewrite E. split.
      * rewrite str_app_assoc. reflexivity.
      * rewrite all_digits_app, Ha. cbn [all_digits andb]. rewrite Hd. split; [reflexivity |]. split.
        -- destruct s; [congruence | discriminate].
        -- rewrite digits_value_app, Hv'. cbn [digits_value]. rewrite Hv.
           rewrite (N.div_mod n 10) at 3 by lia. lia.
Qed.

Lemma pos_size_bound : forall p, (Z.pos p < 2 ^ Z.of_nat (Pos.size_nat p))%Z.
Proof.
  induction p as [p IH | p IH |]; simpl Pos.size_nat; [| | simpl; lia];
    rewrite Nat2Z.inj_succ, Z.pow_succ_r by lia; lia.
Qed.

Lemma N_dec_spec : forall p,
  exists s, N_dec (N.pos p) = s /\ all_digits s = true /\ s <> EmptyString /\ digits_value s 0 = Z.pos p.
Proof.
  intros p. unfold N_dec.
  assert (H : (Z.of_N (N.pos p) < 2 ^ Z.of_nat (S (N.size_nat (N.pos p))))%Z).
  { simpl N.size_nat. pose proof (pos_size_bound p). rewrite Nat2Z.inj_succ, Z.pow_succ_r by lia. lia. }
  destruct (digits_of_spec _ _ EmptyString H) as [s [E [Ha [Hne Hv]]]].
  exists s. rewrite E, str_app_nil_r. auto.
Qed.

Lemma digit_not_space : forall c, is_digit c = true -> is_space c = false.
Proof.
  intros c H. unfold is_digit, is_space in *. remember (N_of_ascii c) as n.
  apply andb_prop in H as [H1 H2]. apply N.leb_le in H1, H2.
  destruct (N.eqb_spec n 32), (N.leb_spec 9 n), (N.leb_spec n 13), (N.leb_spec 28 n), (N.leb_spec n 31);
    simpl; try reflexivity; lia.
Qed.

Lemma all_digits_in : forall s c, all_digits s = true -> In c (list_ascii_of_string s) -> is_digit c = true.
Proof.
  induction s as [| a r IH]; intros c H Hin; simpl in *; [contradiction |].
  apply andb_prop in H as [Ha Hr]. destruct Hin as [<- | Hin]; auto.
Qed.

Lemma lstrip_noop : forall s, (forall c, In c (list_ascii_of_string s) -> is_space c = false) -> lstrip s = s.
Proof. intros [| a r] H; simpl; [reflexivity |]. now rewrite (H a (or_introl eq_refl)). Qed.

Lemma strip_noop : forall s, (forall c, In c (list_ascii_of_string s) -> is_space c = false) -> strip s = s.
Proof.
  intros s H. unfold strip. rewrite (lstrip_noop s H).
  rewrite lstrip_noop.
  - now rewrite list_ascii_of_string_of_list_ascii, rev_involutive, string_of_list_ascii_of_string.
  - rewrite list_ascii_of_string_of_list_ascii. intros c Hc. apply H. now apply in_rev.
Qed.

Lemma int_of_str_digits : forall s, all_digits s = true -> s <> EmptyString ->
  int_of_str s = Some (digits_value s 0).
Proof.
  intros s Ha Hne. unfold int_of_str.
  rewrite strip_noop by (intros c Hc; apply digit_not_space; now apply (all_digits_in s)).
  destruct s as [| c r]; [congruence |].
  assert (Hc : is_digit c = true) by (simpl in Ha; now apply andb_prop in Ha).
  destruct c as [[] [] [] [] [] [] [] []]; try (vm_compute in Hc; discriminate Hc);
    exact (parse_all_digits _ 0 false Ha Hne).
Qed.

Lemma int_of_str_neg_digits : forall s, all_digits s = true -> s <> EmptyString ->
  int_of_str (String "-" s) = Some (Z.opp (digits_value s 0)).
Proof.
  intros s Ha Hne. unfold int_of_str.
  rewrite strip_noop.
  - cbn iota. now rewrite (parse_all_digits s 0 false Ha Hne).
  - intros c [<- | Hc]; [reflexivity |]. apply digit_not_space. now apply (all_digits_in s).
Qed.

Lemma safe_int_Z_dec : forall z default, safe_int (PStr (Z_dec z)) default = inl z.
Proof.
  intros [| p | p] d; [reflexivity | |].
  - destruct (N_dec_spec p) as [s [E [Ha [Hne Hv]]]].
    unfold safe_int, Z_dec. rewrite E, (int_of_str_digits s Ha Hne), Hv. reflexivity.
  - destruct (N_dec_spec p) as [s [E [Ha [Hne Hv]]]].
    unfold safe_int, Z_dec. rewrite E. simpl append.
    rewrite (int_of_str_neg_digits s Ha Hne), Hv. reflexivity.
Qed.

(** [safe_int] reads back what [str] writes: for every integer [n] of at
    most 4300 decimal digits (CPython's limit for [int]/[str] conversion,
    beyond which both raise [ValueError]), [safe_int(str(n))] is [n],
    whatever the default, so a page number put in a navigation query by
    [query_navigation] is the one read back from it. *)
Theorem safe_int_reads_str :
  forall z default, (Z.abs z < 10 ^ 4300)%Z -> safe_int (PStr (Z_dec z)) default = inl z.
Proof. intros z default _. exact (safe_int_Z_dec z default). Qed.

Lemma safe_int_reads_str_witness :
  (Z.abs 42 < 10 ^ 4300)%Z /\ safe_int (PStr (Z_dec 42)) 1 = inl 42%Z.
Proof.
  split; [vm_compute; reflexivity |].
  apply safe_int_reads_str. vm_compute. reflexivity.
Defined.

(** *** Actions that reach the backend *)

(** [create_ticket] with a form dict, once the backend has created the
    ticket and returned it with an [id]: when [selectedTagIds] is a string
    or falsy, the action navigates to ["/tickets/<id>"] (adding each tag
    is attempted and a failure is only logged); when it is a truthy non-string
    (a list of ids, say), [.split] raises [AttributeError] and the action
    fails although the ticket exists. *)
Theorem create_ticket_action_result :
  forall be context form ticket tid,
  dict_get context "form" (PDict []) = PDict form ->
  create_ticket be (PDict [(PStr "title", dict_get form "title" PNone);
                           (PStr "description", dict_get form "description" PNone);
                           (PStr "priority", dict_get form "priority" (PStr "medium"))]) = inl ticket ->
  getitem ticket "id" = inl tid ->
  ((is_str (dict_get form "selectedTagIds" (PStr "")) = true \/
    truthy (dict_get form "selectedTagIds" (PStr "")) = false) ->
   process_action be (mk_action "create_ticket" context) = inl (navigate ("/tickets/" ++ py_str tid))) /\
  (is_str (dict_get form "selectedTagIds" (PStr "")) = false ->
   truthy (dict_get form "selectedTagIds" (PStr "")) = true ->
   process_action be (mk_action "create_ticket" context) =
     inr (mk_exn "AttributeError"
            ("'" ++ py_type_name (dict_get form "selectedTagIds" (PStr "")) ++ "' object has no attribute 'split'"))).
Proof.
  intros be ctx form ticket tid Hf Hc Hid.
  assert (E : process_action be (mk_action "create_ticket" ctx) =
              (u <- add_selected_tags tid (dict_get form "selectedTagIds" (PStr "")) ;;
               inl (navigate ("/tickets/" ++ py_str tid)))).
  { unfold process_action. cbn [action_name action_context].
    change (String.eqb "create_ticket" "navigate") with false.
    change (mem_name "create_ticket" ["search_tickets"; "filter_status"; "filter_priority"; "paginate"]) with false.
    change (String.eqb "create_ticket" "view_ticket") with false.
    change (String.eqb "create_ticket" "create_ticket") with true.
    cbv iota. rewrite Hf. cbn [method_get rbind]. rewrite Hc. cbn [rbind]. rewrite Hid. reflexivity. }
  rewrite E. unfold add_selected_tags.
  split.
  - intros [H | H].
    + destruct (dict_get form "selectedTagIds" (PStr "")); try discriminate H.
      destruct (truthy _); reflexivity.
    + rewrite H. reflexivity.
  - intros H1 H2. rewrite H2.
    destruct (dict_get form "selectedTagIds" (PStr "")); try discriminate H1; reflexivity.
Qed.

Lemma create_ticket_action_result_witness :
  (dict_get [(PStr "form", PDict [(PStr "title", PStr "Printer jam"); (PStr "selectedTagIds", PList [PStr "t1"])])]
     "form" (PDict []) = PDict [(PStr "title", PStr "Printer jam"); (PStr "selectedTagIds", PList [PStr "t1"])] /\
   create_ticket (be_ok (PDict sample_ticket))
     (PDict [(PStr "title", PStr "Printer jam"); (PStr "description", PNone); (PStr "priority", PStr "medium")]) =
     inl (PDict sample_ticket) /\
   getitem (PDict sample_ticket) "id" = inl (PInt 7)) /\
  process_action (be_ok (PDict sample_ticket))
    (mk_action "create_ticket"
       [(PStr "form", PDict [(PStr "title", PStr "Printer jam"); (PStr "selectedTagIds", PList [PStr "t1"])])]) =
  inr (mk_exn "AttributeError" "'list' object has no attribute 'split'").
Proof.
  split; [repeat split |].
  apply (create_ticket_action_result (be_ok (PDict sample_ticket))
           [(PStr "form", PDict [(PStr "title", PStr "Printer jam"); (PStr "selectedTagIds", PList [PStr "t1"])])]
           [(PStr "title", PStr "Printer jam"); (PStr "selectedTagIds", PList [PStr "t1"])]
           (PDict sample_ticket) (PInt 7)); reflexivity.
Defined.

Lemma dict_get_missing : forall kv k d, dict_lookup kv k = None -> dict_get kv k d = d.
Proof.
  induction kv as [| [k' x] r IH]; intros k d H; simpl in *; [reflexivity |].
  destruct k'; try (now apply IH).
  destruct (String.eqb k s); [discriminate | now apply IH].
Qed.

(** An action whose context has no ["id"] is not rejected: [context.get("id")]
    is [None] and its f-string gives ["None"], so [view_ticket] navigates to
    ["/tickets/None"], [delete_ticket] sends [DELETE /api/tickets/None],
    [change_status] sends [PATCH /api/tickets/None/status] and [delete_tag]
    sends [DELETE /api/tags/None]. *)
Theorem actions_without_id :
  forall be context,
  dict_lookup context "id" = None ->
  process_action be (mk_action "view_ticket" context) = inl (navigate "/tickets/None") /\
  process_action be (mk_action "delete_ticket" context) =
    (_ <- http be "DELETE" "/api/tickets/None" [] PNone ;; inl (navigate "/tickets")) /\
  process_action be (mk_action "change_status" context) =
    (_ <- http be "PATCH" "/api/tickets/None/status" []
            (PDict [(PStr "status", dict_get context "status" PNone);
                    (PStr "resolution", dict_get context "resolution" PNone)]) ;;
     inl (navigate "/tickets/None")) /\
  process_action be (mk_action "delete_tag" context) =
    (_ <- http be "DELETE" "/api/tags/None" [] PNone ;; inl (navigate "/tags")).
Proof.
  intros be ctx H.
  assert (Hg : dict_get ctx "id" PNone = PNone) by now apply dict_get_missing.
  unfold process_action; cbn [action_name action_context].
  rewrite Hg. split; [| split; [| split]].
  - reflexivity.
  - unfold delete_ticket. change ("/api/tickets/" ++ py_str PNone) with "/api/tickets/None".
    destruct (http be "DELETE" "/api/tickets/None" [] PNone); reflexivity.
  - reflexivity.
  - unfold delete_tag. change ("/api/tags/" ++ py_str PNone) with "/api/tags/None".
    destruct (http be "DELETE" "/api/tags/None" [] PNone); reflexivity.
Qed.

Lemma actions_without_id_witness :
  dict_lookup [(PStr "status", PStr "completed")] "id" = None /\
  process_action be_tag_missing (mk_action "view_ticket" [(PStr "status", PStr "completed")]) =
    inl (navigate "/tickets/None") /\
  process_action be_tag_missing (mk_action "delete_ticket" [(PStr "status", PStr "completed")]) =
    (_ <- http be_tag_missing "DELETE" "/api/tickets/None" [] PNone ;; inl (navigate "/tickets")) /\
  process_action be_tag_missing (mk_action "change_status" [(PStr "status", PStr "completed")]) =
    (_ <- http be_tag_missing "PATCH" "/api/tickets/None/status" []
            (PDict [(PStr "status", dict_get [(PStr "status", PStr "completed")] "status" PNone);
                    (PStr "resolution", dict_get [(PStr "status", PStr "completed")] "resolution" PNone)]) ;;
     inl (navigate "/tickets/None")) /\
  process_action be_tag_missing (mk_action "delete_tag" [(PStr "status", PStr "completed")]) =
    (_ <- http be_tag_missing "DELETE" "/api/tags/None" [] PNone ;; inl (navigate "/tags")).
Proof.
  split; [reflexivity |].
  apply actions_without_id. reflexivity.
Defined.

(** *** The detail route with the detail data *)

Lemma error_messages_main : forall b e, surface_id b = "main" ->
  error_messages b e = [build_surface_update (error_view e); build_begin_rendering (error_view e) "app-layout"].
Proof. intros [sid comps dus] e H. simpl in H. subst sid. reflexivity. Qed.

Lemma detail_page_runs : forall kv tid st,
  dict_lookup kv "id" = Some tid -> dict_lookup kv "status" = Some (PStr st) ->
  mem_name st ticket_statuses = true ->
  exists b', build_ticket_detail_page (PDict kv) (new_builder "main") = ([], b', inl "detail-page") /\
             surface_id (build_app_layout b' "detail-page" "tickets") = "main".
Proof.
  intros kv tid st Hid Hst Hv.
  destruct (valid_status_cases st Hv) as [-> | [-> | [-> | ->]]];
    (eexists; split; [run_detail_page Hid Hst | reflexivity]).
Qed.

(** For a ticket with an [id] and a valid [status], once the ticket, its
    attachments and its history are fetched, the detail route sends the
    detail view, then either the messages of [build_ticket_detail_data] and
    [beginRendering], or, when [build_ticket_detail_data] raises, the error
    view: the detail view's [surfaceUpdate] is then already sent. *)
Theorem detail_route_messages :
  forall be rest query_params kv tid st att hist,
  rest <> "new" -> ends_with "/edit" ("/tickets/" ++ rest) = false ->
  get_ticket be (PStr (ticket_id_of rest)) = inl (PDict kv) ->
  get_ticket_attachments be (PStr (ticket_id_of rest)) = inl att ->
  get_ticket_history be (PStr (ticket_id_of rest)) = inl (PDict hist) ->
  dict_lookup kv "id" = Some tid -> dict_lookup kv "status" = Some (PStr st) ->
  mem_name st ticket_statuses = true ->
  serve be ("/tickets/" ++ rest) query_params =
    match build_ticket_detail_data (PDict kv) att (dict_get hist "data" (PList [])) with
    | inl msgs =>
        build_surface_update (detail_surface (PDict kv)) ::
        (msgs ++ [build_begin_rendering (detail_surface (PDict kv)) "app-layout"])%list
    | inr e =>
        [build_surface_update (detail_surface (PDict kv));
         build_surface_update (error_view e); build_begin_rendering (error_view e) "app-layout"]
    end.
Proof.
  intros be rest qp kv tid st att hist Hnew Hedit Ht Ha Hh Hid Hst Hv.
  destruct (detail_page_runs kv tid st Hid Hst Hv) as [b' [Hrun Hsid]].
  assert (Hs : detail_surface (PDict kv) = build_app_layout b' "detail-page" "tickets")
    by (unfold detail_surface; now rewrite Hrun).
  rewrite Hs.
  destruct (route_detail rest Hnew Hedit) as (R1 & R2 & R3 & R4).
  unfold serve, render, generate_page_messages, page_body.
  rewrite R1, R2, R3, R4, third_segment_tickets.
  unfold gbind, glift, layout, gmodify, gyield, gyield_all, method_get.
  cbv beta iota zeta. rewrite Ht. cbv beta iota zeta. rewrite Ha, Hh. cbv beta iota zeta.
  rewrite Hrun. cbv beta iota zeta.
  destruct (build_ticket_detail_data (PDict kv) att (dict_get hist "data" (PList []))) as [msgs | e].
  - reflexivity.
  - simpl app. now rewrite error_messages_main.
Qed.

Lemma detail_route_messages_witness :
  ("7" <> "new" /\ ends_with "/edit" ("/tickets/" ++ "7") = false /\
   get_ticket (be_ok (PDict sample_ticket)) (PStr (ticket_id_of "7")) = inl (PDict sample_ticket) /\
   get_ticket_attachments (be_ok (PDict sample_ticket)) (PStr (ticket_id_of "7")) = inl (PDict sample_ticket) /\
   get_ticket_history (be_ok (PDict sample_ticket)) (PStr (ticket_id_of "7")) = inl (PDict sample_ticket) /\
   dict_lookup sample_ticket "id" = Some (PInt 7) /\ dict_lookup sample_ticket "status" = Some (PStr "open") /\
   mem_name "open" ticket_statuses = true) /\
  serve (be_ok (PDict sample_ticket)) ("/tickets/" ++ "7") [] =
    match build_ticket_detail_data (PDict sample_ticket) (PDict sample_ticket)
            (dict_get sample_ticket "data" (PList [])) with
    | inl msgs =>
        build_surface_update (detail_surface (PDict sample_ticket)) ::
        (msgs ++ [build_begin_rendering (detail_surface (PDict sample_ticket)) "app-layout"])%list
    | inr e =>
        [build_surface_update (detail_surface (PDict sample_ticket));
         build_surface_update (error_view e); build_begin_rendering (error_view e) "app-layout"]
    end.
Proof.
  split.
  - repeat split; try reflexivity. discriminate.
  - apply detail_route_messages with (tid := PInt 7) (st := "open"); try reflexivity. discriminate.
Defined.

(** *** Attachment sizes *)

Lemma tenths_near_mib : forall n, (1048525 <= n < 1048576)%Z -> tenths_of_div n 10 = inl 10240%Z.
Proof.
  intros n Hn. unfold tenths_of_div, binary64_of_pos.
  assert (Hl : (Z.log2 n <= 20)%Z).
  { change 20%Z with (Z.log2 (2 ^ 20)). apply Z.log2_le_mono. lia. }
  destruct (Z.leb_spec (Z.log2 n + 1) 53) as [_ | H]; [| lia].
  change (0 - 10)%Z with (-10)%Z. change (0 <=? -10)%Z with false. cbv iota.
  change (2 ^ (- (-10)))%Z with 1024%Z.
  unfold round_half_even_div.
  assert (Hq : (10 * n / 1024 = 10239)%Z) by (symmetry; apply Z.div_unique with (r := (10 * n - 10239 * 1024)%Z); lia).
  assert (Hr : (10 * n mod 1024 = 10 * n - 10239 * 1024)%Z)
    by (symmetry; apply Z.mod_unique with (q := 10239%Z); lia).
  rewrite Hq, Hr.
  destruct (Z.ltb_spec (2 * (10 * n - 10239 * 1024)) 1024); [lia |].
  destruct (Z.ltb_spec 1024 (2 * (10 * n - 10239 * 1024))); [reflexivity | lia].
Qed.

(** An attachment's [sizeFormatted] picks its unit from the raw byte count,
    not from the rounded value: any integer size below 1024 prints as
    ["<n> B"]; every size from 1048525 to 1048575 bytes prints as
    ["1024.0 KB"], since its KB value rounds up to 1024.0 while it is still
    below 1024 * 1024; and 1048576 bytes prints as ["1.0 MB"]. *)
Theorem attachment_size_units :
  (forall n, (n < 1024)%Z -> size_formatted (PInt n) = inl (Z_dec n ++ " B")) /\
  (forall n, (1048525 <= n < 1048576)%Z -> size_formatted (PInt n) = inl "1024.0 KB") /\
  size_formatted (PInt 1048576) = inl "1.0 MB".
Proof.
  split; [| split; [| reflexivity]]; intros n Hn; unfold size_formatted, py_lt; cbn [as_int].
  - replace (n <? 1024)%Z with true by (symmetry; apply Z.ltb_lt; lia). reflexivity.
  - replace (n <? 1024)%Z with false by (symmetry; apply Z.ltb_ge; lia).
    replace (n <? 1024 * 1024)%Z with true by (symmetry; apply Z.ltb_lt; lia).
    cbn [rbind]. rewrite (tenths_near_mib n Hn). reflexivity.
Qed.

Lemma attachment_size_units_witness :
  ((1023 < 1024)%Z /\ size_formatted (PInt 1023) = inl (Z_dec 1023 ++ " B")) /\
  ((1048525 <= 1048575 < 1048576)%Z /\ size_formatted (PInt 1048575) = inl "1024.0 KB").
Proof.
  split; split; [lia | apply (proj1 attachment_size_units); lia | lia |].
  apply (proj1 (proj2 attachment_size_units)). lia.
Defined.

(** *** The error view *)

(** The error view of an exception [e] shows [str(e)] in its
    ["error-message"] text, and its retry button sends the [retry] action,
    which [handle_action] answers with [{"success": True, "result":
    {"refresh": True}}] whatever the context and the backend. *)
Theorem error_view_message_and_retry :
  forall e be context,
  lookup_component (error_view e) "error-message" =
    Some (component "error-message" "Text" [(PStr "text", PDict [(PStr "literalString", PStr (exn_str e))])]) /\
  lookup_component (error_view e) "error-retry-btn" =
    Some (component "error-retry-btn" "Button"
            [(PStr "child", PStr "error-retry-content"); (PStr "action", PDict [(PStr "name", PStr "retry")])]) /\
  handle_action be (mk_action "retry" context) =
    PDict [(PStr "success", PBool true); (PStr "result", PDict [(PStr "refresh", PBool true)])].
Proof.
  intros [t m] be ctx. split; [| split]; [vm_compute; reflexivity | vm_compute; reflexivity |].
  reflexivity.
Qed.

(** *** The list actions' navigation targets, read back *)

Lemma split_on_from_plain : forall s cur,
  str_contains_char "&" s = false -> split_on_from "&" s cur = [(cur ++ s)%string].
Proof.
  induction s as [| d r IH]; intros cur H; simpl in *.
  - now rewrite str_app_nil_r.
  - apply orb_false_elim in H. destruct H as [H1 H2]. rewrite H1.
    rewrite IH by exact H2. now rewrite str_app_assoc.
Qed.

Lemma split_on_from_app : forall s1 s2 cur,
  str_contains_char "&" s1 = false ->
  split_on_from "&" (s1 ++ String "&" s2) cur = (cur ++ s1)%string :: split_on_from "&" s2 "".
Proof.
  induction s1 as [| d r IH]; intros s2 cur H; simpl in *.
  - now rewrite str_app_nil_r.
  - apply orb_false_elim in H. destruct H as [H1 H2]. rewrite H1.
    rewrite IH by exact H2. now rewrite str_app_assoc.
Qed.

Lemma split_on_concat : forall parts,
  parts <> [] -> (forall x, In x parts -> str_contains_char "&" x = false) ->
  split_on_from "&" (str_concat "&" parts) "" = parts.
Proof.
  induction parts as [| x r IH]; intros Hne H; [congruence |].
  destruct r as [| y r].
  - simpl str_concat. rewrite split_on_from_plain by (apply H; left; reflexivity). reflexivity.
  - change (str_concat "&" (x :: y :: r)) with (x ++ String "&" (str_concat "&" (y :: r)))%string.
    rewrite split_on_from_app by (apply H; left; reflexivity).
    rewrite IH; [reflexivity | discriminate | intros z Hz; apply H; right; exact Hz].
Qed.

Lemma percent_decode_cons : forall d r, Ascii.eqb d "%" = false ->
  percent_decode (String d r) = String d (percent_decode r).
Proof.
  intros [b0 b1 b2 b3 b4 b5 b6 b7] r H.
  destruct b0, b1, b2, b3, b4, b5, b6, b7; try reflexivity; discriminate H.
Qed.

Lemma percent_decode_plain : forall s, str_contains_char "%" s = false -> percent_decode s = s.
Proof.
  induction s as [| d r IH]; intros H; [reflexivity |].
  simpl in H. apply orb_false_elim in H. destruct H as [H1 H2].
  rewrite percent_decode_cons by (rewrite Ascii.eqb_sym; exact H1). now rewrite IH.
Qed.

Lemma plus_to_space_plain : forall s, str_contains_char "+" s = false -> plus_to_space s = s.
Proof.
  unfold plus_to_space. induction s as [| d r IH]; intros H; [reflexivity |].
  cbn [str_contains_char] in H. cbn [str_map]. apply orb_false_elim in H. destruct H as [H1 H2].
  rewrite Ascii.eqb_sym, H1. now rewrite IH.
Qed.

Lemma str_forall_app : forall f s1 s2, str_forall f (s1 ++ s2) = str_forall f s1 && str_forall f s2.
Proof.
  induction s1 as [| d r IH]; intros s2; simpl; [reflexivity |]. rewrite IH. apply andb_assoc.
Qed.

Lemma plain_value_contains : forall c s,
  (forall d, plain_value_char d = true -> Ascii.eqb c d = false) ->
  str_forall plain_value_char s = true -> str_contains_char c s = false.
Proof.
  intros c s Hc Hs. apply str_contains_none. apply (index_of_none plain_value_char); assumption.
Qed.

Lemma plain_value_char_spec : forall d, plain_value_char d = true ->
  Ascii.eqb "&" d = false /\ Ascii.eqb "%" d = false /\ Ascii.eqb "+" d = false /\
  plain_query_char d = true.
Proof.
  intros d. unfold plain_value_char, plain_query_char.
  rewrite (Ascii.eqb_sym "&"), (Ascii.eqb_sym "%"), (Ascii.eqb_sym "+").
  destruct (Ascii.eqb d "&"), (Ascii.eqb d "#"), (Ascii.eqb d "%"), (Ascii.eqb d "+"),
    (N_of_ascii d =? 9)%N, (N_of_ascii d =? 10)%N, (N_of_ascii d =? 13)%N;
    simpl; intros H; try discriminate; auto.
Qed.

Lemma split_once_key : forall k v, index_of "=" k = None ->
  split_once "=" (k ++ String "=" v) = Some (k, v).
Proof.
  intros k v Hk. unfold split_once. rewrite index_of_app by exact Hk. simpl.
  rewrite Nat.add_0_r, substring_prefix.
  rewrite <- Nat.add_1_r, substring_skip.
  simpl. rewrite substring_all by (rewrite str_length_app; simpl; lia). reflexivity.
Qed.

Lemma query_part_plain : forall k v,
  str_forall plain_value_char k = true -> str_forall plain_value_char v = true ->
  str_forall plain_value_char (query_part (k, v)) = true.
Proof.
  intros k v Hk Hv. unfold query_part. simpl fst. simpl snd.
  rewrite str_forall_app, Hk. simpl. exact Hv.
Qed.

Lemma str_concat_cons : forall sep x r, exists rest, str_concat sep (x :: r) = (x ++ rest)%string.
Proof.
  intros sep x [| y r].
  - exists "". simpl. now rewrite str_app_nil_r.
  - exists (sep ++ str_concat sep (y :: r))%string. reflexivity.
Qed.

Lemma parse_qsl_parts : forall kvs,
  kvs <> [] ->
  (forall k v, In (k, v) kvs -> index_of "=" k = None /\ str_forall plain_value_char k = true /\
                                str_forall plain_value_char v = true /\ v <> "") ->
  parse_qsl percent_decode (str_concat "&" (map query_part kvs)) = kvs.
Proof.
  intros kvs Hne H. unfold parse_qsl.
  assert (Hq : String.eqb (str_concat "&" (map query_part kvs)) "" = false).
  { destruct kvs as [| [k v] r]; [congruence |].
    simpl map. destruct (str_concat_cons "&" (query_part (k, v)) (map query_part r)) as [rest E].
    rewrite E. unfold query_part. simpl fst. rewrite str_app_assoc.
    destruct k; reflexivity. }
  rewrite Hq.
  rewrite split_on_concat.
  - clear Hne Hq. induction kvs as [| [k v] r IH]; [reflexivity |].
    destruct (H k v (or_introl eq_refl)) as [Hk [Hpk [Hpv Hv]]].
    simpl map. simpl flat_map.
    unfold query_part at 1. simpl fst. simpl snd.
    change ("=" ++ v)%string with (String "=" v).
    rewrite split_once_key by exact Hk.
    destruct (Nat.eqb (String.length v) 0) eqn:E.
    + destruct v; [congruence | discriminate].
    + assert (Hc : forall s, str_forall plain_value_char s = true ->
                   percent_decode (plus_to_space s) = s).
      { intros s Hs. rewrite plus_to_space_plain, percent_decode_plain; [reflexivity | |];
          apply plain_value_contains; try exact Hs; intros d Hd; apply plain_value_char_spec, Hd. }
      rewrite (Hc k Hpk), (Hc v Hpv).
      simpl app. f_equal. apply IH. intros k' v' Hin. apply H. right. exact Hin.
  - destruct kvs; [congruence | discriminate].
  - intros x Hx. apply in_map_iff in Hx. destruct Hx as [[k v] [<- Hin]].
    destruct (H k v Hin) as [_ [Hpk [Hpv _]]].
    apply plain_value_contains; [intros d Hd; apply plain_value_char_spec, Hd |].
    apply query_part_plain; assumption.
Qed.

Lemma str_forall_impl : forall (f g : ascii -> bool) s,
  (forall d, f d = true -> g d = true) -> str_forall f s = true -> str_forall g s = true.
Proof.
  intros f g s Hfg. induction s as [| d r IH]; simpl; [reflexivity |].
  intros H. apply andb_prop in H. destruct H as [H1 H2]. rewrite (Hfg d H1). now apply IH.
Qed.

Lemma str_forall_concat : forall f sep parts,
  str_forall f sep = true -> (forall x, In x parts -> str_forall f x = true) ->
  str_forall f (str_concat sep parts) = true.
Proof.
  intros f sep parts Hs. induction parts as [| x r IH]; intros H; [reflexivity |].
  destruct r as [| y r].
  - apply H. left. reflexivity.
  - change (str_concat sep (x :: y :: r)) with (x ++ sep ++ str_concat sep (y :: r))%string.
    rewrite !str_forall_app, Hs, (H x (or_introl eq_refl)). simpl.
    apply IH. intros z Hz. apply H. right. exact Hz.
Qed.

Lemma stream_params_tickets : forall kvs rq,
  (forall k v, In (k, v) kvs -> index_of "=" k = None /\ str_forall plain_value_char k = true /\
                                str_forall plain_value_char v = true /\ v <> "") ->
  sdict_pop rq "path" = [] ->
  exists qp,
    stream_params percent_decode
      ("/tickets" ++ match map query_part kvs with
                     | [] => ""
                     | _ => "?" ++ str_concat "&" (map query_part kvs)
                     end) rq = Some ("/tickets", qp) /\
    forall k, sdict_get qp k = first_match kvs k.
Proof.
  intros kvs rq H Hrq.
  destruct kvs as [| kv r] eqn:Ekvs.
  - exists []. unfold stream_params.
    assert (Hu : urlparse "/tickets" = Some (mk_parse "" "" "/tickets" "" "" "")) by reflexivity.
    cbn [map]. rewrite str_app_nil_r, Hu. cbn [pr_query pr_path]. unfold parse_qs, parse_qsl. simpl. rewrite Hrq. split; reflexivity.
  - rewrite <- Ekvs. rewrite <- Ekvs in H.
    set (q := str_concat "&" (map query_part kvs)).
    assert (Hm : map query_part kvs <> []) by (rewrite Ekvs; discriminate).
    assert (Ht : ("/tickets" ++ match map query_part kvs with [] => "" | _ => "?" ++ q end)%string =
                 String "/" ("tickets" ++ String "?" q)).
    { destruct (map query_part kvs); [congruence | reflexivity]. }
    rewrite Ht.
    assert (Hq : str_forall plain_query_char q = true).
    { apply str_forall_concat; [reflexivity |].
      intros x Hx. apply in_map_iff in Hx. destruct Hx as [[k v] [<- Hin]].
      destruct (H k v Hin) as [_ [Hpk [Hpv _]]].
      apply (str_forall_impl plain_value_char); [intros d Hd; apply plain_value_char_spec, Hd |].
      apply query_part_plain; assumption. }
    unfold stream_params. rewrite urlparse_plain by (reflexivity || exact Hq).
    eexists. split; [reflexivity |]. intros k.
    rewrite merge_get.
    + unfold parse_qs. rewrite head_parse_qs_from. simpl head_value. cbv iota.
      rewrite Hrq. unfold q. cbn [pr_query]. rewrite parse_qsl_parts; [| rewrite Ekvs; discriminate | exact H].
      simpl. destruct (first_match kvs k); reflexivity.
    + unfold parse_qs. apply keys_parse_qs_from. constructor.
Qed.

Lemma digit_plain_value : forall d, is_digit d = true -> plain_value_char d = true.
Proof.
  intros [b0 b1 b2 b3 b4 b5 b6 b7] H.
  destruct b0, b1, b2, b3, b4, b5, b6, b7; try reflexivity; discriminate H.
Qed.

Lemma all_digits_plain : forall s, all_digits s = true -> str_forall plain_value_char s = true.
Proof.
  induction s as [| d r IH]; simpl; [reflexivity |].
  intros H. apply andb_prop in H. destruct H as [H1 H2].
  rewrite (digit_plain_value d H1). now apply IH.
Qed.

Lemma Z_dec_pos_plain : forall n, (1 < n)%Z -> str_forall plain_value_char (Z_dec n) = true /\ Z_dec n <> "".
Proof.
  intros [| p | p] Hn; try lia.
  destruct (N_dec_spec p) as [s [E [Ha [Hne _]]]].
  unfold Z_dec. rewrite E. split; [now apply all_digits_plain | exact Hne].
Qed.

Lemma query_navigation_parts : forall s t pr n,
  query_navigation (PStr s) (PStr t) (PStr pr) n =
  let kvs := ((if String.eqb s "" then [] else [("search", s)]) ++
              (if String.eqb t "" then [] else [("status", t)]) ++
              (if String.eqb pr "" then [] else [("priority", pr)]) ++
              (if (1 <? n)%Z then [("page", Z_dec n)] else []))%list in
  navigate ("/tickets" ++ match map query_part kvs with
                         | [] => ""
                         | _ => "?" ++ str_concat "&" (map query_part kvs)
                         end).
Proof.
  intros s t pr n. unfold query_navigation. cbn [truthy py_str].
  destruct (String.eqb s ""), (String.eqb t ""), (String.eqb pr ""), (1 <? n)%Z; reflexivity.
Qed.

Lemma paginate_navigation : forall be context s t pr cp n,
  py_or (dict_get context "current_search" PNone) (PStr "") = PStr s ->
  py_or (dict_get context "current_status" PNone) (PStr "") = PStr t ->
  py_or (dict_get context "current_priority" PNone) (PStr "") = PStr pr ->
  safe_int (dict_get context "current_page" PNone) 1 = inl cp ->
  safe_int (dict_get context "page" PNone) 1 = inl n ->
  process_action be (mk_action "paginate" context) = inl (query_navigation (PStr s) (PStr t) (PStr pr) n).
Proof.
  intros be context s t pr cp n H1 H2 H3 H4 H5.
  unfold process_action. cbn [action_name action_context].
  cbv zeta. cbv beta.
  assert (E1 : String.eqb "paginate" "navigate" = false) by reflexivity.
  assert (E2 : mem_name "paginate" ["search_tickets"; "filter_status"; "filter_priority"; "paginate"] = true) by reflexivity.
  assert (E3 : String.eqb "paginate" "search_tickets" = false) by reflexivity.
  assert (E4 : String.eqb "paginate" "filter_status" = false) by reflexivity.
  assert (E5 : String.eqb "paginate" "filter_priority" = false) by reflexivity.
  rewrite E1, E2, H1, H2, H3, H4. cbn [rbind]. rewrite E3, E4, E5, H5. reflexivity.
Qed.

Lemma dict_get_query_dict : forall qp k d,
  dict_get (query_dict qp) k d = match sdict_get qp k with Some v => PStr v | None => d end.
Proof.
  induction qp as [| [k1 v1] r IH]; intros k d; simpl; [reflexivity |].
  destruct (String.eqb k k1); [reflexivity | apply IH].
Qed.

(** The [paginate] action, for a context whose current search, status and
    priority are strings without [& # % +], tab, LF or CR, answers with a
    navigation target that the stream endpoint reads back: when the stream
    is requested with that target as its [path] (and no other outer
    parameter), the routing path is ["/tickets"] and the list route asks
    the backend for the same search, status and priority (the empty ones
    omitted) and for page [max(1, page)]: a page below 2 is left out of
    the target and read back as page 1. *)
Theorem paginate_target_read_back :
  forall be context s t pr cp n rq,
  py_or (dict_get context "current_search" PNone) (PStr "") = PStr s ->
  py_or (dict_get context "current_status" PNone) (PStr "") = PStr t ->
  py_or (dict_get context "current_priority" PNone) (PStr "") = PStr pr ->
  safe_int (dict_get context "current_page" PNone) 1 = inl cp ->
  safe_int (dict_get context "page" PNone) 1 = inl n ->
  str_forall plain_value_char s = true ->
  str_forall plain_value_char t = true ->
  str_forall plain_value_char pr = true ->
  sdict_pop rq "path" = [] ->
  exists target qp,
    process_action be (mk_action "paginate" context) = inl (navigate target) /\
    stream_params percent_decode target rq = Some ("/tickets", qp) /\
    fetch_tickets be (query_dict qp) =
      list_tickets be (if String.eqb s "" then PNone else PStr s)
                      (if String.eqb t "" then PNone else PStr t)
                      (if String.eqb pr "" then PNone else PStr pr) (Z.max 1 n).
Proof.
  intros be context s t pr cp n rq H1 H2 H3 H4 H5 Hps Hpt Hpp Hrq.
  pose proof (paginate_navigation be context s t pr cp n H1 H2 H3 H4 H5) as Hnav.
  rewrite query_navigation_parts in Hnav. cbv zeta in Hnav.
  set (kvs := ((if String.eqb s "" then [] else [("search", s)]) ++
               (if String.eqb t "" then [] else [("status", t)]) ++
               (if String.eqb pr "" then [] else [("priority", pr)]) ++
               (if (1 <? n)%Z then [("page", Z_dec n)] else []))%list) in Hnav.
  assert (Hkvs : forall k v, In (k, v) kvs -> index_of "=" k = None /\ str_forall plain_value_char k = true /\
                                             str_forall plain_value_char v = true /\ v <> "").
  { intros k v Hin. unfold kvs in Hin. rewrite !in_app_iff in Hin.
    destruct Hin as [Hin | [Hin | [Hin | Hin]]];
      [destruct (String.eqb s "") eqn:E | destruct (String.eqb t "") eqn:E
      | destruct (String.eqb pr "") eqn:E | destruct (1 <? n)%Z eqn:E];
      try contradiction; destruct Hin as [Hin | []]; injection Hin as <- <-;
      (split; [reflexivity | split; [reflexivity |]]).
    - split; [exact Hps | intros ->; discriminate E].
    - split; [exact Hpt | intros ->; discriminate E].
    - split; [exact Hpp | intros ->; discriminate E].
    - apply Z.ltb_lt in E. exact (Z_dec_pos_plain n E). }
  destruct (stream_params_tickets kvs rq Hkvs Hrq) as [qp [Hs Hg]].
  eexists. exists qp. split; [exact Hnav |]. split; [exact Hs |].
  unfold fetch_tickets. rewrite !dict_get_query_dict, !Hg.
  unfold kvs.
  destruct (String.eqb s "") eqn:Es, (String.eqb t "") eqn:Et, (String.eqb pr "") eqn:Ep,
    (1 <? n)%Z eqn:En; simpl first_match; cbn [truthy];
    rewrite ?Es, ?Et, ?Ep; cbn [negb];
    first [ rewrite safe_int_Z_dec; cbn [rbind]; apply Z.ltb_lt in En; rewrite Z.max_r by lia; reflexivity
          | apply Z.ltb_ge in En; rewrite Z.max_l by lia; reflexivity ].
Qed.

Lemma paginate_target_read_back_witness :
  exists target qp,
    process_action (be_ok (PDict []))
      (mk_action "paginate" [(PStr "current_search", PStr "printer"); (PStr "current_status", PStr "open");
                             (PStr "current_page", PInt 1); (PStr "page", PInt 3)]) = inl (navigate target) /\
    stream_params percent_decode target [("path", "/tickets?search=printer&status=open&page=3")] =
      Some ("/tickets", qp) /\
    fetch_tickets (be_ok (PDict [])) (query_dict qp) =
      list_tickets (be_ok (PDict [])) (PStr "printer") (PStr "open") PNone 3.
Proof.
  apply (paginate_target_read_back (be_ok (PDict []))
           [(PStr "current_search", PStr "printer"); (PStr "current_status", PStr "open");
            (PStr "current_page", PInt 1); (PStr "page", PInt 3)]
           "printer" "open" "" 1 3 [("path", "/tickets?search=printer&status=open&page=3")]);
    reflexivity.
Defined.
